(** * DriftGuardAI: the risk and governance evaluation engine

    A shallow embedding of the governance core of the backend
    ([app/services/*.py], [app/api/governance.py], [app/api/simulation.py])
    and the properties its specification states about it.

    Conventions of the embedding.
    - A Python [float] is the rational number it denotes ([Q]); comparisons
      are exact, arithmetic is the exact arithmetic of the rationals (no NaN,
      no infinities, no rounding error). The finite range of the floats is
      kept where the code meets it: [float] on an integer too large for a
      float raises [OverflowError], and the statements about the drift
      calculation returning are made for values well inside that range.
    - The SQLAlchemy session is an explicit [Db] value threaded through the
      functions; [db.add] followed by [db.commit] appends a row.
    - [datetime.utcnow()] is a parameter [now] of the functions that stamp rows.
    - A raised exception is the [Raise] case of [result].
    - An f-string keeps its interpolated values unformatted ([fstring]). *)

From Stdlib Require Import List String ZArith QArith Qround Bool Lia Lqa Arith.
Import ListNotations.

Local Open Scope string_scope.
Local Open Scope list_scope.

(* ================================================================== *)
(** * Part I: the program                                              *)
(* ================================================================== *)

(** ** Python values, exceptions and builtins *)
Module Py.

(** One piece of an f-string: literal text or an interpolated value. *)
Inductive fpart : Type :=
| Lit (s : string)
| FNum (q : Q)
| FInt (z : Z)
| FBool (b : bool).

Definition fstring := list fpart.

(** The exceptions the modelled code raises or catches. *)
Inductive exn : Type :=
| ValueError
| TypeError
| OverflowError
| OperationalError (msg : string)          (* a failure of the database session *)
| HTTPException (status_code : Z) (detail : fstring).

Definition str_exn (e : exn) : fstring :=
  match e with
  | ValueError => [Lit "ValueError"]
  | TypeError => [Lit "TypeError"]
  | OverflowError => [Lit "OverflowError"]
  | OperationalError msg => [Lit msg]
  | HTTPException _ detail => detail
  end.

Inductive result (A : Type) : Type :=
| Ok (a : A)
| Raise (e : exn).
Arguments Ok {A} a.
Arguments Raise {A} e.

Definition bind {A B} (r : result A) (k : A -> result B) : result B :=
  match r with
  | Ok a => k a
  | Raise e => Raise e
  end.

Definition is_ok {A} (r : result A) : bool :=
  match r with Ok _ => true | Raise _ => false end.

(** A JSON value as stored in a [JSON] column. *)
#[local] Set Warnings "-register-all".
Inductive json : Type :=
| JNull
| JBool (b : bool)
| JNum (q : Q)
| JStr (s : string)
| JArr (items : list json)
| JObj (fields : list (string * json)).

(** A Python [dict] with string keys, in insertion order. *)
Definition dict (V : Type) := list (string * V).

Definition dict_get {V} (d : dict V) (k : string) : option V :=
  match find (fun kv => String.eqb (fst kv) k) d with
  | Some kv => Some (snd kv)
  | None => None
  end.

(** [k in d] *)
Definition dict_contains {V} (d : dict V) (k : string) : bool :=
  match dict_get d k with Some _ => true | None => false end.

(** [not d] *)
Definition is_empty {V} (d : dict V) : bool :=
  match d with [] => true | _ => false end.

(** [list(d.keys())] *)
Definition keys {V} (d : dict V) : list string := map fst d.

(** [s or default] on strings: the empty string is falsy. *)
Definition str_or (s default : string) : string :=
  if String.eqb s "" then default else s.

(** Float comparisons. *)
Definition Qltb (x y : Q) : bool := negb (Qle_bool y x).
Definition Qgtb (x y : Q) : bool := Qltb y x.
Definition Qgeb (x y : Q) : bool := Qle_bool y x.

(** The builtins [min(a, b)] and [max(a, b)]: the first argument wins a tie. *)
Definition py_min (a b : Q) : Q := if Qltb b a then b else a.
Definition py_max (a b : Q) : Q := if Qgtb b a then b else a.

(** [round(x)] to the nearest integer, ties to the even one. *)
Definition round_half_even (x : Q) : Z :=
  let f := Qfloor x in
  let r := (x - inject_Z f)%Q in
  if Qltb r 0.5 then f
  else if Qgtb r 0.5 then (f + 1)%Z
  else if Z.even f then f else (f + 1)%Z.

(** [round(x, ndigits)] *)
Definition py_round (x : Q) (ndigits : nat) : Q :=
  let scale := inject_Z (10 ^ Z.of_nat ndigits) in
  (inject_Z (round_half_even (x * scale)) / scale)%Q.

(** [sum(l)] *)
Definition py_sum (l : list Q) : Q := fold_left Qplus l 0%Q.

(** [max(l)] and [min(l)] on a non-empty list [x :: l]: the first extreme
    element met is kept. *)
Definition max_of (x : Q) (l : list Q) : Q :=
  fold_left (fun acc y => if Qgtb y acc then y else acc) l x.
Definition min_of (x : Q) (l : list Q) : Q :=
  fold_left (fun acc y => if Qltb y acc then y else acc) l x.

(** [len(l) < n] *)
Definition len_lt {A} (l : list A) (n : nat) : bool := Nat.ltb (List.length l) n.

(** The number of elements of [l] that satisfy [p]. *)
Definition count {A} (p : A -> bool) (l : list A) : Z :=
  Z.of_nat (List.length (filter p l)).

(** The builtins whose definition lies outside the repository: [str] on a
    JSON value (used as a grouping key), the grammar of float literals
    accepted by [float] on a string, and [numpy.log]. *)
Class Runtime : Type := {
  py_str : json -> string;
  parse_float : string -> option Q;
  np_log : Q -> Q
}.

(** [sys.float_info.max], the largest finite float. *)
Definition float_max : Q := inject_Z ((2 ^ 53 - 1) * 2 ^ 971).

(** [float(n)] on an [int] rounds to the nearest float, ties to even, and
    raises [OverflowError] when that would be 2^1024 or beyond, that is from
    2^1024 - 2^970 on. A JSON number is an [int] or a [float], and a float is
    at most [float_max] in magnitude: a number of that size is an [int]. *)
Definition float_overflows (q : Q) : bool :=
  let bound := inject_Z (2 ^ 1024 - 2 ^ 970) in
  Qle_bool bound q || Qle_bool q (- bound).

(** [float(v)]: numbers and booleans convert, but an integer beyond the
    range of the floats raises [OverflowError]; a string converts when it
    is a float literal and raises [ValueError] otherwise; anything else
    raises [TypeError]. *)
Definition py_float `{Runtime} (v : json) : result Q :=
  match v with
  | JNum q => if float_overflows q then Raise OverflowError else Ok q
  | JBool b => Ok (if b then 1%Q else 0%Q)
  | JStr s =>
      match parse_float s with
      | Some q => Ok q
      | None => Raise ValueError
      end
  | JNull | JArr _ | JObj _ => Raise TypeError
  end.

End Py.
Export Py.

Declare Scope py_scope.
Notation "x <- r ;; k" := (Py.bind r (fun x => k))
(at level 100, r at next level, right associativity) : py_scope.
Local Open Scope py_scope.

(** ** The ORM models ([app/models/*.py]) and the session *)
Module Models.

Record ModelRegistry : Type := {
  mr_id : Z;
  mr_deployment_status : string;
  mr_status : string
}.

Record GovernancePolicy : Type := {
  gp_id : Z;
  gp_name : string;
  max_allowed_mri : Q;
  max_allowed_disparity : Q;
  approval_required_above_mri : Q;
  gp_active : bool
}.

Record PredictionLog : Type := {
  pl_model_id : Z;
  input_features : dict json;
  prediction : Q;
  pl_timestamp : Z
}.

Record DriftMetric : Type := {
  dm_model_id : Z;
  feature_name : string;
  psi_value : Q;
  ks_statistic : Q;
  drift_flag : bool;
  dm_timestamp : Z
}.

Record FairnessMetric : Type := {
  fm_model_id : Z;
  protected_attribute : string;
  group_name : string;
  total_predictions : Z;
  positive_predictions : Z;
  approval_rate : Q;
  disparity_score : Q;
  fairness_flag : bool;
  fm_timestamp : Z
}.

Record RiskHistory : Type := {
  rh_model_id : Z;
  risk_score : Q;
  drift_component : Q;
  fairness_component : Q;
  rh_timestamp : Z
}.

Record AuditLog : Type := {
  al_user_id : Z;
  al_model_id : Z;
  al_action : string;
  al_action_status : string;
  al_risk_score : option Q;
  al_disparity_score : option Q;
  al_governance_status : option string;
  al_override_used : option string;
  al_override_justification : option string;
  al_deployment_status : option string;
  al_details : dict fstring;
  al_timestamp : Z
}.

(** The committed content of the database, one list per table, in
    insertion order. *)
Record Db : Type := {
  models : list ModelRegistry;
  policies : list GovernancePolicy;
  prediction_logs : list PredictionLog;
  drift_metrics : list DriftMetric;
  fairness_metrics : list FairnessMetric;
  risk_history : list RiskHistory;
  audit_logs : list AuditLog
}.

(** *** Query combinators *)

Fixpoint insert_by {A} (before : A -> A -> bool) (x : A) (l : list A) : list A :=
  match l with
  | [] => [x]
  | y :: l' => if before x y then x :: l else y :: insert_by before x l'
  end.

(** [order_by(key.asc())] and [order_by(key.desc())]: rows with equal keys
    come in an order SQL leaves open; here they keep their table order. *)
Definition order_by_asc {A} (key : A -> Z) (l : list A) : list A :=
  fold_right (insert_by (fun x y => (key x <=? key y)%Z)) [] l.

Definition order_by_desc {A} (key : A -> Z) (l : list A) : list A :=
  fold_right (insert_by (fun x y => (key y <=? key x)%Z)) [] l.

(** [.first()]; a query without [order_by] yields the rows in table order. *)
Definition first {A} (l : list A) : option A := hd_error l.

(** [.limit(n)] *)
Definition limit {A} (n : nat) (l : list A) : list A := firstn n l.

Fixpoint update_first {A} (p : A -> bool) (f : A -> A) (l : list A) : list A :=
  match l with
  | [] => []
  | x :: l' => if p x then f x :: l' else x :: update_first p f l'
  end.

(** [db.query(ModelRegistry).filter(ModelRegistry.id == model_id).first()] *)
Definition query_model (db : Db) (model_id : Z) : option ModelRegistry :=
  first (filter (fun m => (mr_id m =? model_id)%Z) (models db)).

(** [db.query(GovernancePolicy).filter(GovernancePolicy.active == True).first()] *)
Definition query_active_policy (db : Db) : option GovernancePolicy :=
  first (filter gp_active (policies db)).

(** [db.query(RiskHistory).filter(model_id == ...).order_by(timestamp.desc())] *)
Definition query_risk_history (db : Db) (model_id : Z) : list RiskHistory :=
  order_by_desc rh_timestamp
    (filter (fun r => (rh_model_id r =? model_id)%Z) (risk_history db)).

Definition query_fairness_metrics (db : Db) (model_id : Z) : list FairnessMetric :=
  order_by_desc fm_timestamp
    (filter (fun r => (fm_model_id r =? model_id)%Z) (fairness_metrics db)).

Definition query_drift_metrics (db : Db) (model_id : Z) : list DriftMetric :=
  order_by_desc dm_timestamp
    (filter (fun r => (dm_model_id r =? model_id)%Z) (drift_metrics db)).

(** [db.query(PredictionLog).filter(PredictionLog.model_id == model_id)] *)
Definition query_prediction_logs (db : Db) (model_id : Z) : list PredictionLog :=
  filter (fun l => (pl_model_id l =? model_id)%Z) (prediction_logs db).

(** *** Writes (each one followed by [db.commit()] in the source) *)

Definition with_models (db : Db) (ms : list ModelRegistry) : Db :=
  {| models := ms; policies := policies db;
     prediction_logs := prediction_logs db; drift_metrics := drift_metrics db;
     fairness_metrics := fairness_metrics db; risk_history := risk_history db;
     audit_logs := audit_logs db |}.

Definition update_model (db : Db) (model_id : Z)
    (f : ModelRegistry -> ModelRegistry) : Db :=
  with_models db (update_first (fun m => (mr_id m =? model_id)%Z) f (models db)).

Definition set_status (s : string) (m : ModelRegistry) : ModelRegistry :=
  {| mr_id := mr_id m; mr_deployment_status := mr_deployment_status m;
     mr_status := s |}.

Definition set_deployed (m : ModelRegistry) : ModelRegistry :=
  {| mr_id := mr_id m; mr_deployment_status := "deployed";
     mr_status := "deployed" |}.

Definition add_drift_metrics (db : Db) (rows : list DriftMetric) : Db :=
  {| models := models db; policies := policies db;
     prediction_logs := prediction_logs db;
     drift_metrics := drift_metrics db ++ rows;
     fairness_metrics := fairness_metrics db; risk_history := risk_history db;
     audit_logs := audit_logs db |}.

Definition add_fairness_metrics (db : Db) (rows : list FairnessMetric) : Db :=
  {| models := models db; policies := policies db;
     prediction_logs := prediction_logs db; drift_metrics := drift_metrics db;
     fairness_metrics := fairness_metrics db ++ rows;
     risk_history := risk_history db; audit_logs := audit_logs db |}.

Definition add_risk_history (db : Db) (row : RiskHistory) : Db :=
  {| models := models db; policies := policies db;
     prediction_logs := prediction_logs db; drift_metrics := drift_metrics db;
     fairness_metrics := fairness_metrics db;
     risk_history := risk_history db ++ [row]; audit_logs := audit_logs db |}.

Definition add_audit_log (db : Db) (row : AuditLog) : Db :=
  {| models := models db; policies := policies db;
     prediction_logs := prediction_logs db; drift_metrics := drift_metrics db;
     fairness_metrics := fairness_metrics db; risk_history := risk_history db;
     audit_logs := audit_logs db ++ [row] |}.

Definition add_prediction_log (db : Db) (row : PredictionLog) : Db :=
  {| models := models db; policies := policies db;
     prediction_logs := prediction_logs db ++ [row];
     drift_metrics := drift_metrics db; fairness_metrics := fairness_metrics db;
     risk_history := risk_history db; audit_logs := audit_logs db |}.

Definition with_policies (db : Db) (ps : list GovernancePolicy) : Db :=
  {| models := models db; policies := ps;
     prediction_logs := prediction_logs db; drift_metrics := drift_metrics db;
     fairness_metrics := fairness_metrics db; risk_history := risk_history db;
     audit_logs := audit_logs db |}.

(** [.offset(n)] *)
Definition offset {A} (n : nat) (l : list A) : list A := skipn n l.

End Models.
Export Models.

(** ** [app/services/governance_service.py] *)
Module GovernanceService.

(** The dictionary [evaluate_model_governance] returns; the two scores are
    absent from it on the early returns. *)
Record GovernanceResult : Type := {
  gr_status : string;
  gr_reason : fstring;
  gr_risk_score : option Q;
  gr_disparity_score : option Q
}.

(** The rule chain of [evaluate_model_governance] (the [if]/[elif] block):
    the new status and its reason. *)
Definition governance_rules (risk_score disparity_score : Q)
    (policy : GovernancePolicy) : string * fstring :=
  if Qgtb risk_score (max_allowed_mri policy) then
    ("blocked",
     [Lit "Risk score "; FNum risk_score; Lit " exceeds max allowed ";
      FNum (max_allowed_mri policy)])
  else if Qgtb disparity_score (max_allowed_disparity policy) then
    ("at_risk",
     [Lit "Disparity "; FNum disparity_score; Lit " exceeds max allowed ";
      FNum (max_allowed_disparity policy)])
  else if Qgtb risk_score (approval_required_above_mri policy) then
    ("at_risk",
     [Lit "Risk score "; FNum risk_score; Lit " requires approval (threshold ";
      FNum (approval_required_above_mri policy); Lit ")"])
  else
    ("approved", [Lit "All governance checks passed"]).

Definition evaluate_model_governance (db : Db) (model_id : Z)
    : GovernanceResult * Db :=
  match query_model db model_id with
  | None =>
      ({| gr_status := "draft"; gr_reason := [Lit "Model not found"];
          gr_risk_score := None; gr_disparity_score := None |}, db)
  | Some model =>
      match query_active_policy db with
      | None =>
          ({| gr_status := str_or (mr_status model) "draft";
              gr_reason := [Lit "No active policy"];
              gr_risk_score := None; gr_disparity_score := None |}, db)
      | Some policy =>
          let risk_score :=
            match first (query_risk_history db model_id) with
            | Some latest_risk => risk_score latest_risk
            | None => 0%Q
            end in
          let disparity_score :=
            match first (query_fairness_metrics db model_id) with
            | Some latest_fairness => disparity_score latest_fairness
            | None => 0%Q
            end in
          let '(new_status, reason) :=
            governance_rules risk_score disparity_score policy in
          ({| gr_status := new_status; gr_reason := reason;
              gr_risk_score := Some risk_score;
              gr_disparity_score := Some disparity_score |},
           update_model db model_id (set_status new_status))
      end
  end.

Definition _merge_governance_and_ai (governance_status ai_status : string) : string :=
  if String.eqb governance_status "blocked" || String.eqb ai_status "elevated"
  then "blocked"
  else if String.eqb governance_status "at_risk" || String.eqb ai_status "concerning"
  then "at_risk"
  else "approved".

End GovernanceService.
Export GovernanceService.

(** ** [app/services/audit_service.py] *)
Module AuditService.

Inductive level : Type := INFO | WARNING | ERROR.

Record LogRecord : Type := {
  lr_level : level;
  lr_message : fstring
}.

(** What a request handler acts on: the database, the records written to the
    [logging] module, and (ghost state, kept for the proofs only) the audit
    entry of every invocation of [log_governance_action], whether or not its
    write succeeded. *)
Record World : Type := {
  w_db : Db;
  w_logs : list LogRecord;
  w_audit_calls : list AuditLog
}.

Definition with_db (w : World) (db : Db) : World :=
  {| w_db := db; w_logs := w_logs w; w_audit_calls := w_audit_calls w |}.

(** [logger.<level>(message)] *)
Definition emit (lv : level) (message : fstring) (w : World) : World :=
  {| w_db := w_db w;
     w_logs := w_logs w ++ [{| lr_level := lv; lr_message := message |}];
     w_audit_calls := w_audit_calls w |}.

Definition record_call (entry : AuditLog) (w : World) : World :=
  {| w_db := w_db w; w_logs := w_logs w;
     w_audit_calls := w_audit_calls w ++ [entry] |}.

(** The environment of an audit write: the exception, if any, that the
    session raises while the entry is added and committed. *)
Definition session_fault := AuditLog -> option exn.

Definition or_empty {V} (details : option (dict V)) : dict V :=
  match details with
  | Some d => d
  | None => []
  end.

Definition opt_str (o : option string) : fpart :=
  match o with
  | Some s => Lit s
  | None => Lit "None"
  end.

Definition log_governance_action (fault : session_fault) (now : Z) (w : World)
    (user_id model_id : Z) (action action_status : string)
    (risk_score disparity_score : option Q)
    (governance_status override_used override_justification
       deployment_status : option string)
    (details : option (dict fstring)) : result AuditLog * World :=
  let audit_entry :=
    {| al_user_id := user_id; al_model_id := model_id; al_action := action;
       al_action_status := action_status; al_risk_score := risk_score;
       al_disparity_score := disparity_score;
       al_governance_status := governance_status;
       al_override_used := override_used;
       al_override_justification := override_justification;
       al_deployment_status := deployment_status;
       al_details := or_empty details; al_timestamp := now |} in
  let w := record_call audit_entry w in
  match fault audit_entry with
  | None =>
      (* db.add(audit_entry); db.commit(); db.refresh(audit_entry) *)
      let w := with_db w (add_audit_log (w_db w) audit_entry) in
      let w := emit INFO
        [Lit "Audit: "; Lit action; Lit " for model "; FInt model_id;
         Lit " by user "; FInt user_id; Lit " - status: "; Lit action_status;
         Lit ", governance: "; opt_str governance_status] w in
      (Ok audit_entry, w)
  | Some e =>
      (* except Exception as e: logger.error(...); db.rollback(); raise *)
      let w := emit ERROR (Lit "Failed to log governance action: " :: str_exn e) w in
      (Raise e, w)
  end.

(** [column == value] on a nullable string column: NULL matches nothing. *)
Definition column_is (column : option string) (value : string) : bool :=
  match column with
  | Some s => String.eqb s value
  | None => false
  end.

(** The optional filters of [get_audit_trail] apply when the argument is
    truthy: a model id that is neither [None] nor 0, an action that is
    neither [None] nor empty. *)
Definition get_audit_trail (db : Db) (model_id : option Z)
    (action : option string) (lim : nat) : list AuditLog :=
  let query := audit_logs db in
  let query :=
    match model_id with
    | Some id =>
        if (id =? 0)%Z then query
        else filter (fun a => (al_model_id a =? id)%Z) query
    | None => query
    end in
  let query :=
    match action with
    | Some name =>
        if String.eqb name "" then query
        else filter (fun a => String.eqb (al_action a) name) query
    | None => query
    end in
  limit lim (order_by_desc al_timestamp query).

Definition get_model_deployment_history (db : Db) (model_id : Z) (lim : nat)
    : list AuditLog :=
  limit lim
    (order_by_desc al_timestamp
       (filter (fun a => (al_model_id a =? model_id)%Z
                         && (String.eqb (al_action a) "deployment"
                             || String.eqb (al_action a) "override"))
               (audit_logs db))).

Definition get_overrides_for_user (db : Db) (user_id : Z) (lim : nat)
    : list AuditLog :=
  limit lim
    (order_by_desc al_timestamp
       (filter (fun a => (al_user_id a =? user_id)%Z
                         && column_is (al_override_used a) "yes")
               (audit_logs db))).

Definition get_blocked_deployments (db : Db) (lim : nat) : list AuditLog :=
  limit lim
    (order_by_desc al_timestamp
       (filter (fun a => column_is (al_deployment_status a) "blocked")
               (audit_logs db))).

End AuditService.
Export AuditService.

(** ** [app/api/governance.py] *)
Module GovernanceApi.

(** The body of the 200 response of [deploy_model]. *)
Record DeployResponse : Type := {
  dr_model_id : Z;
  dr_status : string;
  dr_message : string;
  dr_override_used : bool
}.

(** [d.get(key, default)] on the optional scores of the governance result. *)
Definition get_or (o : option Q) (default : Q) : Q :=
  match o with
  | Some q => q
  | None => default
  end.

(** [try: audit_service.log_governance_action(...) except Exception as e:
    logger.error(f"<message>: {str(e)}")] *)
Definition try_audit (message : string) (r : result AuditLog * World) : World :=
  match r with
  | (Ok _, w) => w
  | (Raise e, w) => emit ERROR (Lit message :: Lit ": " :: str_exn e) w
  end.

Definition deploy_model (fault : session_fault) (now : Z) (current_user : Z)
    (model_id : Z) (override : bool) (w : World)
    : result DeployResponse * World :=
  match query_model (w_db w) model_id with
  | None => (Raise (HTTPException 404 [Lit "Model not found"]), w)
  | Some model =>
      (* Evaluate current governance status *)
      let '(governance_result, db1) :=
        evaluate_model_governance (w_db w) model_id in
      let w := with_db w db1 in
      let current_status := gr_status governance_result in
      let risk_score := get_or (gr_risk_score governance_result) 0 in
      let disparity_score := get_or (gr_disparity_score governance_result) 0 in
      let w := emit INFO
        [Lit "Deployment requested for model "; FInt model_id;
         Lit " by user "; FInt current_user; Lit ": status="; Lit current_status;
         Lit ", override="; FBool override; Lit ", risk="; FNum risk_score] w in
      if String.eqb current_status "blocked" then
        (* HARD BLOCK: Risk exceeds max threshold (NO OVERRIDE) *)
        let w := emit WARNING
          ([Lit "Deployment BLOCKED for model "; FInt model_id; Lit ": "]
             ++ gr_reason governance_result) w in
        let w := try_audit "Failed to log blocked deployment"
          (log_governance_action fault now w current_user model_id
             "deployment" "blocked" (Some risk_score) (Some disparity_score)
             (Some current_status) (Some "no") None (Some "blocked")
             (Some [("reason", gr_reason governance_result);
                    ("policy_violation", [Lit "hard_block"])])) in
        (Raise (HTTPException 403
           ([Lit "Deployment blocked: "] ++ gr_reason governance_result
              ++ [Lit " (Override not permitted for hard blocks)"])), w)
      else if String.eqb current_status "at_risk" && negb override then
        (* SOFT GATE: Risk between approval and hard block (OVERRIDE ALLOWED) *)
        let w := emit WARNING
          ([Lit "Deployment at-risk for model "; FInt model_id; Lit ": "]
             ++ gr_reason governance_result) w in
        let w := try_audit "Failed to log at-risk deployment"
          (log_governance_action fault now w current_user model_id
             "deployment" "rejected" (Some risk_score) (Some disparity_score)
             (Some current_status) (Some "no") None (Some "blocked")
             (Some [("reason", gr_reason governance_result);
                    ("policy_violation", [Lit "soft_gate"])])) in
        (Raise (HTTPException 403
           ([Lit "Model at risk. "] ++ gr_reason governance_result
              ++ [Lit " Add ?override=true to override."])), w)
      else
        (* Determine override status *)
        let use_override := override && String.eqb current_status "at_risk" in
        let override_status := if use_override then "yes" else "no" in
        let w :=
          if use_override then
            emit WARNING
              [Lit "Deployment OVERRIDE used for model "; FInt model_id;
               Lit " by user "; FInt current_user; Lit " (status=";
               Lit current_status; Lit ", risk="; FNum risk_score; Lit ")"] w
          else w in
        (* Deploy model *)
        let w := with_db w (update_model (w_db w) model_id set_deployed) in
        let w := emit INFO
          [Lit "Model "; FInt model_id; Lit " deployed successfully by user ";
           FInt current_user; Lit " (override="; Lit override_status; Lit ")"] w in
        let w := try_audit "Failed to log successful deployment"
          (log_governance_action fault now w current_user model_id
             "deployment" "success" (Some risk_score) (Some disparity_score)
             (Some current_status) (Some override_status) None (Some "deployed")
             (Some [("deployment_allowed_reason",
                     [Lit (if String.eqb current_status "approved"
                           then "approved" else "override_used")])])) in
        (Ok {| dr_model_id := model_id; dr_status := "deployed";
               dr_message := "Model deployed successfully";
               dr_override_used := String.eqb override_status "yes" |}, w)
  end.

Definition evaluate_governance (fault : session_fault) (now : Z)
    (current_user : Z) (model_id : Z) (w : World)
    : result GovernanceResult * World :=
  match query_model (w_db w) model_id with
  | None => (Raise (HTTPException 404 [Lit "Model not found"]), w)
  | Some model =>
      let '(result, db1) := evaluate_model_governance (w_db w) model_id in
      let w := with_db w db1 in
      (* Log the governance evaluation *)
      let w := try_audit "Failed to log governance evaluation"
        (log_governance_action fault now w current_user model_id
           "governance_evaluate" "success" (gr_risk_score result)
           (gr_disparity_score result) (Some (gr_status result)) None None None
           (Some [("reason", gr_reason result)])) in
      (Ok result, w)
  end.

(** The body of the 200 response of [get_model_status]. *)
Record StatusResponse : Type := {
  st_model_id : Z;
  st_status : string;
  st_deployment_status : string
}.

Definition get_model_status (model_id : Z) (db : Db) : result StatusResponse :=
  match query_model db model_id with
  | None => Raise (HTTPException 404 [Lit "Model not found"])
  | Some model =>
      Ok {| st_model_id := model_id;
            st_status := str_or (mr_status model) "draft";
            st_deployment_status := mr_deployment_status model |}
  end.

(** *** Governance policy CRUD *)

(** [GovernancePolicyCreate], as validated by the framework. *)
Record GovernancePolicyCreate : Type := {
  pc_name : string;
  pc_max_allowed_mri : Q;
  pc_max_allowed_disparity : Q;
  pc_approval_required_above_mri : Q;
  pc_active : bool
}.

(** [new_id] is the primary key the database assigns to the new row. *)
Definition create_policy (new_id : Z) (policy : GovernancePolicyCreate) (db : Db)
    : result GovernancePolicy * Db :=
  (* Check if policy with same name exists *)
  match first (filter (fun p => String.eqb (gp_name p) (pc_name policy))
                      (policies db)) with
  | Some existing_policy =>
      (Raise (HTTPException 400
         [Lit "Policy with name '"; Lit (pc_name policy);
          Lit "' already exists"]), db)
  | None =>
      let db_policy :=
        {| gp_id := new_id; gp_name := pc_name policy;
           max_allowed_mri := pc_max_allowed_mri policy;
           max_allowed_disparity := pc_max_allowed_disparity policy;
           approval_required_above_mri := pc_approval_required_above_mri policy;
           gp_active := pc_active policy |} in
      (Ok db_policy, with_policies db (policies db ++ [db_policy]))
  end.

Definition list_policies (skip lim : nat) (active_only : bool) (db : Db)
    : list GovernancePolicy :=
  let query := policies db in
  let query := if active_only then filter gp_active query else query in
  limit lim (offset skip query).

Definition get_policy (policy_id : Z) (db : Db) : result GovernancePolicy :=
  match first (filter (fun p => (gp_id p =? policy_id)%Z) (policies db)) with
  | None => Raise (HTTPException 404 [Lit "Policy not found"])
  | Some policy => Ok policy
  end.

(** [db.delete(db_policy)] deletes the row of that primary key. *)
Definition delete_policy (policy_id : Z) (db : Db) : result fstring * Db :=
  match first (filter (fun p => (gp_id p =? policy_id)%Z) (policies db)) with
  | None => (Raise (HTTPException 404 [Lit "Policy not found"]), db)
  | Some db_policy =>
      (Ok [Lit "Policy '"; Lit (gp_name db_policy); Lit "' deleted successfully"],
       with_policies db
         (filter (fun p => negb (gp_id p =? policy_id)%Z) (policies db)))
  end.

End GovernanceApi.
Export GovernanceApi.

(** ** [app/core/config.py] *)
Module Config.

Record Settings : Type := {
  DRIFT_WINDOW_SIZE : nat;
  PSI_THRESHOLD : Q;
  KS_THRESHOLD : Q;
  FAIRNESS_THRESHOLD : Q
}.

(** The defaults of the [Settings] class; the environment may override them. *)
Definition default_settings : Settings :=
  {| DRIFT_WINDOW_SIZE := 100; PSI_THRESHOLD := 0.25; KS_THRESHOLD := 0.2;
     FAIRNESS_THRESHOLD := 0.1 |}.

End Config.
Export Config.

(** ** The numpy and scipy functions the drift service calls *)
Module Numpy.

(** The library functions are modelled over the rationals. Arrays whose
    values lie so far apart that their range is no finite float, on which
    the library works with infinities, are outside this model; the
    statements about the drift calculation returning are made for logged
    values of a magnitude of at most half the largest float
    ([well_ranged] below). *)

(** [a.min()] and [a.max()]: a zero-size array raises [ValueError]. *)
Definition ndarray_min (a : list Q) : result Q :=
  match a with
  | [] => Raise ValueError
  | x :: l => Ok (min_of x l)
  end.

Definition ndarray_max (a : list Q) : result Q :=
  match a with
  | [] => Raise ValueError
  | x :: l => Ok (max_of x l)
  end.

(** Modelled from the spec: [numpy.linspace], a library function that is not
    part of the repository. The specification (4.1) partitions the combined
    value range into equal-width bins; [np.linspace(start, stop, num)] for
    [num >= 2] gives the [num] evenly spaced breakpoints, the last one set
    to [stop]. *)
Definition linspace (start stop : Q) (num : nat) : list Q :=
  let step := ((stop - start) / inject_Z (Z.of_nat (num - 1)))%Q in
  map (fun i => (inject_Z (Z.of_nat i) * step + start)%Q) (seq 0 (num - 1))
    ++ [stop].

Fixpoint monotonic (edges : list Q) : bool :=
  match edges with
  | lo :: ((hi :: _) as rest) => Qle_bool lo hi && monotonic rest
  | _ => true
  end.

(** Modelled from the spec: the counts of [numpy.histogram(a, bins=edges)], a
    library function that is not part of the repository. The specification
    (4.1) counts the values of a sample per bin; in numpy every bin is
    half-open [lo, hi) except the last one, which is closed, and values
    outside the edges are not counted. *)
Fixpoint bin_counts (a : list Q) (edges : list Q) : list Z :=
  match edges with
  | lo :: ((hi :: more) as rest) =>
      let in_bin x :=
        Qle_bool lo x &&
        match more with
        | [] => Qle_bool x hi
        | _ => Qltb x hi
        end in
      count in_bin a :: bin_counts a rest
  | _ => []
  end.

(** [np.histogram(a, bins=edges)[0]]; edges that do not increase
    monotonically raise [ValueError]. *)
Definition histogram (a : list Q) (edges : list Q) : result (list Z) :=
  if monotonic edges then Ok (bin_counts a edges) else Raise ValueError.

(** The empirical CDF of a sample at [x]. *)
Definition ecdf (data : list Q) (x : Q) : Q :=
  (inject_Z (count (fun a => Qle_bool a x) data)
     / inject_Z (Z.of_nat (List.length data)))%Q.

(** [np.clip(v, lo, hi)] *)
Definition clip (v lo hi : Q) : Q :=
  if Qltb v lo then lo else if Qgtb v hi then hi else v.

(** Modelled from the spec: [scipy.stats.ks_2samp], a library function that
    is not part of the repository. The specification (4.1 and its glossary)
    defines the two-sample KS statistic as the maximum absolute difference
    between the two empirical CDFs; as in scipy, the CDFs are compared at
    every point of the pooled sample, the statistic is the larger of the two
    one-sided gaps, and an empty sample raises [ValueError]. Only the
    statistic is kept (the source discards the p-value). *)
Definition ks_2samp (data1 data2 : list Q) : result Q :=
  match data1, data2 with
  | [], _ | _, [] => Raise ValueError
  | x :: rest1, _ :: _ =>
      let cddiff v := (ecdf data1 v - ecdf data2 v)%Q in
      (* cddiffs = cdf1 - cdf2 over data_all = data1 ++ data2 *)
      let d := cddiff x in
      let cddiffs := map cddiff (rest1 ++ data2) in
      let minS := clip (- min_of d cddiffs) 0 1 in
      let maxS := max_of d cddiffs in
      Ok (py_max minS maxS)
  end.

End Numpy.
Export Numpy.

(** ** [app/services/drift_service.py] *)
Module DriftService.
Section WithRuntime.
Context `{Runtime}.

Definition percents (counts : list Z) (bins : nat) : list Q :=
  let total := fold_left Z.add counts 0%Z in
  map (fun c => ((inject_Z c + 1e-6)
                   / (inject_Z total + inject_Z (Z.of_nat bins) * 1e-6))%Q)
      counts.

Definition calculate_psi (expected actual : list Q) (bins : nat) : result Q :=
  if (List.length expected =? 0)%nat || (List.length actual =? 0)%nat then Ok 0%Q
  else
    (* Create bins based on expected distribution *)
    emin <- ndarray_min expected ;;
    amin <- ndarray_min actual ;;
    emax <- ndarray_max expected ;;
    amax <- ndarray_max actual ;;
    let min_val := py_min emin amin in
    let max_val := py_max emax amax in
    let breakpoints := linspace min_val max_val (bins + 1) in
    (* Calculate histograms *)
    expected_counts <- histogram expected breakpoints ;;
    actual_counts <- histogram actual breakpoints ;;
    (* Convert to percentages *)
    let expected_percents := percents expected_counts bins in
    let actual_percents := percents actual_counts bins in
    (* Calculate PSI *)
    let psi_values :=
      map (fun ae => ((fst ae - snd ae) * np_log (fst ae / snd ae))%Q)
          (combine actual_percents expected_percents) in
    Ok (py_sum psi_values).

Definition calculate_ks_statistic (expected actual : list Q) : result Q :=
  if (List.length expected =? 0)%nat || (List.length actual =? 0)%nat then Ok 0%Q
  else ks_2samp expected actual.

(** One iteration of the extraction loop of [get_baseline_data] and
    [get_recent_data]: the value appended for [log], if any. *)
Definition feature_value (feature_name : string) (log : PredictionLog)
    : result (option Q) :=
  match dict_get (input_features log) feature_name with
  | Some v =>
      (* if feature_name in log.input_features: try ... float(...) *)
      match py_float v with
      | Ok q => Ok (Some q)
      | Raise ValueError | Raise TypeError => Ok None   (* except: pass *)
      | Raise e => Raise e
      end
  | None =>
      if String.eqb feature_name "prediction"
      then Ok (Some (prediction log))        (* float(log.prediction) *)
      else Ok None
  end.

Fixpoint feature_values (feature_name : string) (logs : list PredictionLog)
    : result (list Q) :=
  match logs with
  | [] => Ok []
  | log :: rest =>
      v <- feature_value feature_name log ;;
      vs <- feature_values feature_name rest ;;
      Ok match v with
         | Some q => q :: vs
         | None => vs
         end
  end.

(** The earliest 100 prediction logs of the model. *)
Definition baseline_logs (db : Db) (model_id : Z) : list PredictionLog :=
  limit 100 (order_by_asc pl_timestamp (query_prediction_logs db model_id)).

(** The latest [window_size] prediction logs of the model. *)
Definition recent_logs (db : Db) (model_id : Z) (window_size : nat)
    : list PredictionLog :=
  limit window_size
    (order_by_desc pl_timestamp (query_prediction_logs db model_id)).

Definition get_baseline_data (db : Db) (model_id : Z) (feature_name : string)
    : result (list Q) :=
  match query_model db model_id with
  | None => Ok []
  | Some model => feature_values feature_name (baseline_logs db model_id)
  end.

Definition get_recent_data (settings : Settings) (db : Db) (model_id : Z)
    (feature_name : string) (window_size : option nat) : result (list Q) :=
  let window_size :=
    match window_size with
    | Some n => n
    | None => DRIFT_WINDOW_SIZE settings
    end in
  feature_values feature_name (recent_logs db model_id window_size).

(** [features_to_monitor]: the keys of the first prediction log of the
    model, then ["prediction"]. *)
Definition features_to_monitor (db : Db) (model_id : Z) : list string :=
  match first (query_prediction_logs db model_id) with
  | Some sample_log =>
      if is_empty (input_features sample_log) then []
      else keys (input_features sample_log)
  | None => []
  end ++ ["prediction"].

(** The [for feature_name in features_to_monitor] loop: the rows created. *)
Fixpoint drift_loop (settings : Settings) (now : Z) (db : Db) (model_id : Z)
    (features : list string) : result (list DriftMetric) :=
  match features with
  | [] => Ok []
  | feature_name :: rest =>
      baseline <- get_baseline_data db model_id feature_name ;;
      recent <- get_recent_data settings db model_id feature_name None ;;
      if len_lt baseline 10 || len_lt recent 10 then
        drift_loop settings now db model_id rest          (* continue *)
      else
        psi_value <- calculate_psi baseline recent 10 ;;
        ks_statistic <- calculate_ks_statistic baseline recent ;;
        let drift_flag :=
          Qgeb psi_value (PSI_THRESHOLD settings)
          || Qgeb ks_statistic (KS_THRESHOLD settings) in
        let drift_metric :=
          {| dm_model_id := model_id; feature_name := feature_name;
             psi_value := psi_value; ks_statistic := ks_statistic;
             drift_flag := drift_flag; dm_timestamp := now |} in
        more <- drift_loop settings now db model_id rest ;;
        Ok (drift_metric :: more)
  end.

(** The rows created and the database after [db.commit()]; an exception
    leaves before the commit. *)
Definition calculate_drift_for_model (settings : Settings) (now : Z) (db : Db)
    (model_id : Z) : result (list DriftMetric * Db) :=
  match query_model db model_id with
  | None => Ok ([], db)
  | Some model =>
      drift_metrics <-
        drift_loop settings now db model_id (features_to_monitor db model_id) ;;
      Ok (drift_metrics, add_drift_metrics db drift_metrics)
  end.

End WithRuntime.

Definition get_drift_metrics_for_model (db : Db) (model_id : Z) (lim : nat)
    : list DriftMetric :=
  limit lim (query_drift_metrics db model_id).

End DriftService.
Export DriftService.

(** ** [app/services/risk_service.py] *)
Module RiskService.

Definition calculate_fairness_component (db : Db) (model_id : Z) : Q :=
  match first (query_fairness_metrics db model_id) with
  | None => 0%Q
  | Some latest_fairness =>
      (* Convert disparity score (0-1) to component score (0-100) *)
      let fairness_component := (disparity_score latest_fairness * 100)%Q in
      py_round (py_min 100 fairness_component) 2
  end.

Definition calculate_drift_component (db : Db) (model_id : Z) : Q :=
  match limit 50 (query_drift_metrics db model_id) with
  | [] => 0%Q
  | recent_drift_metrics =>
      let psi_values := map psi_value recent_drift_metrics in
      let ks_values := map ks_statistic recent_drift_metrics in
      let avg (l : list Q) :=
        match l with
        | [] => 0%Q
        | _ => (py_sum l / inject_Z (Z.of_nat (List.length l)))%Q
        end in
      let avg_psi := avg psi_values in
      let avg_ks := avg ks_values in
      (* Drift component is weighted average of PSI and KS *)
      let drift_component := (avg_psi * 60 + avg_ks * 40)%Q in
      (* Normalize to 0-100 *)
      let normalized_drift := py_min 100 (drift_component / 1.6) in
      py_round normalized_drift 2
  end.

Definition calculate_mri_score (db : Db) (model_id : Z) : Q :=
  let drift_component := calculate_drift_component db model_id in
  let fairness_component := calculate_fairness_component db model_id in
  (* Drift contributes 60%, Fairness contributes 40% *)
  let risk_score := (drift_component * 0.6 + fairness_component * 0.4)%Q in
  (* Clamp to 0-100 range *)
  let normalized_risk := py_min 100 (py_max 0 risk_score) in
  py_round normalized_risk 2.

Definition create_risk_history_entry (now : Z) (db : Db) (model_id : Z)
    : RiskHistory * Db :=
  let risk_score := calculate_mri_score db model_id in
  let drift_component := calculate_drift_component db model_id in
  let fairness_component := calculate_fairness_component db model_id in
  let risk_entry :=
    {| rh_model_id := model_id; risk_score := risk_score;
       drift_component := drift_component;
       fairness_component := fairness_component; rh_timestamp := now |} in
  (risk_entry, add_risk_history db risk_entry).

Definition get_risk_history (db : Db) (model_id : Z) (lim : nat)
    : list RiskHistory :=
  limit lim (query_risk_history db model_id).

Definition get_latest_risk_score (db : Db) (model_id : Z) : option RiskHistory :=
  first (query_risk_history db model_id).

End RiskService.
Export RiskService.

(** ** [app/services/fairness_service.py] *)
Module FairnessService.
Section WithRuntime.
Context `{Runtime}.

Definition _get_fairness_threshold (db : Db) : Q :=
  match query_active_policy db with
  | Some policy => max_allowed_disparity policy
  | None => 0.25%Q      (* safe fallback *)
  end.

(** The value of one group in [group_stats]. *)
Record GroupStats : Type := {
  total : Z;
  positive : Z
}.

(** [group_stats[key]... += 1] on the [defaultdict]: the entry of [key] is
    updated in place, or created from the default at the end. *)
Fixpoint defaultdict_update (key : string) (f : GroupStats -> GroupStats)
    (d : dict GroupStats) : dict GroupStats :=
  match d with
  | [] => [(key, f {| total := 0; positive := 0 |})]
  | (k, v) :: rest =>
      if String.eqb k key then (k, f v) :: rest
      else (k, v) :: defaultdict_update key f rest
  end.

Definition incr_total (s : GroupStats) : GroupStats :=
  {| total := total s + 1; positive := positive s |}.

Definition incr_positive (s : GroupStats) : GroupStats :=
  {| total := total s; positive := positive s + 1 |}.

(** The body of the grouping loop for one log. *)
Definition group_step (protected_attribute : string)
    (group_stats : dict GroupStats) (log : PredictionLog) : dict GroupStats :=
  if is_empty (input_features log)
     || negb (dict_contains (input_features log) protected_attribute)
  then group_stats                                          (* continue *)
  else
    match dict_get (input_features log) protected_attribute with
    | None => group_stats            (* not reached: the key is present *)
    | Some v =>
        let group_value := py_str v in
        let group_stats := defaultdict_update group_value incr_total group_stats in
        (* Treat prediction > 0.5 as positive outcome *)
        if Qgtb (prediction log) 0.5
        then defaultdict_update group_value incr_positive group_stats
        else group_stats
    end.

Definition approval_rate_of (stats : GroupStats) : Q :=
  if (total stats >? 0)%Z
  then (inject_Z (positive stats) / inject_Z (total stats))%Q
  else 0%Q.

(** The dictionary [calculate_fairness_for_model] returns. *)
Record FairnessResult : Type := {
  fr_disparity_score : Q;
  fr_fairness_flag : bool;
  fr_groups : list FairnessMetric
}.

Definition calculate_fairness_for_model (now : Z) (db : Db) (model_id : Z)
    (protected_attribute : string) : FairnessResult * Db :=
  let empty_result :=
    {| fr_disparity_score := 0; fr_fairness_flag := false; fr_groups := [] |} in
  (* Pull all prediction logs for model *)
  match query_prediction_logs db model_id with
  | [] => (empty_result, db)
  | prediction_logs =>
      (* Group by protected attribute value *)
      let group_stats :=
        fold_left (group_step protected_attribute) prediction_logs [] in
      match group_stats with
      | [] => (empty_result, db)
      | _ =>
          (* Calculate approval rates per group *)
          let approval_rates : dict Q :=
            map (fun kv => (fst kv, approval_rate_of (snd kv))) group_stats in
          (* Calculate disparity (max - min approval rate) *)
          let disparity_score :=
            match map snd approval_rates with
            | [] => 0%Q
            | r :: rates => (max_of r rates - min_of r rates)%Q
            end in
          (* Get threshold from active policy *)
          let fairness_threshold := _get_fairness_threshold db in
          let fairness_flag := Qgtb disparity_score fairness_threshold in
          (* Store FairnessMetric entries for each group *)
          let fairness_metrics :=
            map (fun kv =>
                   let '(group_name, stats) := kv in
                   {| fm_model_id := model_id;
                      protected_attribute := protected_attribute;
                      group_name := group_name;
                      total_predictions := total stats;
                      positive_predictions := positive stats;
                      approval_rate :=
                        match dict_get approval_rates group_name with
                        | Some r => r
                        | None => 0%Q
                        end;
                      disparity_score := disparity_score;
                      fairness_flag := fairness_flag;
                      fm_timestamp := now |})
                group_stats in
          ({| fr_disparity_score := py_round disparity_score 4;
              fr_fairness_flag := fairness_flag;
              fr_groups := fairness_metrics |},
           add_fairness_metrics db fairness_metrics)
      end
  end.

End WithRuntime.

Definition get_fairness_metrics_for_model (db : Db) (model_id : Z) (lim : nat)
    : list FairnessMetric :=
  limit lim (query_fairness_metrics db model_id).

Definition get_latest_fairness_status (db : Db) (model_id : Z)
    : option FairnessMetric :=
  first (query_fairness_metrics db model_id).

Definition get_fairness_metrics_by_attribute (db : Db) (model_id : Z)
    (attribute : string) (lim : nat) : list FairnessMetric :=
  limit lim
    (order_by_desc fm_timestamp
       (filter (fun r => (fm_model_id r =? model_id)%Z
                         && String.eqb (protected_attribute r) attribute)
               (fairness_metrics db))).

End FairnessService.
Export FairnessService.

(** ** [app/api/simulation.py] *)
Module SimulationApi.

(** [GovernanceCheckRequest] *)
Record GovernanceCheckRequest : Type := {
  req_risk_score : Q;
  req_fairness_score : Q;
  req_override : bool
}.

(** The dictionary [simulate_governance_check] returns. *)
Record SimulationResult : Type := {
  would_pass : bool;
  sim_reason : fstring;
  compliance_grade : string;
  details : dict json
}.

Definition simulate_governance_check (risk_score fairness_score : Q)
    (override : bool) (policy : GovernancePolicy) : SimulationResult :=
  let disparity_score := (100 - fairness_score)%Q in  (* Inverse fairness as disparity *)
  (* Rule 1: Hard block threshold *)
  if Qgtb risk_score (max_allowed_mri policy) then
    {| would_pass := false;
       sim_reason :=
         [Lit "Risk score "; FNum risk_score; Lit " exceeds hard limit ";
          FNum (max_allowed_mri policy)];
       compliance_grade := "F";
       details :=
         [("risk_evaluation", JStr "BLOCKED"); ("risk_score", JNum risk_score);
          ("max_allowed", JNum (max_allowed_mri policy));
          ("override_allowed", JBool false)] |}
  (* Rule 2: Fairness check *)
  else if Qgtb disparity_score (max_allowed_disparity policy) then
    let would_pass := override in
    {| would_pass := would_pass;
       sim_reason :=
         [Lit "Disparity "; FNum disparity_score; Lit " exceeds limit ";
          FNum (max_allowed_disparity policy); Lit ". Override: "; FBool override];
       compliance_grade := if would_pass then "D" else "F";
       details :=
         [("fairness_evaluation", JStr "AT_RISK");
          ("disparity_score", JNum disparity_score);
          ("max_allowed", JNum (max_allowed_disparity policy));
          ("override_used", JBool override); ("override_allowed", JBool true)] |}
  (* Rule 3: Approval threshold *)
  else if Qgtb risk_score (approval_required_above_mri policy) then
    let would_pass := override in
    {| would_pass := would_pass;
       sim_reason :=
         [Lit "Risk "; FNum risk_score; Lit " requires approval (threshold ";
          FNum (approval_required_above_mri policy); Lit "). Override: ";
          FBool override];
       compliance_grade := if would_pass then "C" else "B";
       details :=
         [("risk_evaluation", JStr "APPROVAL_REQUIRED");
          ("risk_score", JNum risk_score);
          ("approval_threshold", JNum (approval_required_above_mri policy));
          ("override_used", JBool override); ("override_allowed", JBool true)] |}
  (* All checks passed *)
  else
    {| would_pass := true;
       sim_reason := [Lit "All governance checks passed"];
       compliance_grade := "A";
       details :=
         [("risk_evaluation", JStr "APPROVED");
          ("fairness_evaluation", JStr "APPROVED");
          ("risk_score", JNum risk_score);
          ("disparity_score", JNum disparity_score);
          ("thresholds_met", JBool true)] |}.

(** The body of the 200 response of [check_governance_simulation]. *)
Record CheckResponse : Type := {
  cr_result : SimulationResult;
  cr_simulation : bool;
  cr_policy_id : Z;
  cr_policy_name : string
}.

(** The handler on a validated request; its catch-all [except Exception]
    has nothing to catch here. *)
Definition check_governance_simulation (request : GovernanceCheckRequest)
    (w : World) : result CheckResponse * World :=
  (* Get active policy (required for simulation) *)
  match query_active_policy (w_db w) with
  | None =>
      (Raise (HTTPException 400
         [Lit "No active governance policy defined for simulation"]), w)
  | Some policy =>
      (* Run simulation (in-memory, no DB writes) *)
      let result :=
        simulate_governance_check (req_risk_score request)
          (req_fairness_score request) (req_override request) policy in
      let w := emit INFO
        [Lit "Governance simulation executed: risk="; FNum (req_risk_score request);
         Lit ", fairness="; FNum (req_fairness_score request);
         Lit ", override="; FBool (req_override request);
         Lit ", result="; FBool (would_pass result)] w in
      (Ok {| cr_result := result; cr_simulation := true;
             cr_policy_id := gp_id policy; cr_policy_name := gp_name policy |}, w)
  end.

(** One entry of the batch results: the simulation result with its
    ["scenario_index"]. *)
Record ScenarioResult : Type := {
  sc_result : SimulationResult;
  scenario_index : nat
}.

(** The body of the 200 response of [batch_governance_simulation]. *)
Record BatchResponse : Type := {
  scenario_count : nat;
  passed_count : nat;
  pass_rate : Q;
  br_results : list ScenarioResult;
  br_simulation : bool;
  br_policy_id : Z;
  br_policy_name : string
}.

(** [enumerate(l)] *)
Definition enumerate {A} (l : list A) : list (nat * A) :=
  combine (seq 0 (List.length l)) l.

(** The body of the loop over the scenarios, on the pair of [results] and
    [passed_count]. *)
Definition batch_step (policy : GovernancePolicy)
    (acc : list ScenarioResult * nat) (ireq : nat * GovernanceCheckRequest)
    : list ScenarioResult * nat :=
  let '(results, passed_count) := acc in
  let '(i, req) := ireq in
  let result :=
    simulate_governance_check (req_risk_score req) (req_fairness_score req)
      (req_override req) policy in
  (results ++ [{| sc_result := result; scenario_index := i |}],
   if would_pass result then S passed_count else passed_count).

Definition batch_governance_simulation (requests : list GovernanceCheckRequest)
    (w : World) : result BatchResponse * World :=
  match requests with
  | [] =>
      (Raise (HTTPException 400 [Lit "At least one request required"]), w)
  | _ =>
      if (100 <? List.length requests)%nat then
        (Raise (HTTPException 400 [Lit "Maximum 100 requests per batch"]), w)
      else
        (* Get active policy *)
        match query_active_policy (w_db w) with
        | None =>
            (Raise (HTTPException 400
               [Lit "No active governance policy defined for simulation"]), w)
        | Some policy =>
            (* Run simulations *)
            let '(results, passed_count) :=
              fold_left (batch_step policy) (enumerate requests) ([], 0%nat) in
            let w := emit INFO
              [Lit "Batch governance simulation: ";
               FInt (Z.of_nat (List.length requests)); Lit " scenarios, ";
               FInt (Z.of_nat passed_count); Lit " passed"] w in
            (Ok {| scenario_count := List.length requests;
                   passed_count := passed_count;
                   pass_rate :=
                     py_round
                       (inject_Z (Z.of_nat passed_count)
                          / inject_Z (Z.of_nat (List.length requests)) * 100) 2;
                   br_results := results; br_simulation := true;
                   br_policy_id := gp_id policy;
                   br_policy_name := gp_name policy |}, w)
        end
  end.

End SimulationApi.
Export SimulationApi.

(** ** [app/api/logs.py] *)
Module LogsApi.
Section WithRuntime.
Context `{Runtime}.

(** [PredictionLogCreate]; the optional ground-truth label is stored with
    the log and read by nothing that is modelled here. *)
Record PredictionLogCreate : Type := {
  lc_model_id : Z;
  lc_input_features : dict json;
  lc_prediction : Q;
  lc_timestamp : option Z
}.

(** [now_log], [now_drift] and [now_risk] are the readings of the clock when
    the log, the drift rows and the risk entry are stamped. *)
Definition log_prediction (settings : Settings) (now_log now_drift now_risk : Z)
    (log_data : PredictionLogCreate) (db : Db) : result PredictionLog * Db :=
  (* Verify model exists *)
  match query_model db (lc_model_id log_data) with
  | None => (Raise (HTTPException 404 [Lit "Model not found"]), db)
  | Some model =>
      (* Create prediction log entry *)
      let prediction_log :=
        {| pl_model_id := lc_model_id log_data;
           input_features := lc_input_features log_data;
           prediction := lc_prediction log_data;
           pl_timestamp := match lc_timestamp log_data with
                           | Some t => t
                           | None => now_log
                           end |} in
      let db := add_prediction_log db prediction_log in
      (* Trigger drift calculation, then risk recalculation; an exception
         is printed and does not fail the request *)
      let db :=
        match calculate_drift_for_model settings now_drift db
                (lc_model_id log_data) with
        | Ok (_, db1) =>
            snd (create_risk_history_entry now_risk db1 (lc_model_id log_data))
        | Raise e => db
        end in
      (Ok prediction_log, db)
  end.

End WithRuntime.
End LogsApi.
Export LogsApi.

(** ** The background tasks of [app/api/drift.py] and [app/api/fairness.py] *)
Module BackgroundTasks.
Section WithRuntime.
Context `{Runtime}.

Definition _background_drift_calculation (settings : Settings)
    (now_drift now_risk : Z) (model_id : Z) (w : World) : World :=
  let w := emit INFO
    [Lit "Starting background drift calculation for model "; FInt model_id] w in
  match calculate_drift_for_model settings now_drift (w_db w) model_id with
  | Ok (drift_metrics, db1) =>
      let w := with_db w db1 in
      match drift_metrics with
      | [] =>
          emit WARNING
            [Lit "Insufficient data to calculate drift for model ";
             FInt model_id] w
      | _ =>
          (* Automatically trigger risk recalculation *)
          let '(risk_entry, db2) := create_risk_history_entry now_risk db1 model_id in
          emit INFO
            [Lit "Completed drift calculation for model "; FInt model_id;
             Lit ": risk_score="; FNum (risk_score risk_entry)]
            (with_db w db2)
      end
  | Raise e =>
      emit ERROR
        ([Lit "Error in background drift calculation for model ";
          FInt model_id; Lit ": "] ++ str_exn e) w
  end.

Definition _background_fairness_calculation (now_fairness now_risk : Z)
    (model_id : Z) (protected_attribute : string) (w : World) : World :=
  let w := emit INFO
    [Lit "Starting background fairness evaluation for model "; FInt model_id;
     Lit ", attribute "; Lit protected_attribute] w in
  (* Calculate fairness metrics *)
  let '(fairness_result, db1) :=
    calculate_fairness_for_model now_fairness (w_db w) model_id
      protected_attribute in
  (* Automatically recalculate MRI *)
  let '(risk_entry, db2) := create_risk_history_entry now_risk db1 model_id in
  emit INFO
    [Lit "Completed fairness evaluation for model "; FInt model_id;
     Lit ": disparity="; FNum (fr_disparity_score fairness_result);
     Lit ", risk_score="; FNum (risk_score risk_entry)]
    (with_db w db2).

End WithRuntime.
End BackgroundTasks.
Export BackgroundTasks.

(** ** Notions of the specification, stated independently of the code *)
Module Spec.

(** [clamp(x, lo, hi)] *)
Definition clamp (x lo hi : Q) : Q :=
  if Qltb x lo then lo else if Qgtb x hi then hi else x.

(** The rule of the governance state machine (4.4, rules 3 to 6) that
    decides a risk/disparity pair. *)
Inductive gate : Type := HardBlock | FairnessGate | SoftGate | FullPass.

Definition fired_gate (risk disparity : Q) (policy : GovernancePolicy) : gate :=
  if Qgtb risk (max_allowed_mri policy) then HardBlock
  else if Qgtb disparity (max_allowed_disparity policy) then FairnessGate
  else if Qgtb risk (approval_required_above_mri policy) then SoftGate
  else FullPass.

Definition gate_status (g : gate) : string :=
  match g with
  | HardBlock => "blocked"
  | FairnessGate | SoftGate => "at_risk"
  | FullPass => "approved"
  end.

(** The decision of the deployment gate (4.5) on a verdict. *)
Definition gate_allows (g : gate) (override : bool) : bool :=
  match g with
  | HardBlock => false
  | FairnessGate | SoftGate => override
  | FullPass => true
  end.

(** The compliance grades the simulation hands out, per rule and override. *)
Definition simulation_grade (g : gate) (override : bool) : string :=
  match g, override with
  | HardBlock, _ => "F"
  | FairnessGate, true => "D"
  | FairnessGate, false => "F"
  | SoftGate, true => "C"
  | SoftGate, false => "B"
  | FullPass, _ => "A"
  end.

(** How severe a governance status is: "blocked" above "at_risk" above
    everything else. *)
Definition severity (status : string) : nat :=
  if String.eqb status "blocked" then 2
  else if String.eqb status "at_risk" then 1
  else 0.

(** How alarming the status of the AI analysis is. *)
Definition ai_severity (ai_status : string) : nat :=
  if String.eqb ai_status "elevated" then 2
  else if String.eqb ai_status "concerning" then 1
  else 0.

(** The log only grows: [w'] has the records of [w] and then some. *)
Definition log_extends (w w' : World) : Prop :=
  exists new, w_logs w' = w_logs w ++ new.

(** The breakpoints [calculate_psi] derives from two non-empty samples. *)
Definition psi_breakpoints (x : Q) (l : list Q) (y : Q) (m : list Q) : list Q :=
  linspace (py_min (min_of x l) (min_of y m))
           (py_max (max_of x l) (max_of y m)) 11.

Section WithRuntime.
Context `{Runtime}.

(** 4.1: a feature is evaluated when both of its samples hold at least 10
    values, and skipped otherwise. *)
Definition enough_data (settings : Settings) (db : Db) (model_id : Z)
    (feature : string) : bool :=
  match get_baseline_data db model_id feature,
        get_recent_data settings db model_id feature None with
  | Ok baseline, Ok recent =>
      (10 <=? List.length baseline)%nat && (10 <=? List.length recent)%nat
  | _, _ => false
  end.

(** The sample of a feature read from the feature mappings of the logs
    alone: the values of the key that convert to a number. The stored
    prediction score of a log plays no part. *)
Definition input_feature_sample (feature : string) (logs : list PredictionLog)
    : list Q :=
  flat_map
    (fun log =>
       match dict_get (input_features log) feature with
       | Some v =>
           match py_float v with
           | Ok q => [q]
           | Raise _ => []
           end
       | None => []
       end)
    logs.

(** [float(v)] returns, or raises one of the two exceptions the samplers
    catch: [v] is not an integer beyond the range of the floats. *)
Definition float_converts (v : json) : bool :=
  match py_float v with
  | Ok _ | Raise ValueError | Raise TypeError => true
  | Raise _ => false
  end.

(** Every logged feature value of the model converts in that sense. *)
Definition log_converts (log : PredictionLog) : bool :=
  forallb (fun kv => float_converts (snd kv)) (input_features log).

Definition values_convert (db : Db) (model_id : Z) : bool :=
  forallb log_converts (query_prediction_logs db model_id).

(** A magnitude of at most half of [float_max]: the difference of two such
    values, the width of the range that [calculate_psi] splits into bins, is
    a finite float. *)
Definition half_range (q : Q) : bool :=
  Qle_bool (q * 2) float_max && Qle_bool (- float_max) (q * 2).

(** [float(v)] is a number of such a magnitude, or [v] is set aside as not
    numeric ([float] raises [ValueError] or [TypeError], which the samplers
    catch). *)
Definition float_in_range (v : json) : bool :=
  match py_float v with
  | Ok q => half_range q
  | Raise ValueError | Raise TypeError => true
  | Raise _ => false
  end.

(** The values a drift calculation can sample from the logs of the model,
    feature values and prediction scores, are all of such a magnitude. *)
Definition log_in_range (log : PredictionLog) : bool :=
  half_range (prediction log)
  && forallb (fun kv => float_in_range (snd kv)) (input_features log).

Definition well_ranged (db : Db) (model_id : Z) : bool :=
  forallb log_in_range (query_prediction_logs db model_id).

(** 4.2: the group of a log is the string value of the protected
    attribute in its feature mapping; a log without the attribute belongs
    to no group. *)
Definition group_of (attribute : string) (log : PredictionLog) : option string :=
  match dict_get (input_features log) attribute with
  | Some v => Some (py_str v)
  | None => None
  end.

Definition in_group (attribute group : string) (log : PredictionLog) : bool :=
  match group_of attribute log with
  | Some g => String.eqb g group
  | None => false
  end.

(** The group values observed in the logs, one per log that has the
    attribute. *)
Definition observed_groups (attribute : string) (logs : list PredictionLog)
    : list string :=
  flat_map (fun log => match group_of attribute log with
                       | Some g => [g]
                       | None => []
                       end) logs.

(** The predictions of a group, and those with a score above 0.5. *)
Definition group_total (attribute group : string) (logs : list PredictionLog) : Z :=
  count (in_group attribute group) logs.

Definition group_positive (attribute group : string) (logs : list PredictionLog) : Z :=
  count (fun log => in_group attribute group log && Qgtb (prediction log) 0.5) logs.

(** The value a group starts from in the [defaultdict]. *)
Definition default_stats : GroupStats := {| total := 0; positive := 0 |}.

(** The invariant of the grouping loop after the logs [seen]: one entry per
    observed group, holding the counts of that group. *)
Definition stats_ok (attribute : string) (seen : list PredictionLog)
    (stats : dict GroupStats) : Prop :=
  NoDup (keys stats) /\
  (forall g, In g (keys stats) <-> In g (observed_groups attribute seen)) /\
  (forall g s, In (g, s) stats ->
     total s = group_total attribute g seen /\
     positive s = group_positive attribute g seen).

End WithRuntime.

End Spec.
Export Spec.

(** ** Concrete data used by the examples *)
Module Examples.

(** The policy of the specification's examples: hard block above 80,
    fairness ceiling 0.15, approval required above 60. *)
Definition policy_80_60 : GovernancePolicy :=
  {| gp_id := 1; gp_name := "default"; max_allowed_mri := 80;
     max_allowed_disparity := 0.15; approval_required_above_mri := 60;
     gp_active := true |}.

Definition model_with (status : string) : ModelRegistry :=
  {| mr_id := 1; mr_deployment_status := "draft"; mr_status := status |}.

Definition risk_row (score : Q) (ts : Z) : RiskHistory :=
  {| rh_model_id := 1; risk_score := score; drift_component := 0;
     fairness_component := 0; rh_timestamp := ts |}.

Definition fairness_row (disparity : Q) (ts : Z) : FairnessMetric :=
  {| fm_model_id := 1; protected_attribute := "gender"; group_name := "F";
     total_predictions := 10; positive_predictions := 5; approval_rate := 0.5;
     disparity_score := disparity; fairness_flag := false; fm_timestamp := ts |}.

(** A database with model 1 in the given status and the given policies and
    score rows. *)
Definition db_with (status : string) (ps : list GovernancePolicy)
    (risks : list RiskHistory) (fair : list FairnessMetric) : Db :=
  {| models := [model_with status]; policies := ps; prediction_logs := [];
     drift_metrics := []; fairness_metrics := fair; risk_history := risks;
     audit_logs := [] |}.

(** Model 1 with latest risk 95 (an older row says 10) and disparity 0.05. *)
Definition db_risk_95 : Db :=
  db_with "draft" [policy_80_60] [risk_row 10 1; risk_row 95 2] [fairness_row 0.05 1].

(** The same with latest risk 65, and with latest risk 40. *)
Definition db_risk_65 : Db :=
  db_with "draft" [policy_80_60] [risk_row 65 1] [fairness_row 0.05 1].

Definition db_risk_40 : Db :=
  db_with "draft" [policy_80_60] [risk_row 40 1] [fairness_row 0.05 1].

(** Model 1 with an empty stored status and no policy at all. *)
Definition db_no_policy_empty_status : Db := db_with "" [] [] [].

(** Model 1 approved earlier, no policy at all. *)
Definition db_no_policy_approved : Db := db_with "approved" [] [] [].

Definition drift_row (psi ks : Q) (ts : Z) : DriftMetric :=
  {| dm_model_id := 1; feature_name := "amount"; psi_value := psi;
     ks_statistic := ks; drift_flag := true; dm_timestamp := ts |}.

(** Model 1 with drift and fairness rows as given, and nothing else. *)
Definition db_metrics (drift : list DriftMetric) (fair : list FairnessMetric) : Db :=
  {| models := [model_with "draft"]; policies := [policy_80_60];
     prediction_logs := []; drift_metrics := drift; fairness_metrics := fair;
     risk_history := []; audit_logs := [] |}.

Definition log_with (features : dict json) (score : Q) (ts : Z) : PredictionLog :=
  {| pl_model_id := 1; input_features := features; prediction := score;
     pl_timestamp := ts |}.

(** Model 1 with the given prediction logs, and nothing else. *)
Definition db_logs (logs : list PredictionLog) : Db :=
  {| models := [model_with "draft"]; policies := [policy_80_60];
     prediction_logs := logs; drift_metrics := []; fairness_metrics := [];
     risk_history := []; audit_logs := [] |}.

(** Twelve logs with a numeric feature "amount" and a categorical feature
    "segment". *)
Definition twelve_logs : list PredictionLog :=
  map (fun i =>
         log_with [("amount", JNum (inject_Z (Z.of_nat i)));
                   ("segment", JStr "retail")]
                  (inject_Z (Z.of_nat i) / 20) (Z.of_nat i))
      (seq 0 12).

(** Twelve logs whose feature mapping has a key "prediction" (always 1),
    next to stored prediction scores from 0 to 0.55. *)
Definition twelve_logs_prediction_key : list PredictionLog :=
  map (fun i =>
         log_with [("prediction", JNum 1)]
                  (inject_Z (Z.of_nat i) / 20) (Z.of_nat i))
      (seq 0 12).

(** A single log whose feature mapping has a key "prediction". *)
Definition one_log_prediction_key : list PredictionLog :=
  [log_with [("prediction", JNum 0.9)] 0.2 1].

(** A single log whose feature "amount" is the integer 10^400, which JSON
    carries and no float holds. *)
Definition huge_amount : dict json := [("amount", JNum (inject_Z (10 ^ 400)))].

Definition one_log_huge_amount : list PredictionLog :=
  [log_with huge_amount 0.2 1].

(** Forty logs of two groups of the attribute "gender": 14 of the 20 logs of
    "F" and 9 of the 20 logs of "M" score above 0.5 (eleven logs of "M"
    score exactly 0.5); one more log has no such attribute. *)
Definition gender_log (g : string) (score : Q) : PredictionLog :=
  log_with [("age", JNum 30); ("gender", JStr g)] score 0.

Definition two_group_logs : list PredictionLog :=
  repeat (gender_log "F" 0.9) 14 ++ repeat (gender_log "F" 0.1) 6
  ++ repeat (gender_log "M" 0.9) 9 ++ repeat (gender_log "M" 0.5) 11
  ++ [log_with [("age", JNum 41)] 0.9 0].

(** A database without any model. *)
Definition db_empty : Db :=
  {| models := []; policies := []; prediction_logs := []; drift_metrics := [];
     fairness_metrics := []; risk_history := []; audit_logs := [] |}.

Definition world_of (db : Db) : World :=
  {| w_db := db; w_logs := []; w_audit_calls := [] |}.

(** A session whose audit writes all succeed, and one whose audit writes
    all fail. *)
Definition healthy : session_fault := fun _ => None.
Definition broken : session_fault :=
  fun _ => Some (OperationalError "connection lost").

(** A runtime for the examples: [str] as Python prints the atoms that occur
    as group values, no string is a float literal, and a logarithm that is
    constantly 0. *)
Definition plain_runtime : Runtime :=
  {| py_str := fun v =>
       match v with
       | JStr s => s
       | JBool true => "True"
       | JBool false => "False"
       | JNull => "None"
       | _ => "?"
       end;
     parse_float := fun _ => None;
     np_log := fun _ => 0%Q |}.

End Examples.
Export Examples.

(* ================================================================== *)
(** * Part II: properties                                              *)
(* ================================================================== *)

(** ** Comparisons, queries and updates *)
Module Basics.

Lemma Qgtb_true (a b : Q) : Qgtb a b = true <-> (b < a)%Q.
Proof.
  unfold Qgtb, Qltb. rewrite negb_true_iff.
  split; intros Hab.
  - apply Qnot_le_lt. intros Hle. apply Qle_bool_iff in Hle. congruence.
  - destruct (Qle_bool a b) eqn:E; [|reflexivity].
    apply Qle_bool_iff in E. exfalso. exact (Qlt_not_le _ _ Hab E).
Qed.

Lemma Qgtb_false (a b : Q) : Qgtb a b = false <-> (a <= b)%Q.
Proof.
  unfold Qgtb, Qltb. rewrite negb_false_iff. apply Qle_bool_iff.
Qed.

Lemma Qltb_true (a b : Q) : Qltb a b = true <-> (a < b)%Q.
Proof. exact (Qgtb_true b a). Qed.

Lemma Qltb_false (a b : Q) : Qltb a b = false <-> (b <= a)%Q.
Proof. exact (Qgtb_false b a). Qed.

Lemma str_or_nonempty (s d : string) : s <> "" -> str_or s d = s.
Proof.
  intros Hs. unfold str_or.
  destruct (String.eqb_spec s ""); [contradiction | reflexivity].
Qed.

Lemma str_or_spec (s d v : string) :
  str_or s d = v -> d <> v -> s = v.
Proof.
  unfold str_or. destruct (String.eqb_spec s ""); congruence.
Qed.

Section Sorting.
Context {A : Type} (key : A -> Z).

Lemma insert_by_In (before : A -> A -> bool) (x y : A) (l : list A) :
  In y (insert_by before x l) <-> y = x \/ In y l.
Proof.
  induction l as [|z l IH]; simpl.
  - intuition congruence.
  - destruct (before x z); simpl; rewrite ?IH; intuition congruence.
Qed.

Lemma order_by_desc_In (y : A) (l : list A) :
  In y (order_by_desc key l) <-> In y l.
Proof.
  unfold order_by_desc. induction l as [|x l IH]; simpl; [tauto|].
  rewrite insert_by_In, IH. intuition congruence.
Qed.

Lemma order_by_asc_In (y : A) (l : list A) :
  In y (order_by_asc key l) <-> In y l.
Proof.
  unfold order_by_asc. induction l as [|x l IH]; simpl; [tauto|].
  rewrite insert_by_In, IH. intuition congruence.
Qed.

(** The first row of a descending order is a row of the table with the
    largest key. *)
Lemma first_order_by_desc (l : list A) (x : A) :
  first (order_by_desc key l) = Some x ->
  In x l /\ forall y, In y l -> (key y <= key x)%Z.
Proof.
  unfold order_by_desc, first. revert x.
  induction l as [|a l IH]; simpl; intros x Hx; [discriminate|].
  destruct (fold_right _ [] l) as [|b s] eqn:E; simpl in Hx.
  - injection Hx as <-. destruct l as [|c l].
    + split; [now left|]. intros y [<-|[]]. lia.
    + exfalso. simpl in E.
      destruct (fold_right _ [] l) as [|d s'] in E; simpl in E;
        [discriminate|destruct (_ <=? _)%Z in E; discriminate].
  - destruct (IH b eq_refl) as [Hb Hmax].
    destruct (key b <=? key a)%Z eqn:Hle; simpl in Hx; injection Hx as <-.
    + apply Z.leb_le in Hle. split; [now left|].
      intros y [<-|Hy]; [lia|]. specialize (Hmax y Hy). lia.
    + apply Z.leb_gt in Hle. split; [now right|].
      intros y [<-|Hy]; [lia|]. exact (Hmax y Hy).
Qed.

Lemma first_order_by_desc_None (l : list A) :
  first (order_by_desc key l) = None <-> l = [].
Proof.
  split; [|intros ->; reflexivity].
  destruct l as [|a l]; [reflexivity|]. intros Hn. exfalso.
  unfold order_by_desc, first in Hn. simpl in Hn.
  destruct (fold_right _ [] l) as [|b s]; simpl in Hn; [discriminate|].
  destruct (_ <=? _)%Z in Hn; discriminate.
Qed.

End Sorting.

Lemma filter_nil_iff {A} (p : A -> bool) (l : list A) :
  filter p l = [] <-> forall x, In x l -> p x = false.
Proof.
  induction l as [|a l IH]; simpl.
  - split; [intros _ x []|reflexivity].
  - destruct (p a) eqn:E.
    + split; [discriminate|]. intros Hall.
      specialize (Hall a (or_introl eq_refl)). congruence.
    + rewrite IH. split.
      * intros Hall x [<-|Hx]; auto.
      * intros Hall x Hx. apply Hall. now right.
Qed.

(** Reading a model back after an update of that model. *)
Lemma query_model_update (db : Db) (model_id : Z) (f : ModelRegistry -> ModelRegistry)
    (m : ModelRegistry) :
  (forall m', mr_id (f m') = mr_id m') ->
  query_model db model_id = Some m ->
  query_model (update_model db model_id f) model_id = Some (f m).
Proof.
  intros Hid. unfold query_model, update_model, first. simpl.
  induction (models db) as [|a l IH]; simpl; [discriminate|].
  destruct (mr_id a =? model_id)%Z eqn:E; simpl.
  - intros [= ->]. rewrite Hid, E. reflexivity.
  - rewrite E. exact IH.
Qed.

Lemma query_model_Some_id (db : Db) (model_id : Z) (m : ModelRegistry) :
  query_model db model_id = Some m -> mr_id m = model_id.
Proof.
  unfold query_model, first.
  induction (models db) as [|a l IH]; simpl; [discriminate|].
  destruct (mr_id a =? model_id)%Z eqn:E; simpl; [|exact IH].
  intros [= <-]. now apply Z.eqb_eq.
Qed.

End Basics.
Import Basics.

(** ** The governance evaluator *)
Module GovernanceFacts.

Lemma governance_rules_status (risk disparity : Q) (policy : GovernancePolicy) :
  fst (governance_rules risk disparity policy)
  = gate_status (fired_gate risk disparity policy).
Proof.
  unfold governance_rules, fired_gate.
  destruct (Qgtb risk (max_allowed_mri policy)); [reflexivity|].
  destruct (Qgtb disparity (max_allowed_disparity policy)); [reflexivity|].
  destruct (Qgtb risk (approval_required_above_mri policy)); reflexivity.
Qed.

(** The score the evaluator reads as "latest": 0 without a row of the model,
    else the score of a row of the model with the largest timestamp. *)
Lemma latest_or_zero {R : Type} (rows : list R) (of_model : R -> bool)
    (ts : R -> Z) (score : R -> Q) :
  let latest :=
    match first (order_by_desc ts (filter of_model rows)) with
    | Some r => score r
    | None => 0%Q
    end in
  ((forall r, In r rows -> of_model r = false) -> latest = 0%Q) /\
  ((exists r, In r rows /\ of_model r = true) ->
   exists r, In r rows /\ of_model r = true /\ score r = latest /\
     forall r', In r' rows -> of_model r' = true -> (ts r' <= ts r)%Z).
Proof.
  cbv zeta.
  destruct (first (order_by_desc ts (filter of_model rows))) as [r|] eqn:E.
  - apply first_order_by_desc in E. destruct E as [Hin Hmax].
    apply filter_In in Hin. destruct Hin as [Hin Hm]. split.
    + intros Hnone. rewrite (Hnone r Hin) in Hm. discriminate.
    + intros _. exists r. repeat split; auto.
      intros r' Hr' Hm'. apply Hmax. apply filter_In. auto.
  - apply first_order_by_desc_None in E. split; [reflexivity|].
    intros [r [Hin Hm]]. exfalso.
    rewrite filter_nil_iff in E. rewrite (E r Hin) in Hm. discriminate.
Qed.

(** What evaluation under an active policy returns and writes. *)
Lemma evaluate_with_policy (db : Db) (model_id : Z) (model : ModelRegistry)
    (policy : GovernancePolicy) :
  query_model db model_id = Some model ->
  query_active_policy db = Some policy ->
  exists risk disparity,
    risk = match first (query_risk_history db model_id) with
           | Some r => risk_score r
           | None => 0%Q
           end /\
    disparity = match first (query_fairness_metrics db model_id) with
                | Some r => disparity_score r
                | None => 0%Q
                end /\
    evaluate_model_governance db model_id
    = ({| gr_status := fst (governance_rules risk disparity policy);
          gr_reason := snd (governance_rules risk disparity policy);
          gr_risk_score := Some risk; gr_disparity_score := Some disparity |},
       update_model db model_id
         (set_status (fst (governance_rules risk disparity policy)))).
Proof.
  intros Hm Hp. unfold evaluate_model_governance. rewrite Hm, Hp.
  eexists. eexists. split; [reflexivity|]. split; [reflexivity|].
  destruct (governance_rules _ _ policy). reflexivity.
Qed.

(** A verdict "blocked" comes with an existing model whose stored status is
    "blocked" once evaluation returns; its deployment status is untouched. *)
Lemma evaluate_blocked (db : Db) (model_id : Z) :
  gr_status (fst (evaluate_model_governance db model_id)) = "blocked" ->
  exists model m',
    query_model db model_id = Some model /\
    query_model (snd (evaluate_model_governance db model_id)) model_id = Some m' /\
    mr_status m' = "blocked" /\
    mr_deployment_status m' = mr_deployment_status model.
Proof.
  intros Hb.
  destruct (query_model db model_id) as [model|] eqn:Hm.
  2:{ unfold evaluate_model_governance in Hb. rewrite Hm in Hb. discriminate. }
  exists model.
  destruct (query_active_policy db) as [policy|] eqn:Hp.
  - destruct (evaluate_with_policy db model_id model policy Hm Hp)
      as (risk & disp & _ & _ & Hev).
    rewrite Hev in *. simpl in *.
    exists (set_status (fst (governance_rules risk disp policy)) model).
    split; [reflexivity|]. split; [|split; [exact Hb|reflexivity]].
    apply query_model_update; [reflexivity|exact Hm].
  - unfold evaluate_model_governance in *. rewrite Hm, Hp in *. simpl in *.
    exists model. split; [reflexivity|]. split; [exact Hm|].
    split; [|reflexivity]. apply (str_or_spec _ "draft"); [exact Hb|discriminate].
Qed.

End GovernanceFacts.
Import GovernanceFacts.

(** ** Claims on the governance evaluator *)
Module GovernanceClaims.

(** C2. For a model with an active policy, evaluation reads the latest risk
    and disparity (0 when the model has no RiskHistory, respectively
    FairnessMetric, row; else the score of a row with the largest timestamp)
    and applies the rules in strict order: risk above [max_allowed_mri] gives
    "blocked"; else disparity above [max_allowed_disparity] gives "at_risk"
    with the fairness reason; else risk above [approval_required_above_mri]
    gives "at_risk" with the soft-gate reason; else "approved". The hard
    block therefore fires whatever the other two comparisons say, and the
    fairness rule fires whatever the soft-gate comparison says. *)
Theorem governance_rules_in_strict_order
    (db : Db) (model_id : Z) (model : ModelRegistry) (policy : GovernancePolicy) :
  query_model db model_id = Some model ->
  query_active_policy db = Some policy ->
  let res := fst (evaluate_model_governance db model_id) in
  exists latest_risk latest_disparity : Q,
    gr_risk_score res = Some latest_risk /\
    gr_disparity_score res = Some latest_disparity /\
    ((forall r, In r (risk_history db) -> (rh_model_id r =? model_id)%Z = false) ->
     latest_risk = 0%Q) /\
    ((forall r, In r (fairness_metrics db) -> (fm_model_id r =? model_id)%Z = false) ->
     latest_disparity = 0%Q) /\
    ((exists r, In r (risk_history db) /\ (rh_model_id r =? model_id)%Z = true) ->
     exists r, In r (risk_history db) /\ (rh_model_id r =? model_id)%Z = true /\
       risk_score r = latest_risk /\
       forall r', In r' (risk_history db) -> (rh_model_id r' =? model_id)%Z = true ->
         (rh_timestamp r' <= rh_timestamp r)%Z) /\
    ((exists r, In r (fairness_metrics db) /\ (fm_model_id r =? model_id)%Z = true) ->
     exists r, In r (fairness_metrics db) /\ (fm_model_id r =? model_id)%Z = true /\
       disparity_score r = latest_disparity /\
       forall r', In r' (fairness_metrics db) -> (fm_model_id r' =? model_id)%Z = true ->
         (fm_timestamp r' <= fm_timestamp r)%Z) /\
    ((max_allowed_mri policy < latest_risk)%Q ->
     gr_status res = "blocked" /\
     gr_reason res =
       [Lit "Risk score "; FNum latest_risk; Lit " exceeds max allowed ";
        FNum (max_allowed_mri policy)]) /\
    ((latest_risk <= max_allowed_mri policy)%Q ->
     (max_allowed_disparity policy < latest_disparity)%Q ->
     gr_status res = "at_risk" /\
     gr_reason res =
       [Lit "Disparity "; FNum latest_disparity; Lit " exceeds max allowed ";
        FNum (max_allowed_disparity policy)]) /\
    ((latest_risk <= max_allowed_mri policy)%Q ->
     (latest_disparity <= max_allowed_disparity policy)%Q ->
     (approval_required_above_mri policy < latest_risk)%Q ->
     gr_status res = "at_risk" /\
     gr_reason res =
       [Lit "Risk score "; FNum latest_risk; Lit " requires approval (threshold ";
        FNum (approval_required_above_mri policy); Lit ")"]) /\
    ((latest_risk <= max_allowed_mri policy)%Q ->
     (latest_disparity <= max_allowed_disparity policy)%Q ->
     (latest_risk <= approval_required_above_mri policy)%Q ->
     gr_status res = "approved").
Proof.
  intros Hm Hp res.
  destruct (evaluate_with_policy db model_id model policy Hm Hp)
    as (risk & disp & Hrisk & Hdisp & Hev).
  exists risk, disp. subst res. rewrite Hev. cbn [fst gr_status gr_reason
    gr_risk_score gr_disparity_score].
  split; [reflexivity|]. split; [reflexivity|].
  pose proof (latest_or_zero (risk_history db)
                (fun r => (rh_model_id r =? model_id)%Z) rh_timestamp risk_score)
    as [Hr0 Hr1].
  pose proof (latest_or_zero (fairness_metrics db)
                (fun r => (fm_model_id r =? model_id)%Z) fm_timestamp disparity_score)
    as [Hd0 Hd1].
  fold (query_risk_history db model_id) in Hr0, Hr1.
  fold (query_fairness_metrics db model_id) in Hd0, Hd1.
  rewrite <- Hrisk in Hr0, Hr1. rewrite <- Hdisp in Hd0, Hd1.
  split; [exact Hr0|]. split; [exact Hd0|].
  split; [exact Hr1|]. split; [exact Hd1|].
  unfold governance_rules.
  repeat match goal with |- _ /\ _ => split end; intros;
    repeat match goal with
           | Hlt : (_ < _)%Q |- _ => apply Qgtb_true in Hlt; rewrite Hlt
           | Hle : (_ <= _)%Q |- _ => apply Qgtb_false in Hle; rewrite Hle
           end;
    repeat split; reflexivity.
Qed.

(** The precedence example of the specification, on stored rows: with latest
    risk 95 and disparity 0.05 under the policy (80, 0.15, 60), the theorem
    applies and the verdict is "blocked". *)
Lemma governance_rules_in_strict_order_witness :
  query_model db_risk_95 1 = Some (model_with "draft") /\
  query_active_policy db_risk_95 = Some policy_80_60 /\
  gr_status (fst (evaluate_model_governance db_risk_95 1)) = "blocked".
Proof.
  split; [reflexivity|]. split; [reflexivity|].
  destruct (governance_rules_in_strict_order db_risk_95 1 (model_with "draft")
              policy_80_60 eq_refl eq_refl)
    as (risk & disp & Hrisk & _ & _ & _ & _ & _ & Hblocked & _).
  apply Hblocked.
  injection Hrisk as <-. reflexivity.
Defined.

(** The four verdicts of the specification's examples under the policy
    (80, 0.15, 60). *)
Example rules_risk_95 :
  governance_rules 95 0.05 policy_80_60
  = ("blocked", [Lit "Risk score "; FNum 95; Lit " exceeds max allowed "; FNum 80]).
Proof. reflexivity. Qed.

Example rules_risk_70_disparity_020 :
  governance_rules 70 0.20 policy_80_60
  = ("at_risk", [Lit "Disparity "; FNum 0.20; Lit " exceeds max allowed "; FNum 0.15]).
Proof. reflexivity. Qed.

Example rules_risk_65 :
  governance_rules 65 0.05 policy_80_60
  = ("at_risk", [Lit "Risk score "; FNum 65; Lit " requires approval (threshold ";
                 FNum 60; Lit ")"]).
Proof. reflexivity. Qed.

Example rules_risk_40 :
  governance_rules 40 0.05 policy_80_60
  = ("approved", [Lit "All governance checks passed"]).
Proof. reflexivity. Qed.

(** C7, as stated, fails on a model whose stored status is the empty string:
    without an active policy the evaluator answers "draft", not the stored
    status. *)
Lemma no_policy_empty_status_counterexample :
  query_model db_no_policy_empty_status 1 = Some (model_with "") /\
  query_active_policy db_no_policy_empty_status = None /\
  gr_status (fst (evaluate_model_governance db_no_policy_empty_status 1))
  <> mr_status (model_with "").
Proof.
  split; [reflexivity|]. split; [reflexivity|]. discriminate.
Qed.

(** C7 (amended). Without an active policy, evaluation of an existing model
    returns the stored status, or "draft" when the stored status is empty,
    with reason "No active policy"; it returns normally and leaves the
    database, hence the model's status field, as it was. *)
Theorem no_policy_fails_open (db : Db) (model_id : Z) (model : ModelRegistry) :
  query_model db model_id = Some model ->
  query_active_policy db = None ->
  evaluate_model_governance db model_id
  = ({| gr_status := if String.eqb (mr_status model) "" then "draft"
                     else mr_status model;
        gr_reason := [Lit "No active policy"];
        gr_risk_score := None; gr_disparity_score := None |}, db)
  /\ (mr_status model <> "" ->
      gr_status (fst (evaluate_model_governance db model_id)) = mr_status model)
  /\ query_model (snd (evaluate_model_governance db model_id)) model_id = Some model.
Proof.
  intros Hm Hp. unfold evaluate_model_governance. rewrite Hm, Hp. cbn [fst snd gr_status].
  split; [reflexivity|]. split; [|exact Hm].
  intros Hne. now apply str_or_nonempty.
Qed.

Lemma no_policy_fails_open_witness :
  query_model db_no_policy_approved 1 = Some (model_with "approved") /\
  query_active_policy db_no_policy_approved = None /\
  evaluate_model_governance db_no_policy_approved 1
  = ({| gr_status := "approved"; gr_reason := [Lit "No active policy"];
        gr_risk_score := None; gr_disparity_score := None |},
     db_no_policy_approved).
Proof.
  split; [reflexivity|]. split; [reflexivity|].
  exact (proj1 (no_policy_fails_open db_no_policy_approved 1
                  (model_with "approved") eq_refl eq_refl)).
Defined.

End GovernanceClaims.

(** ** The audit recorder and the deployment gate *)
Module DeploymentFacts.

Lemma evaluate_keeps_audit_logs (db : Db) (model_id : Z) :
  audit_logs (snd (evaluate_model_governance db model_id)) = audit_logs db.
Proof.
  unfold evaluate_model_governance.
  destruct (query_model db model_id); [|reflexivity].
  destruct (query_active_policy db); [|reflexivity].
  destruct (governance_rules _ _ _). reflexivity.
Qed.

(** One guarded audit call: the invocation is recorded once, the models are
    not touched, and the entry is stored unless the session fails, in which
    case the failure is logged by the service and by the caller. *)
Lemma guarded_audit_call (fault : session_fault) (now : Z) (w : World)
    (user_id model_id : Z) (action action_status : string)
    (risk disparity : option Q) (gov used just dep : option string)
    (details : option (dict fstring)) (message : string) :
  let entry :=
    {| al_user_id := user_id; al_model_id := model_id; al_action := action;
       al_action_status := action_status; al_risk_score := risk;
       al_disparity_score := disparity; al_governance_status := gov;
       al_override_used := used; al_override_justification := just;
       al_deployment_status := dep; al_details := or_empty details;
       al_timestamp := now |} in
  let w' :=
    try_audit message
      (log_governance_action fault now w user_id model_id action action_status
         risk disparity gov used just dep details) in
  w_audit_calls w' = w_audit_calls w ++ [entry] /\
  models (w_db w') = models (w_db w) /\
  match fault entry with
  | None =>
      audit_logs (w_db w') = audit_logs (w_db w) ++ [entry] /\
      exists info, w_logs w' = w_logs w ++ [{| lr_level := INFO; lr_message := info |}]
  | Some e =>
      audit_logs (w_db w') = audit_logs (w_db w) /\
      w_logs w' =
        w_logs w ++
        [{| lr_level := ERROR;
            lr_message := Lit "Failed to log governance action: " :: str_exn e |};
         {| lr_level := ERROR;
            lr_message := Lit message :: Lit ": " :: str_exn e |}]
  end.
Proof.
  intros entry w'. subst w'. unfold log_governance_action. fold entry.
  destruct (fault entry) as [e|]; cbn.
  - repeat split. rewrite <- app_assoc. reflexivity.
  - repeat split. eexists. reflexivity.
Qed.

Lemma log_extends_refl (w : World) : log_extends w w.
Proof. exists []. now rewrite app_nil_r. Qed.

Lemma log_extends_emit (w w' : World) (lv : level) (message : fstring) :
  log_extends w w' -> log_extends w (emit lv message w').
Proof.
  intros [new Hnew]. eexists. cbn. rewrite Hnew, <- app_assoc. reflexivity.
Qed.

Lemma log_extends_with_db (w w' : World) (db : Db) :
  log_extends w w' -> log_extends w (with_db w' db).
Proof. intros [new Hnew]. exists new. exact Hnew. Qed.

Create HintDb worlds.
#[export] Hint Resolve log_extends_refl log_extends_emit log_extends_with_db : worlds.

End DeploymentFacts.
Import DeploymentFacts.

(** ** Claims on the deployment gate *)
Module DeploymentClaims.

(** C1. Whatever the override flag (and whatever the user, the clock and the
    health of the audit store), when the governance evaluation that opens a
    deployment attempt answers "blocked", [deploy_model] raises the 403
    refusal; afterwards the model's status is "blocked", not "deployed", and
    its deployment status is what it was. *)
Theorem blocked_deployment_is_denied (fault : session_fault)
    (now current_user model_id : Z) (override : bool) (w : World) :
  gr_status (fst (evaluate_model_governance (w_db w) model_id)) = "blocked" ->
  let out := deploy_model fault now current_user model_id override w in
  (exists detail, fst out = Raise (HTTPException 403 detail)) /\
  exists before after,
    query_model (w_db w) model_id = Some before /\
    query_model (w_db (snd out)) model_id = Some after /\
    mr_status after = "blocked" /\
    mr_status after <> "deployed" /\
    mr_deployment_status after = mr_deployment_status before.
Proof.
  intros Hb out.
  destruct (evaluate_blocked (w_db w) model_id Hb)
    as (model & m' & Hm & Hm' & Hst & Hdep).
  subst out. unfold deploy_model. rewrite Hm.
  destruct (evaluate_model_governance (w_db w) model_id) as [res db1] eqn:Hev.
  cbn [fst snd] in Hb, Hm'. cbv beta iota zeta.
  rewrite Hb, String.eqb_refl. cbv iota. cbn [fst snd].
  split; [eexists; reflexivity|].
  exists model, m'. split; [reflexivity|].
  split; [|split; [exact Hst|split; [rewrite Hst; discriminate|exact Hdep]]].
  match goal with
  | |- query_model (w_db (try_audit ?msg (log_governance_action ?f ?n ?w0 ?u ?m ?a ?s
                                            ?r ?d ?g ?o ?j ?dep ?det))) _ = _ =>
      pose proof (guarded_audit_call f n w0 u m a s r d g o j dep det msg)
        as (_ & Hmodels & _)
  end.
  unfold query_model in *. rewrite Hmodels. exact Hm'.
Qed.

Lemma blocked_deployment_is_denied_witness :
  gr_status (fst (evaluate_model_governance (w_db (world_of db_risk_95)) 1))
  = "blocked" /\
  exists detail,
    fst (deploy_model healthy 0 7 1 true (world_of db_risk_95))
    = Raise (HTTPException 403 detail).
Proof.
  split; [reflexivity|].
  exact (proj1 (blocked_deployment_is_denied healthy 0 7 1 true
                  (world_of db_risk_95) eq_refl)).
Defined.

(** C6. A deployment attempt on an existing model (the blocked refusal, the
    at-risk refusal without override, and the allowed deployment) invokes the
    audit recorder exactly once, with an entry for this deployment that
    carries the verdict. When the audit write fails, nothing is stored, the
    failure is logged at error level, and neither the answer of the gate nor
    the models table differs from what a successful write gives. *)
Theorem deployment_gate_audits_exactly_once (fault : session_fault)
    (now current_user model_id : Z) (override : bool) (w : World)
    (model : ModelRegistry) :
  query_model (w_db w) model_id = Some model ->
  let verdict := fst (evaluate_model_governance (w_db w) model_id) in
  let out := deploy_model fault now current_user model_id override w in
  (exists entry,
     w_audit_calls (snd out) = w_audit_calls w ++ [entry] /\
     al_action entry = "deployment" /\
     al_model_id entry = model_id /\
     al_user_id entry = current_user /\
     al_governance_status entry = Some (gr_status verdict) /\
     al_action_status entry =
       (if String.eqb (gr_status verdict) "blocked" then "blocked"
        else if String.eqb (gr_status verdict) "at_risk" && negb override
             then "rejected" else "success") /\
     match fault entry with
     | None => audit_logs (w_db (snd out)) = audit_logs (w_db w) ++ [entry]
     | Some e =>
         audit_logs (w_db (snd out)) = audit_logs (w_db w) /\
         exists earlier later,
           w_logs (snd out) =
             w_logs w ++ earlier ++
             {| lr_level := ERROR;
                lr_message := Lit "Failed to log governance action: " :: str_exn e |}
             :: later
     end) /\
  forall fault' : session_fault,
    let out' := deploy_model fault' now current_user model_id override w in
    fst out' = fst out /\ models (w_db (snd out')) = models (w_db (snd out)).
Proof.
  intros Hm verdict out. subst verdict out. unfold deploy_model. rewrite Hm.
  pose proof (evaluate_keeps_audit_logs (w_db w) model_id) as Hal.
  destruct (evaluate_model_governance (w_db w) model_id) as [res db1].
  cbn [fst snd] in Hal. cbv beta iota zeta. cbn [fst snd].
  destruct (String.eqb (gr_status res) "blocked");
    [|destruct (String.eqb (gr_status res) "at_risk" && negb override);
      [|destruct (override && String.eqb (gr_status res) "at_risk")]];
    cbn [fst snd];
    (split;
     [ match goal with
       | |- context [try_audit ?msg (log_governance_action ?f ?n ?w0 ?u ?m ?a ?s
                                       ?r ?d ?g ?o ?j ?dep ?det)] =>
           pose proof (guarded_audit_call f n w0 u m a s r d g o j dep det msg)
             as (Hcalls & _ & Hout);
           assert (Hgrow : log_extends w w0) by auto 10 with worlds;
           cbv zeta in Hcalls, Hout;
           eexists; split; [exact Hcalls|];
           repeat (split; [reflexivity|]);
           match type of Hout with
           | match ?x with _ => _ end => destruct x as [e|]
           end;
           [ destruct Hout as [Hlogs Hrec]; split;
             [ rewrite Hlogs; cbn; exact Hal
             | destruct Hgrow as [earlier Hearlier];
               exists earlier; eexists;
               rewrite Hrec, Hearlier, <- app_assoc; reflexivity ]
           | destruct Hout as [Hlogs _]; rewrite Hlogs; cbn; rewrite Hal;
             reflexivity ]
       end
     | intros fault'; cbv zeta; split; [reflexivity|];
       repeat match goal with
       | |- context [try_audit ?msg (log_governance_action ?f ?n ?w0 ?u ?m ?a ?s
                                       ?r ?d ?g ?o ?j ?dep ?det)] =>
           let Hmod := fresh "Hmod" in
           pose proof (guarded_audit_call f n w0 u m a s r d g o j dep det msg)
             as (_ & Hmod & _);
           cbv zeta in Hmod; rewrite Hmod; clear Hmod
       end; reflexivity ]).
Qed.

(** A refused deployment, once with a healthy and once with a failing audit
    store. *)
Lemma deployment_gate_audits_exactly_once_witness :
  query_model (w_db (world_of db_risk_95)) 1 = Some (model_with "draft") /\
  fst (deploy_model broken 0 7 1 false (world_of db_risk_95))
  = fst (deploy_model healthy 0 7 1 false (world_of db_risk_95)).
Proof.
  split; [reflexivity|].
  exact (proj1 (proj2 (deployment_gate_audits_exactly_once healthy 0 7 1 false
                         (world_of db_risk_95) (model_with "draft") eq_refl)
                  broken)).
Defined.

(** The four outcomes of the gate under the policy (80, 0.15, 60). *)
Example deploy_blocked_despite_override :
  fst (deploy_model healthy 0 7 1 true (world_of db_risk_95))
  = Raise (HTTPException 403
      [Lit "Deployment blocked: "; Lit "Risk score "; FNum 95;
       Lit " exceeds max allowed "; FNum 80;
       Lit " (Override not permitted for hard blocks)"]).
Proof. reflexivity. Qed.

Example deploy_at_risk_without_override :
  fst (deploy_model healthy 0 7 1 false (world_of db_risk_65))
  = Raise (HTTPException 403
      [Lit "Model at risk. "; Lit "Risk score "; FNum 65;
       Lit " requires approval (threshold "; FNum 60; Lit ")";
       Lit " Add ?override=true to override."]).
Proof. reflexivity. Qed.

Example deploy_at_risk_with_override :
  let out := deploy_model healthy 0 7 1 true (world_of db_risk_65) in
  fst out = Ok {| dr_model_id := 1; dr_status := "deployed";
                  dr_message := "Model deployed successfully";
                  dr_override_used := true |}
  /\ option_map mr_status (query_model (w_db (snd out)) 1) = Some "deployed"
  /\ map al_override_used (audit_logs (w_db (snd out))) = [Some "yes"].
Proof. repeat split. Qed.

Example deploy_approved_ignores_override :
  let out := deploy_model healthy 0 7 1 true (world_of db_risk_40) in
  fst out = Ok {| dr_model_id := 1; dr_status := "deployed";
                  dr_message := "Model deployed successfully";
                  dr_override_used := false |}
  /\ map al_override_used (audit_logs (w_db (snd out))) = [Some "no"].
Proof. repeat split. Qed.

(** With a failing audit store the deployment still goes through; nothing is
    stored in the audit table and two error records are logged. *)
Example deploy_with_failing_audit :
  let out := deploy_model broken 0 7 1 false (world_of db_risk_40) in
  fst out = fst (deploy_model healthy 0 7 1 false (world_of db_risk_40))
  /\ option_map mr_status (query_model (w_db (snd out)) 1) = Some "deployed"
  /\ audit_logs (w_db (snd out)) = []
  /\ List.length (w_audit_calls (snd out)) = 1%nat
  /\ map lr_level (w_logs (snd out)) = [INFO; INFO; ERROR; ERROR].
Proof. repeat split. Qed.

End DeploymentClaims.

(** ** The risk composer *)
Module RiskFacts.

Lemma Qltb_comp (x x' y y' : Q) :
  (x == x')%Q -> (y == y')%Q -> Qltb x y = Qltb x' y'.
Proof. intros Hx Hy. unfold Qltb. now rewrite Hx, Hy. Qed.

(** Rounding does not see which fraction represents a rational. *)
Lemma round_half_even_comp (x y : Q) :
  (x == y)%Q -> round_half_even x = round_half_even y.
Proof.
  intros Hxy. unfold round_half_even, Qgtb.
  rewrite (Qfloor_comp x y Hxy).
  assert (Hr : (x - inject_Z (Qfloor y) == y - inject_Z (Qfloor y))%Q)
    by now rewrite Hxy.
  rewrite (Qltb_comp _ _ 0.5 0.5 Hr (Qeq_refl _)).
  rewrite (Qltb_comp 0.5 0.5 _ _ (Qeq_refl _) Hr).
  reflexivity.
Qed.

Lemma py_round_comp (x y : Q) (ndigits : nat) :
  (x == y)%Q -> py_round x ndigits = py_round y ndigits.
Proof.
  intros Hxy. unfold py_round. cbv zeta.
  set (scale := inject_Z (10 ^ Z.of_nat ndigits)).
  rewrite (round_half_even_comp (x * scale) (y * scale)); [reflexivity|].
  now rewrite Hxy.
Qed.

(** [min(hi, max(lo, x))] is the clamp of [x] to [lo, hi]. *)
Lemma min_max_is_clamp (x lo hi : Q) :
  (lo <= hi)%Q -> (py_min hi (py_max lo x) == clamp x lo hi)%Q.
Proof.
  intros Hlohi. unfold py_min, py_max, clamp, Qgtb.
  destruct (Qltb lo x) eqn:E0;
    [apply Qltb_true in E0 | apply Qltb_false in E0];
  repeat match goal with
         | |- context [Qltb ?a ?b] =>
             let E := fresh "E" in
             destruct (Qltb a b) eqn:E;
             [apply Qltb_true in E | apply Qltb_false in E]
         end; lra.
Qed.

End RiskFacts.
Import RiskFacts.

(** ** Claim on the risk composer *)
Module RiskClaims.

(** C3. The RiskHistory row that [create_risk_history_entry] builds and
    appends satisfies
    [risk_score = round(clamp(drift_component*0.6 + fairness_component*0.4, 0, 100), 2)]
    on its own stored components, whatever the drift and fairness rows in
    the database. *)
Theorem risk_entry_is_rounded_clamped_blend (now : Z) (db : Db) (model_id : Z) :
  let entry := fst (create_risk_history_entry now db model_id) in
  let db' := snd (create_risk_history_entry now db model_id) in
  risk_score entry
  = py_round
      (clamp (drift_component entry * 0.6 + fairness_component entry * 0.4) 0 100)
      2
  /\ risk_history db' = risk_history db ++ [entry].
Proof.
  cbn [create_risk_history_entry fst snd risk_score drift_component
       fairness_component add_risk_history risk_history].
  split; [|reflexivity].
  unfold calculate_mri_score. cbv zeta.
  apply py_round_comp. apply min_max_is_clamp. discriminate.
Qed.

(** The boundary values: components 0 and 0 compose to 0, components 100 and
    100 to 100, and the two mixed corners to 60 and 40. *)
Example risk_entry_components_0_0 :
  let entry := fst (create_risk_history_entry 9 (db_metrics [] []) 1) in
  (drift_component entry == 0 /\ fairness_component entry == 0
   /\ risk_score entry == 0)%Q.
Proof. vm_compute. repeat split. Qed.

Example risk_entry_components_100_100 :
  let entry :=
    fst (create_risk_history_entry 9
           (db_metrics [drift_row 3 1 1] [fairness_row 1 1]) 1) in
  (drift_component entry == 100 /\ fairness_component entry == 100
   /\ risk_score entry == 100)%Q.
Proof. vm_compute. repeat split. Qed.

Example risk_entry_components_100_0 :
  let entry :=
    fst (create_risk_history_entry 9 (db_metrics [drift_row 3 1 1] []) 1) in
  (drift_component entry == 100 /\ fairness_component entry == 0
   /\ risk_score entry == 60)%Q.
Proof. vm_compute. repeat split. Qed.

Example risk_entry_components_0_100 :
  let entry :=
    fst (create_risk_history_entry 9 (db_metrics [] [fairness_row 1 1]) 1) in
  (drift_component entry == 0 /\ fairness_component entry == 100
   /\ risk_score entry == 40)%Q.
Proof. vm_compute. repeat split. Qed.

(** Rounding to two decimals, ties to even: 0.125 -> 0.12, 0.135 -> 0.14. *)
Example py_round_ties_to_even :
  (py_round 0.125 2 == 0.12 /\ py_round 0.135 2 == 0.14
   /\ py_round 12.3456 2 == 12.35)%Q.
Proof. vm_compute. repeat split. Qed.

End RiskClaims.

(** ** Claim on the simulation mode *)
Module SimulationClaims.

(** C5, as stated, fails on a soft gate without override: under the policy
    (80, 0.15, 60), risk 65 with fairness 100 (disparity 0) does not pass,
    and yet is graded "B", not "F". *)
Lemma simulation_soft_gate_counterexample :
  let r := simulate_governance_check 65 100 false policy_80_60 in
  would_pass r = false /\ compliance_grade r = "B" /\ compliance_grade r <> "F".
Proof. split; [reflexivity|]. split; [reflexivity|discriminate]. Qed.

(** C5 (amended). On a risk score, a fairness score, an override flag and a
    policy, the simulation applies the rules of the production evaluator, in
    the same order, to the risk and to the disparity [100 - fairness_score]:
    the rule that decides the production status decides the simulation; the
    simulation passes exactly when the deployment gate would allow that
    status under the flag; the grade is A for a full pass, B for a soft gate
    met without override (which does not pass), C for a soft gate passed via
    override, D for a fairness gate passed via override, F for a hard block
    or a fairness gate without override. The simulation endpoint leaves the
    database as it was. *)
Theorem simulation_follows_production_rules
    (risk_score fairness_score : Q) (override : bool) (policy : GovernancePolicy) :
  let disparity := (100 - fairness_score)%Q in
  let verdict := fired_gate risk_score disparity policy in
  let r := simulate_governance_check risk_score fairness_score override policy in
  fst (governance_rules risk_score disparity policy) = gate_status verdict
  /\ would_pass r = gate_allows verdict override
  /\ compliance_grade r = simulation_grade verdict override
  /\ forall (request : GovernanceCheckRequest) (w : World),
       w_db (snd (check_governance_simulation request w)) = w_db w.
Proof.
  cbv zeta. split; [apply governance_rules_status|].
  unfold simulate_governance_check, fired_gate.
  destruct (Qgtb risk_score (max_allowed_mri policy));
    [|destruct (Qgtb (100 - fairness_score) (max_allowed_disparity policy));
      [|destruct (Qgtb risk_score (approval_required_above_mri policy))]];
    destruct override; (split; [reflexivity|]); (split; [reflexivity|]);
    intros request w; unfold check_governance_simulation;
    destruct (query_active_policy (w_db w)); reflexivity.
Qed.

(** The grades of the simulation on the specification's example policy. *)
Example simulation_grades :
  map (fun '(risk, fairness, override) =>
         let r := simulate_governance_check risk fairness override policy_80_60 in
         (would_pass r, compliance_grade r))
      [(95, 100, true); (70, 99, true); (70, 99, false);
       (65, 100, true); (65, 100, false); (40, 100, false)]%Q
  = [(false, "F"); (true, "D"); (false, "F");
     (true, "C"); (false, "B"); (true, "A")].
Proof. reflexivity. Qed.

End SimulationClaims.

(** ** Extremes, sums and the numpy functions *)
Module NumericFacts.

Lemma min_of_lower_bound (l : list Q) (x y : Q) :
  In y (x :: l) -> (min_of x l <= y)%Q.
Proof.
  unfold min_of. revert x y. induction l as [|a l IH]; intros x y Hy.
  - destruct Hy as [<-|[]]. apply Qle_refl.
  - cbn [fold_left].
    destruct (Qltb a x) eqn:E;
      [apply Qltb_true in E | apply Qltb_false in E].
    + destruct Hy as [<-|[<-|Hy]].
      * apply Qle_trans with a; [apply IH; now left | now apply Qlt_le_weak].
      * apply IH. now left.
      * apply IH. now right.
    + destruct Hy as [<-|[<-|Hy]].
      * apply IH. now left.
      * apply Qle_trans with x; [apply IH; now left | exact E].
      * apply IH. now right.
Qed.

Lemma max_of_upper_bound (l : list Q) (x y : Q) :
  In y (x :: l) -> (y <= max_of x l)%Q.
Proof.
  unfold max_of. revert x y. induction l as [|a l IH]; intros x y Hy.
  - destruct Hy as [<-|[]]. apply Qle_refl.
  - cbn [fold_left].
    destruct (Qgtb a x) eqn:E;
      [apply Qgtb_true in E | apply Qgtb_false in E].
    + destruct Hy as [<-|[<-|Hy]].
      * apply Qle_trans with a; [now apply Qlt_le_weak | apply IH; now left].
      * apply IH. now left.
      * apply IH. now right.
    + destruct Hy as [<-|[<-|Hy]].
      * apply IH. now left.
      * apply Qle_trans with x; [exact E | apply IH; now left].
      * apply IH. now right.
Qed.

Lemma min_of_In (l : list Q) (x : Q) : In (min_of x l) (x :: l).
Proof.
  unfold min_of. revert x. induction l as [|a l IH]; intros x; [now left|].
  cbn [fold_left]. destruct (Qltb a x).
  - right. exact (IH a).
  - destruct (IH x) as [Hx|Hx]; [now left | right; now right].
Qed.

Lemma max_of_In (l : list Q) (x : Q) : In (max_of x l) (x :: l).
Proof.
  unfold max_of. revert x. induction l as [|a l IH]; intros x; [now left|].
  cbn [fold_left]. destruct (Qgtb a x).
  - right. exact (IH a).
  - destruct (IH x) as [Hx|Hx]; [now left | right; now right].
Qed.

Lemma py_min_le_left (a b : Q) : (py_min a b <= a)%Q.
Proof.
  unfold py_min. destruct (Qltb b a) eqn:E.
  - apply Qltb_true in E. now apply Qlt_le_weak.
  - apply Qle_refl.
Qed.

Lemma py_max_ge_left (a b : Q) : (a <= py_max a b)%Q.
Proof.
  unfold py_max. destruct (Qgtb b a) eqn:E.
  - apply Qgtb_true in E. now apply Qlt_le_weak.
  - apply Qle_refl.
Qed.

(** A sum of terms that are all zero is zero. *)
Lemma py_sum_zero (l : list Q) :
  (forall x, In x l -> (x == 0)%Q) -> (py_sum l == 0)%Q.
Proof.
  unfold py_sum. intros Hall.
  assert (Hgen : forall acc, (fold_left Qplus l acc == acc)%Q).
  { induction l as [|a l IH]; intros acc; [reflexivity|].
    cbn [fold_left]. rewrite IH.
    - rewrite (Hall a (or_introl eq_refl)). apply Qplus_0_r.
    - intros x Hx. apply Hall. now right. }
  apply Hgen.
Qed.

(** The ten bins of [calculate_psi]: eleven breakpoints from the smaller
    minimum to the larger maximum increase monotonically. *)
Lemma linspace_11_monotonic (lo hi : Q) :
  (lo <= hi)%Q -> monotonic (linspace lo hi 11) = true.
Proof.
  intros Hle. unfold linspace. cbn [Nat.sub seq map app].
  set (step := ((hi - lo) / inject_Z (Z.of_nat 10))%Q).
  assert (Hstep : (step == (hi - lo) * (1 # 10))%Q) by reflexivity.
  cbn [monotonic].
  repeat (apply andb_true_intro; split); try reflexivity;
    apply Qle_bool_iff; cbn [Z.of_nat Pos.of_succ_nat Pos.succ];
    rewrite ?Hstep; unfold inject_Z; lra.
Qed.

End NumericFacts.
Import NumericFacts.

(** ** The drift calculator *)
Module DriftFacts.

Ltac case_Qltb :=
  repeat match goal with
         | |- context [Qltb ?a ?b] =>
             let E := fresh "E" in
             destruct (Qltb a b) eqn:E;
             [apply Qltb_true in E | apply Qltb_false in E]
         end.

Lemma combine_diag {A} (l : list A) (a b : A) :
  In (a, b) (combine l l) -> a = b.
Proof.
  induction l as [|x l IH]; cbn; [tauto|].
  intros [[= <- <-]|Hin]; [reflexivity | exact (IH Hin)].
Qed.

Lemma dict_contains_keys {V} (d : dict V) (k : string) :
  dict_contains d k = true <-> In k (keys d).
Proof.
  unfold dict_contains, dict_get, keys.
  induction d as [|[k' v] d IH]; cbn.
  - split; [discriminate | tauto].
  - destruct (String.eqb_spec k' k) as [->|Hne].
    + split; [now left | reflexivity].
    + rewrite IH. split; [now right|]. intros [Heq|Hin]; [contradiction | exact Hin].
Qed.

Lemma In_limit {A} (n : nat) (l : list A) (x : A) : In x (limit n l) -> In x l.
Proof.
  unfold limit. intros Hin. rewrite <- (firstn_skipn n l).
  apply in_or_app. now left.
Qed.

Lemma length_filter_name (rows : list DriftMetric) (name : string) :
  List.length (filter (fun r => String.eqb (feature_name r) name) rows)
  = count_occ string_dec (map feature_name rows) name.
Proof.
  induction rows as [|r rows IH]; [reflexivity|]. cbn.
  destruct (String.eqb_spec (feature_name r) name) as [Heq|Hne];
    destruct (string_dec (feature_name r) name); try contradiction; cbn;
    now rewrite IH.
Qed.

Lemma count_occ_filter (p : string -> bool) (l : list string) (x : string) :
  count_occ string_dec (filter p l) x
  = if p x then count_occ string_dec l x else 0%nat.
Proof.
  induction l as [|a l IH]; cbn; [now destruct (p x)|].
  destruct (p a) eqn:Ea; cbn; destruct (string_dec a x) as [->|Hne].
  - rewrite Ea in *. now rewrite IH.
  - exact IH.
  - rewrite Ea in *. exact IH.
  - exact IH.
Qed.

Section WithRuntime.
Context `{Runtime}.

(** On a value that converts, [float] raises nothing but the two
    exceptions the loops catch. *)
Lemma py_float_raises (v : json) (e : exn) :
  float_converts v = true ->
  py_float v = Raise e -> e = ValueError \/ e = TypeError.
Proof.
  unfold float_converts. intros Hconv He. rewrite He in Hconv.
  destruct e; try discriminate; auto.
Qed.

Lemma float_in_range_converts (v : json) :
  float_in_range v = true -> float_converts v = true.
Proof.
  unfold float_in_range, float_converts.
  destruct (py_float v) as [q|e]; [reflexivity|]. now destruct e.
Qed.

Lemma forallb_impl {A} (p q : A -> bool) (l : list A) :
  (forall x, p x = true -> q x = true) ->
  forallb p l = true -> forallb q l = true.
Proof.
  intros Hpq Hp. apply forallb_forall. intros x Hx. apply Hpq.
  exact (proj1 (forallb_forall p l) Hp x Hx).
Qed.

Lemma log_in_range_converts (log : PredictionLog) :
  log_in_range log = true -> log_converts log = true.
Proof.
  unfold log_in_range, log_converts. intros Hin.
  apply andb_true_iff in Hin. destruct Hin as [_ Hin].
  revert Hin. apply forallb_impl. intros kv. apply float_in_range_converts.
Qed.

(** Values in range convert. *)
Lemma well_ranged_converts (db : Db) (model_id : Z) :
  well_ranged db model_id = true -> values_convert db model_id = true.
Proof.
  unfold well_ranged, values_convert. apply forallb_impl.
  exact log_in_range_converts.
Qed.

Lemma dict_get_some_In {V} (d : dict V) (k : string) (v : V) :
  dict_get d k = Some v -> exists k', In (k', v) d.
Proof.
  unfold dict_get. destruct (find _ d) as [[k' v']|] eqn:Hf; [|discriminate].
  intros [= <-]. exists k'. apply find_some in Hf. exact (proj1 Hf).
Qed.

(** The values kept in the logs of a model that converts all convert. *)
Lemma values_convert_log (db : Db) (model_id : Z) (log : PredictionLog) :
  values_convert db model_id = true ->
  In log (query_prediction_logs db model_id) -> log_converts log = true.
Proof.
  unfold values_convert. intros Hconv.
  exact (proj1 (forallb_forall _ _) Hconv log).
Qed.

Lemma dict_get_some_in_log (log : PredictionLog) (feature : string) (v : json)
    (e : exn) :
  log_converts log = true ->
  dict_get (input_features log) feature = Some v ->
  py_float v = Raise e -> e = ValueError \/ e = TypeError.
Proof.
  intros Hconv Hget. apply py_float_raises.
  destruct (dict_get_some_In _ _ _ Hget) as [k' Hin].
  exact (proj1 (forallb_forall _ _) Hconv (k', v) Hin).
Qed.

(** One iteration of the extraction loop: what is appended for a log. *)
Lemma feature_value_spec (feature : string) (log : PredictionLog) :
  log_converts log = true ->
  feature_value feature log
  = Ok match dict_get (input_features log) feature with
       | Some v =>
           match py_float v with
           | Ok q => Some q
           | Raise _ => None
           end
       | None =>
           if String.eqb feature "prediction" then Some (prediction log) else None
       end.
Proof.
  intros Hconv. unfold feature_value.
  destruct (dict_get (input_features log) feature) as [v|] eqn:Hget.
  - destruct (py_float v) as [q|e] eqn:E; [reflexivity|].
    destruct (dict_get_some_in_log log feature v e Hconv Hget E) as [-> | ->];
      reflexivity.
  - destruct (String.eqb feature "prediction"); reflexivity.
Qed.

(** On logs whose values convert, the extraction loop returns a sample. *)
Lemma feature_values_ok (feature : string) (logs : list PredictionLog) :
  (forall log, In log logs -> log_converts log = true) ->
  exists vs, feature_values feature logs = Ok vs.
Proof.
  induction logs as [|log logs IH]; cbn [feature_values]; intros Hconv.
  - now exists [].
  - destruct IH as [vs IH]; [intros l Hl; apply Hconv; now right|].
    rewrite feature_value_spec, IH by (apply Hconv; now left).
    cbn [bind]. eexists. reflexivity.
Qed.

(** On logs that all carry the key, the sample is read from the feature
    mappings alone. *)
Lemma feature_values_from_inputs (feature : string) (logs : list PredictionLog) :
  (forall log, In log logs -> log_converts log = true) ->
  (forall log, In log logs -> dict_contains (input_features log) feature = true) ->
  feature_values feature logs = Ok (input_feature_sample feature logs).
Proof.
  induction logs as [|log logs IH]; intros Hconv Hall; [reflexivity|].
  cbn [feature_values input_feature_sample flat_map].
  rewrite feature_value_spec by (apply Hconv; now left).
  rewrite IH;
    [|intros l Hl; apply Hconv; now right|intros l Hl; apply Hall; now right].
  specialize (Hall log (or_introl eq_refl)). unfold dict_contains in Hall.
  destruct (dict_get (input_features log) feature) as [v|]; [|discriminate].
  cbn [bind]. destruct (py_float v); reflexivity.
Qed.

Lemma baseline_logs_In (db : Db) (model_id : Z) (log : PredictionLog) :
  In log (baseline_logs db model_id) ->
  In log (query_prediction_logs db model_id).
Proof.
  unfold baseline_logs. intros Hin. apply In_limit in Hin.
  now apply order_by_asc_In in Hin.
Qed.

Lemma recent_logs_In (db : Db) (model_id : Z) (n : nat) (log : PredictionLog) :
  In log (recent_logs db model_id n) ->
  In log (query_prediction_logs db model_id).
Proof.
  unfold recent_logs. intros Hin. apply In_limit in Hin.
  now apply order_by_desc_In in Hin.
Qed.

Lemma get_baseline_data_ok (db : Db) (model_id : Z) (feature : string) :
  values_convert db model_id = true ->
  exists vs, get_baseline_data db model_id feature = Ok vs.
Proof.
  intros Hconv. unfold get_baseline_data. destruct (query_model db model_id).
  - apply feature_values_ok. intros log Hin.
    apply (values_convert_log db model_id); [exact Hconv|].
    now apply baseline_logs_In.
  - now exists [].
Qed.

Lemma get_recent_data_ok (settings : Settings) (db : Db) (model_id : Z)
    (feature : string) (window_size : option nat) :
  values_convert db model_id = true ->
  exists vs, get_recent_data settings db model_id feature window_size = Ok vs.
Proof.
  intros Hconv. unfold get_recent_data. apply feature_values_ok.
  intros log Hin. apply (values_convert_log db model_id); [exact Hconv|].
  exact (recent_logs_In _ _ _ _ Hin).
Qed.

(** The guard on empty samples keeps the reductions and the histograms of
    [calculate_psi] from raising: on non-empty samples it returns the sum of
    the PSI terms over the ten bins. *)
Lemma calculate_psi_nonempty (x : Q) (l : list Q) (y : Q) (m : list Q) :
  calculate_psi (x :: l) (y :: m) 10
  = Ok (py_sum
          (map (fun ae => ((fst ae - snd ae) * np_log (fst ae / snd ae))%Q)
               (combine
                  (percents (bin_counts (y :: m) (psi_breakpoints x l y m)) 10)
                  (percents (bin_counts (x :: l) (psi_breakpoints x l y m)) 10)))).
Proof.
  assert (Hmono : monotonic (psi_breakpoints x l y m) = true).
  { apply linspace_11_monotonic.
    apply Qle_trans with (min_of x l); [apply py_min_le_left|].
    apply Qle_trans with x; [apply min_of_lower_bound; now left|].
    apply Qle_trans with (max_of x l); [apply max_of_upper_bound; now left|].
    apply py_max_ge_left. }
  unfold calculate_psi.
  cbn [List.length Nat.eqb orb ndarray_min ndarray_max bind Nat.add].
  fold (psi_breakpoints x l y m).
  unfold histogram. rewrite Hmono. reflexivity.
Qed.

Lemma calculate_psi_ok (expected actual : list Q) :
  exists psi, calculate_psi expected actual 10 = Ok psi.
Proof.
  destruct expected as [|x l]; [now exists 0%Q|].
  destruct actual as [|y m]; [now exists 0%Q|].
  rewrite calculate_psi_nonempty. eexists. reflexivity.
Qed.

Lemma calculate_ks_statistic_ok (expected actual : list Q) :
  exists ks, calculate_ks_statistic expected actual = Ok ks.
Proof.
  unfold calculate_ks_statistic, ks_2samp.
  destruct expected as [|x l]; [now exists 0%Q|].
  destruct actual as [|y m]; [now exists 0%Q|].
  cbn [List.length Nat.eqb orb]. eexists. reflexivity.
Qed.

(** On logged values that convert, the loop over the monitored features
    returns; it creates one row, in order, for each listed feature with
    enough data, and none for the others. *)
Lemma drift_loop_spec (settings : Settings) (now : Z) (db : Db) (model_id : Z)
    (features : list string) :
  values_convert db model_id = true ->
  exists rows,
    drift_loop settings now db model_id features = Ok rows /\
    map feature_name rows = filter (enough_data settings db model_id) features /\
    forall row, In row rows ->
      dm_model_id row = model_id /\ dm_timestamp row = now /\
      exists baseline recent,
        get_baseline_data db model_id (feature_name row) = Ok baseline /\
        get_recent_data settings db model_id (feature_name row) None = Ok recent /\
        calculate_psi baseline recent 10 = Ok (psi_value row) /\
        calculate_ks_statistic baseline recent = Ok (ks_statistic row).
Proof.
  intros Hconv.
  induction features as [|f features (rows & IH & Hnames & Hrows)].
  - exists []. split; [reflexivity|]. split; [reflexivity|]. intros row [].
  - cbn [drift_loop filter]. unfold enough_data at 1.
    destruct (get_baseline_data_ok db model_id f Hconv) as [baseline Hb].
    destruct (get_recent_data_ok settings db model_id f None Hconv) as [recent Hr].
    rewrite Hb, Hr. cbn [bind]. unfold len_lt.
    destruct (Nat.ltb_spec (List.length baseline) 10) as [Hlt|Hge].
    { cbn [orb]. replace (10 <=? List.length baseline)%nat with false
        by (symmetry; apply Nat.leb_gt; exact Hlt).
      cbn [andb]. exists rows. auto. }
    destruct (Nat.ltb_spec (List.length recent) 10) as [Hlt'|Hge'].
    { cbn [orb]. replace (10 <=? List.length recent)%nat with false
        by (symmetry; apply Nat.leb_gt; exact Hlt').
      rewrite andb_false_r. exists rows. auto. }
    cbn [orb].
    replace (10 <=? List.length baseline)%nat with true
      by (symmetry; apply Nat.leb_le; exact Hge).
    replace (10 <=? List.length recent)%nat with true
      by (symmetry; apply Nat.leb_le; exact Hge').
    cbn [andb].
    destruct (calculate_psi_ok baseline recent) as [psi Hpsi].
    destruct (calculate_ks_statistic_ok baseline recent) as [ks Hks].
    rewrite Hpsi, Hks, IH. cbn [bind]. eexists. split; [reflexivity|].
    split; [cbn [map feature_name]; now rewrite Hnames|].
    intros row [<-|Hin]; [|exact (Hrows row Hin)].
    cbn [dm_model_id dm_timestamp feature_name psi_value ks_statistic].
    split; [reflexivity|]. split; [reflexivity|].
    exists baseline, recent. auto.
Qed.

End WithRuntime.
End DriftFacts.
Import DriftFacts.

(** ** Claims on the drift calculator *)
Module DriftClaims.
Section WithRuntime.
Context `{Runtime}.

(** C9. For every numeric sample A (empty or not), comparing A to itself
    gives PSI(A, A) = 0 and KS(A, A) = 0, both computed without an
    exception: the two histograms, hence the bin percentages, coincide, so
    every PSI term has a zero factor whatever the logarithm returns, and the
    two empirical CDFs coincide at every pooled point. *)
Theorem psi_and_ks_vanish_on_identical_samples (A : list Q) :
  exists psi ks,
    calculate_psi A A 10 = Ok psi /\
    calculate_ks_statistic A A = Ok ks /\
    (psi == 0)%Q /\ (ks == 0)%Q.
Proof.
  destruct A as [|x l].
  { exists 0%Q, 0%Q. repeat split; reflexivity. }
  rewrite calculate_psi_nonempty.
  eexists. eexists. split; [reflexivity|]. split; [reflexivity|]. split.
  - (* PSI *)
    apply py_sum_zero. intros t Ht. apply in_map_iff in Ht.
    destruct Ht as ([a e] & <- & Hin). apply combine_diag in Hin. subst e.
    cbn [fst snd]. ring.
  - (* KS *)
    cbn [ks_2samp].
    match goal with
    | |- context [min_of ?d ?ds] =>
        assert (Hzero : forall t, In t (d :: ds) -> (t == 0)%Q);
        [ intros t [<-|Ht];
          [ ring
          | apply in_map_iff in Ht; destruct Ht as (v & <- & _); ring ]
        | pose proof (Hzero _ (min_of_In ds d)) as Hmin;
          pose proof (Hzero _ (max_of_In ds d)) as Hmax;
          revert Hmin Hmax;
          generalize (min_of d ds); generalize (max_of d ds) ]
    end.
    intros M m Hmin Hmax. unfold py_max, clip, Qgtb.
    destruct (Qltb (- m) 0) eqn:E1;
      [apply Qltb_true in E1 | apply Qltb_false in E1];
      [|destruct (Qltb 1 (- m)) eqn:E2;
        [apply Qltb_true in E2 | apply Qltb_false in E2]];
      case_Qltb; lra.
Qed.


(** C10 (amended). When the first prediction log of an existing model, the
    one whose keys [calculate_drift_for_model] takes as feature names, has an
    input feature literally named "prediction", that name is monitored twice.
    When moreover the logged values of the model are floats of a magnitude
    of at most half the largest float, or are set aside as not numeric, a
    run returns and creates two rows of that name, with the same PSI and KS,
    when both samples hold at least 10 values, and none otherwise; and when
    every log of the model has the key, both samples are read from
    [input_features["prediction"]] alone: the stored prediction scores play
    no part, because the key-membership branch comes first. *)
Theorem prediction_key_is_monitored_twice
    (settings : Settings) (now : Z) (db : Db) (model_id : Z)
    (model : ModelRegistry) (sample_log : PredictionLog) :
  query_model db model_id = Some model ->
  first (query_prediction_logs db model_id) = Some sample_log ->
  dict_contains (input_features sample_log) "prediction" = true ->
  NoDup (keys (input_features sample_log)) ->
  well_ranged db model_id = true ->
  count_occ string_dec (features_to_monitor db model_id) "prediction" = 2%nat
  /\ (exists rows db',
        calculate_drift_for_model settings now db model_id = Ok (rows, db') /\
        let named :=
          filter (fun r => String.eqb (feature_name r) "prediction") rows in
        List.length named
        = (if enough_data settings db model_id "prediction" then 2 else 0)%nat /\
        forall r1 r2, In r1 named -> In r2 named ->
          psi_value r1 = psi_value r2 /\ ks_statistic r1 = ks_statistic r2)
  /\ ((forall log, In log (query_prediction_logs db model_id) ->
         dict_contains (input_features log) "prediction" = true) ->
      get_baseline_data db model_id "prediction"
      = Ok (input_feature_sample "prediction" (baseline_logs db model_id)) /\
      get_recent_data settings db model_id "prediction" None
      = Ok (input_feature_sample "prediction"
              (recent_logs db model_id (DRIFT_WINDOW_SIZE settings)))).
Proof.
  intros Hmodel Hsample Hkey Hnodup Hrange.
  apply well_ranged_converts in Hrange.
  assert (Hcount :
    count_occ string_dec (features_to_monitor db model_id) "prediction" = 2%nat).
  { unfold features_to_monitor. rewrite Hsample.
    apply dict_contains_keys in Hkey.
    destruct (input_features sample_log) as [|kv d] eqn:Hd; [destruct Hkey|].
    cbn [is_empty]. rewrite count_occ_app.
    rewrite (proj1 (NoDup_count_occ' string_dec _) Hnodup _ Hkey).
    reflexivity. }
  split; [exact Hcount|]. split.
  - unfold calculate_drift_for_model. rewrite Hmodel.
    destruct (drift_loop_spec settings now db model_id
                (features_to_monitor db model_id) Hrange)
      as (rows & Hloop & Hnames & Hrows).
    rewrite Hloop. cbn [bind]. exists rows. eexists. split; [reflexivity|].
    cbv zeta. split.
    + rewrite length_filter_name, Hnames, count_occ_filter, Hcount. reflexivity.
    + intros r1 r2 H1 H2. apply filter_In in H1, H2.
      destruct H1 as [H1 N1], H2 as [H2 N2].
      apply String.eqb_eq in N1, N2.
      destruct (Hrows r1 H1) as (_ & _ & b1 & c1 & Hb1 & Hc1 & Hp1 & Hk1).
      destruct (Hrows r2 H2) as (_ & _ & b2 & c2 & Hb2 & Hc2 & Hp2 & Hk2).
      rewrite N1 in Hb1, Hc1. rewrite N2 in Hb2, Hc2.
      assert (b1 = b2) by congruence. assert (c1 = c2) by congruence.
      subst b2 c2. split; congruence.
  - intros Hall. unfold get_baseline_data, get_recent_data. rewrite Hmodel.
    split; apply feature_values_from_inputs; intros log Hin.
    + apply (values_convert_log db model_id); [exact Hrange|].
      now apply baseline_logs_In.
    + apply Hall. now apply baseline_logs_In.
    + apply (values_convert_log db model_id); [exact Hrange|].
      exact (recent_logs_In _ _ _ _ Hin).
    + apply Hall. exact (recent_logs_In _ _ _ _ Hin).
Qed.

End WithRuntime.

(** C10, as stated, fails on a model with a single log: the log has an input
    feature named "prediction", the name is monitored twice, and the run
    creates no row at all, the samples being too small. *)
Lemma prediction_key_small_sample_counterexample :
  let db := db_logs one_log_prediction_key in
  (forall log, In log (prediction_logs db) ->
     dict_contains (input_features log) "prediction" = true) /\
  features_to_monitor db 1 = ["prediction"; "prediction"] /\
  @calculate_drift_for_model plain_runtime default_settings 0 db 1 = Ok ([], db).
Proof.
  split; [|split; reflexivity].
  intros log [<-|[]]. reflexivity.
Qed.

Lemma prediction_key_is_monitored_twice_witness :
  let db := db_logs twelve_logs_prediction_key in
  query_model db 1 = Some (model_with "draft") /\
  first (query_prediction_logs db 1)
  = Some (log_with [("prediction", JNum 1)] (0 / 20) 0) /\
  dict_contains [("prediction", JNum 1)] "prediction" = true /\
  NoDup (keys [("prediction", JNum 1)]) /\
  @well_ranged plain_runtime db 1 = true /\
  count_occ string_dec (features_to_monitor db 1) "prediction" = 2%nat.
Proof.
  assert (Hnodup : NoDup (keys [("prediction", JNum 1)]))
    by (repeat constructor; intros []).
  assert (Hrange : @well_ranged plain_runtime
                     (db_logs twelve_logs_prediction_key) 1 = true)
    by (vm_compute; reflexivity).
  split; [reflexivity|]. split; [reflexivity|]. split; [reflexivity|].
  split; [exact Hnodup|]. split; [exact Hrange|].
  exact (proj1 (@prediction_key_is_monitored_twice plain_runtime default_settings 0
                  (db_logs twelve_logs_prediction_key) 1 (model_with "draft")
                  (log_with [("prediction", JNum 1)] (0 / 20) 0)
                  eq_refl eq_refl eq_refl Hnodup Hrange)).
Defined.



(** Twelve logs that carry the key: two rows named "prediction", and the
    samples hold the feature value 1 of every log, not the stored scores. *)
Example drift_monitors_prediction_key_twice :
  match @calculate_drift_for_model plain_runtime default_settings 0
          (db_logs twelve_logs_prediction_key) 1 with
  | Ok (rows, _) => map feature_name rows = ["prediction"; "prediction"]
  | Raise _ => False
  end
  /\ @get_baseline_data plain_runtime (db_logs twelve_logs_prediction_key) 1
       "prediction"
     = Ok (repeat 1%Q 12).
Proof. vm_compute. split; reflexivity. Qed.

(** A model that does not exist: the empty list, no exception. *)
Example drift_of_missing_model :
  @calculate_drift_for_model plain_runtime default_settings 0 db_empty 42
  = Ok ([], db_empty).
Proof. reflexivity. Qed.

(** Twelve logs with features "amount" (numeric) and "segment"
    (categorical): "segment" has empty samples and is omitted; "amount" and
    the prediction score are evaluated. *)
Example drift_skips_categorical_feature :
  match @calculate_drift_for_model plain_runtime default_settings 0
          (db_logs twelve_logs) 1 with
  | Ok (rows, db') =>
      map feature_name rows = ["amount"; "prediction"]
      /\ map feature_name (drift_metrics db') = ["amount"; "prediction"]
  | Raise _ => False
  end.
Proof. vm_compute. split; reflexivity. Qed.

End DriftClaims.

(** ** The fairness calculator *)
Module FairnessFacts.

Lemma count_app_one {A} (p : A -> bool) (l : list A) (x : A) :
  count p (l ++ [x]) = (count p l + if p x then 1 else 0)%Z.
Proof.
  unfold count. rewrite filter_app, length_app. cbn [filter].
  destruct (p x); cbn [List.length]; lia.
Qed.

Lemma dict_get_In {V} (d : dict V) (k : string) (v : V) :
  NoDup (keys d) -> In (k, v) d -> dict_get d k = Some v.
Proof.
  unfold dict_get, keys. induction d as [|[k' v'] d IH]; cbn; [tauto|].
  intros Hnd Hin. inversion Hnd as [|? ? Hnotin Hnd']; subst.
  destruct Hin as [[= -> ->]|Hin].
  - now rewrite String.eqb_refl.
  - destruct (String.eqb_spec k' k) as [->|Hne]; [|now apply IH].
    exfalso. apply Hnotin. change k with (fst (k, v)). now apply in_map.
Qed.

Lemma dict_get_None_keys {V} (d : dict V) (k : string) :
  dict_get d k = None <-> ~ In k (keys d).
Proof.
  rewrite <- dict_contains_keys. unfold dict_contains.
  destruct (dict_get d k); split; try discriminate; try reflexivity; intuition.
Qed.

(** *** The [defaultdict] update *)

Lemma defaultdict_update_twice (key : string) (f g : GroupStats -> GroupStats)
    (d : dict GroupStats) :
  defaultdict_update key g (defaultdict_update key f d)
  = defaultdict_update key (fun s => g (f s)) d.
Proof.
  induction d as [|[k v] d IH]; cbn.
  - now rewrite String.eqb_refl.
  - destruct (String.eqb k key) eqn:E; cbn; rewrite E; [reflexivity|].
    now rewrite IH.
Qed.

Lemma defaultdict_update_ext (key : string) (f g : GroupStats -> GroupStats)
    (d : dict GroupStats) :
  (forall s, f s = g s) ->
  defaultdict_update key f d = defaultdict_update key g d.
Proof.
  intros Hfg. induction d as [|[k v] d IH]; cbn.
  - now rewrite Hfg.
  - destruct (String.eqb k key); [now rewrite Hfg | now rewrite IH].
Qed.

Lemma defaultdict_update_keys (key : string) (f : GroupStats -> GroupStats)
    (d : dict GroupStats) :
  keys (defaultdict_update key f d)
  = if dict_contains d key then keys d else keys d ++ [key].
Proof.
  unfold dict_contains, dict_get, keys.
  induction d as [|[k v] d IH]; cbn; [reflexivity|].
  destruct (String.eqb k key) eqn:E; cbn; [reflexivity|].
  rewrite IH. now destruct (find _ d).
Qed.

(** An entry after the update is an untouched entry of another key, or the
    updated entry of the key, which started from the stored value if there
    was one and from the default otherwise. *)
Lemma defaultdict_update_In (key : string) (f : GroupStats -> GroupStats)
    (d : dict GroupStats) (k : string) (s' : GroupStats) :
  NoDup (keys d) ->
  In (k, s') (defaultdict_update key f d) ->
  (k <> key /\ In (k, s') d) \/
  (k = key /\ exists s, s' = f s /\
     (In (key, s) d \/ (~ In key (keys d) /\ s = default_stats))).
Proof.
  induction d as [|[k0 v0] d IH]; cbn.
  - intros _ [[= <- <-]|[]]. right. split; [reflexivity|].
    exists default_stats. split; [reflexivity|]. right. split; [tauto|reflexivity].
  - intros Hnd. inversion Hnd as [|? ? Hnotin Hnd']; subst.
    destruct (String.eqb_spec k0 key) as [->|Hne]; cbn.
    + intros [[= <- <-]|Hin].
      * right. split; [reflexivity|]. exists v0. split; [reflexivity|]. now left; left.
      * left. split; [|now right]. intros ->. apply Hnotin.
        change key with (fst (key, s')). now apply in_map.
    + intros [[= <- <-]|Hin].
      * left. split; [exact Hne|now left].
      * destruct (IH Hnd' Hin) as [[Hk Hin']|[-> (s & -> & Hs)]].
        -- left. split; [exact Hk|now right].
        -- right. split; [reflexivity|]. exists s. split; [reflexivity|].
           destruct Hs as [Hs|[Hs ->]]; [left; now right|].
           right. split; [|reflexivity]. intros [Heq|Hin']; [contradiction|tauto].
Qed.

Section WithRuntime.
Context `{Runtime}.

Lemma observed_groups_app (attribute : string) (l1 l2 : list PredictionLog) :
  observed_groups attribute (l1 ++ l2)
  = observed_groups attribute l1 ++ observed_groups attribute l2.
Proof. unfold observed_groups. apply flat_map_app. Qed.

(** A group that was not observed has no prediction. *)
Lemma unobserved_group_counts (attribute g : string) (logs : list PredictionLog) :
  ~ In g (observed_groups attribute logs) ->
  group_total attribute g logs = 0%Z /\ group_positive attribute g logs = 0%Z.
Proof.
  unfold group_total, group_positive, count, observed_groups, in_group.
  induction logs as [|log logs IH]; cbn [flat_map filter]; [auto|].
  intros Hnot.
  assert (Hrest : ~ In g (flat_map
            (fun log => match group_of attribute log with
                        | Some g => [g] | None => [] end) logs))
    by (intros Hin; apply Hnot; apply in_or_app; now right).
  destruct (group_of attribute log) as [g'|]; [|exact (IH Hrest)].
  destruct (String.eqb_spec g' g) as [->|Hne]; [|exact (IH Hrest)].
  exfalso. apply Hnot. now left.
Qed.

(** An observed group has at least one prediction. *)
Lemma observed_group_total_pos (attribute g : string) (logs : list PredictionLog) :
  In g (observed_groups attribute logs) ->
  (0 < group_total attribute g logs)%Z.
Proof.
  unfold group_total, count, observed_groups, in_group.
  induction logs as [|log logs IH]; cbn [flat_map filter]; [intros []|].
  intros Hin. apply in_app_or in Hin.
  destruct (group_of attribute log) as [g'|].
  - destruct (String.eqb_spec g' g) as [->|Hne]; [cbn [List.length]; lia|].
    destruct Hin as [[Heq|[]]|Hin]; [contradiction|exact (IH Hin)].
  - destruct Hin as [[]|Hin]. exact (IH Hin).
Qed.

(** The loop body on a log without the attribute, and on a log with it. *)
Lemma group_step_skip (attribute : string) (stats : dict GroupStats)
    (log : PredictionLog) :
  group_of attribute log = None -> group_step attribute stats log = stats.
Proof.
  unfold group_of, group_step, dict_contains.
  destruct (dict_get (input_features log) attribute); [discriminate|].
  intros _. now rewrite orb_true_r.
Qed.

Lemma group_step_count (attribute : string) (stats : dict GroupStats)
    (log : PredictionLog) (g : string) :
  group_of attribute log = Some g ->
  group_step attribute stats log
  = defaultdict_update g
      (fun s => {| total := total s + 1;
                   positive := positive s
                               + if Qgtb (prediction log) 0.5 then 1 else 0 |})
      stats.
Proof.
  unfold group_of, group_step, dict_contains, dict_get.
  destruct (input_features log) as [|kv d] eqn:Hd; [discriminate|].
  cbn [is_empty orb].
  destruct (find _ (kv :: d)) as [[k v]|]; [|discriminate].
  intros [= <-]. cbn [negb snd].
  destruct (Qgtb (prediction log) 0.5).
  - rewrite defaultdict_update_twice. unfold incr_positive, incr_total. reflexivity.
  - apply defaultdict_update_ext. intros s. unfold incr_total.
    now rewrite Z.add_0_r.
Qed.

Lemma in_group_of (attribute g g0 : string) (log : PredictionLog) :
  group_of attribute log = Some g0 ->
  in_group attribute g log = String.eqb g0 g.
Proof. unfold in_group. now intros ->. Qed.

(** The loop body keeps the invariant. *)
Lemma group_step_ok (attribute : string) (seen : list PredictionLog)
    (stats : dict GroupStats) (log : PredictionLog) :
  stats_ok attribute seen stats ->
  stats_ok attribute (seen ++ [log]) (group_step attribute stats log).
Proof.
  intros (Hnd & Hkeys & Hcounts).
  destruct (group_of attribute log) as [g0|] eqn:Hg.
  - (* the log belongs to group g0 *)
    rewrite (group_step_count attribute stats log g0 Hg).
    set (f := fun s => {| total := total s + 1;
                          positive := positive s
                                      + if Qgtb (prediction log) 0.5 then 1 else 0 |}).
    assert (Hobs : observed_groups attribute (seen ++ [log])
                   = observed_groups attribute seen ++ [g0]).
    { rewrite observed_groups_app. unfold observed_groups at 2.
      cbn [flat_map]. now rewrite Hg. }
    assert (Hk : forall g, In g (keys (defaultdict_update g0 f stats))
                           <-> In g (keys stats) \/ g = g0).
    { intros g. rewrite defaultdict_update_keys.
      destruct (dict_contains stats g0) eqn:Hc.
      - apply dict_contains_keys in Hc. split; [now left|].
        intros [Hin| ->]; assumption.
      - rewrite in_app_iff. cbn [In]. intuition congruence. }
    split; [|split; [intros g; split|intros g s Hin0; split]].
    + rewrite defaultdict_update_keys.
      destruct (dict_contains stats g0) eqn:Hc; [exact Hnd|].
      apply NoDup_app; [exact Hnd|repeat constructor; intros []|].
      intros a Ha [<-|[]].
      apply dict_contains_keys in Ha. congruence.
    + rewrite Hk, Hobs, in_app_iff, Hkeys. cbn [In]. intuition congruence.
    + rewrite Hk, Hobs, in_app_iff, Hkeys. cbn [In]. intuition congruence.
    + unfold group_total. rewrite count_app_one, (in_group_of _ _ _ _ Hg).
      destruct (defaultdict_update_In g0 f stats g s Hnd Hin0)
        as [[Hne Hin]|[-> (s0 & -> & Hs0)]].
      * destruct (String.eqb_spec g0 g) as [Heq|_]; [congruence|].
        rewrite Z.add_0_r. exact (proj1 (Hcounts g s Hin)).
      * rewrite String.eqb_refl. cbn [f total]. f_equal.
        destruct Hs0 as [Hin|[Hnot ->]]; [exact (proj1 (Hcounts g0 s0 Hin))|].
        rewrite Hkeys in Hnot. symmetry.
        exact (proj1 (unobserved_group_counts attribute g0 seen Hnot)).
    + unfold group_positive. rewrite count_app_one, (in_group_of _ _ _ _ Hg).
      destruct (defaultdict_update_In g0 f stats g s Hnd Hin0)
        as [[Hne Hin]|[-> (s0 & -> & Hs0)]].
      * destruct (String.eqb_spec g0 g) as [Heq|_]; [congruence|].
        cbn [andb]. rewrite Z.add_0_r. exact (proj2 (Hcounts g s Hin)).
      * rewrite String.eqb_refl. cbn [f positive andb]. f_equal.
        destruct Hs0 as [Hin|[Hnot ->]]; [exact (proj2 (Hcounts g0 s0 Hin))|].
        rewrite Hkeys in Hnot. symmetry.
        exact (proj2 (unobserved_group_counts attribute g0 seen Hnot)).
  - (* the log has no such attribute *)
    rewrite (group_step_skip attribute stats log Hg).
    assert (Hobs : observed_groups attribute (seen ++ [log])
                   = observed_groups attribute seen).
    { rewrite observed_groups_app. unfold observed_groups at 2.
      cbn [flat_map]. rewrite Hg. now rewrite !app_nil_r. }
    assert (Hin_group : forall g, in_group attribute g log = false)
      by (intros g; unfold in_group; now rewrite Hg).
    split; [|split; [intros g; split|intros g s Hin0; split]].
    + exact Hnd.
    + rewrite Hobs. apply Hkeys.
    + rewrite Hobs. apply Hkeys.
    + unfold group_total. rewrite count_app_one, Hin_group, Z.add_0_r.
      exact (proj1 (Hcounts g s Hin0)).
    + unfold group_positive. rewrite count_app_one, Hin_group. cbn [andb].
      rewrite Z.add_0_r. exact (proj2 (Hcounts g s Hin0)).
Qed.

(** The grouping loop establishes the invariant on all the logs. *)
Lemma group_stats_ok (attribute : string) (logs : list PredictionLog) :
  stats_ok attribute logs (fold_left (group_step attribute) logs []).
Proof.
  assert (Hgen : forall rest seen stats,
            stats_ok attribute seen stats ->
            stats_ok attribute (seen ++ rest)
              (fold_left (group_step attribute) rest stats)).
  { induction rest as [|log rest IH]; intros seen stats Hok; cbn [fold_left].
    - now rewrite app_nil_r.
    - replace (seen ++ log :: rest) with ((seen ++ [log]) ++ rest)
        by (now rewrite <- app_assoc).
      apply IH. now apply group_step_ok. }
  apply (Hgen logs [] []).
  split; [apply NoDup_nil|]. split; [intros g; cbn; tauto|]. intros g s [].
Qed.

End WithRuntime.
End FairnessFacts.

(** ** Claim on the fairness calculator *)
Module FairnessClaims.
Import FairnessFacts.
Section WithRuntime.
Context `{Runtime}.

Lemma same_elements_length (l l' : list string) :
  NoDup l -> (forall x, In x l <-> In x l') ->
  List.length l = List.length (nodup string_dec l').
Proof.
  intros Hnd Hiff. apply Nat.le_antisymm.
  - apply NoDup_incl_length; [exact Hnd|].
    intros x Hx. apply nodup_In. now apply Hiff.
  - apply NoDup_incl_length; [apply NoDup_nodup|].
    intros x Hx. apply nodup_In in Hx. now apply Hiff.
Qed.

(** What [calculate_fairness_for_model] returns and stores, in terms of the
    table [group_stats] its loop builds. *)
Lemma fairness_rows_of_stats (now : Z) (db : Db) (model_id : Z) (attribute : string) :
  let out := calculate_fairness_for_model now db model_id attribute in
  let stats :=
    fold_left (group_step attribute) (query_prediction_logs db model_id) [] in
  let rates := map (fun kv => approval_rate_of (snd kv)) stats in
  let rows := fr_groups (fst out) in
  fairness_metrics (snd out) = fairness_metrics db ++ rows /\
  map group_name rows = keys stats /\
  (forall row, In row rows ->
     exists s, In (group_name row, s) stats /\
       total_predictions row = total s /\
       positive_predictions row = positive s /\
       approval_rate row =
         match dict_get (map (fun kv => (fst kv, approval_rate_of (snd kv))) stats)
                        (group_name row) with
         | Some r => r
         | None => 0%Q
         end) /\
  (forall row, In row rows ->
     disparity_score row =
       match rates with
       | [] => 0%Q
       | r :: rs => (max_of r rs - min_of r rs)%Q
       end).
Proof.
  cbv zeta. unfold calculate_fairness_for_model.
  destruct (query_prediction_logs db model_id) as [|l0 ls].
  { cbn. rewrite app_nil_r. repeat split; intros row []. }
  destruct (fold_left (group_step attribute) (l0 :: ls) []) as [|kv0 st].
  { cbn. rewrite app_nil_r. repeat split; intros row []. }
  cbn [fst snd fr_groups add_fairness_metrics fairness_metrics].
  rewrite map_map.
  split; [reflexivity|]. split.
  - unfold keys. rewrite map_map. apply map_ext. now intros [g s].
  - split; intros row Hin; apply in_map_iff in Hin;
      destruct Hin as ([g s] & <- & Hin); cbn.
    + exists s. repeat split. exact Hin.
    + reflexivity.
Qed.

(** C4. One fairness evaluation run stores exactly the rows it returns: one
    row per distinct group value observed for the attribute, holding that
    group's count of predictions, its count of predictions with score above
    0.5, and their quotient as approval rate; every row of the run carries
    the same disparity score, the largest approval rate of the run minus the
    smallest. *)
Theorem fairness_rows_share_max_minus_min
    (now : Z) (db : Db) (model_id : Z) (attribute : string) :
  let res := fst (calculate_fairness_for_model now db model_id attribute) in
  let db' := snd (calculate_fairness_for_model now db model_id attribute) in
  let logs := query_prediction_logs db model_id in
  let rows := fr_groups res in
  fairness_metrics db' = fairness_metrics db ++ rows /\
  NoDup (map group_name rows) /\
  (forall g, In g (map group_name rows) <-> In g (observed_groups attribute logs)) /\
  List.length rows = List.length (nodup string_dec (observed_groups attribute logs)) /\
  (forall row, In row rows ->
     total_predictions row = group_total attribute (group_name row) logs /\
     positive_predictions row = group_positive attribute (group_name row) logs /\
     (0 < total_predictions row)%Z /\
     approval_rate row
     = (inject_Z (positive_predictions row) / inject_Z (total_predictions row))%Q) /\
  (forall r1 r2, In r1 rows -> In r2 rows ->
     disparity_score r1 = disparity_score r2) /\
  (rows <> [] ->
   exists hi lo,
     In hi (map approval_rate rows) /\ In lo (map approval_rate rows) /\
     (forall row, In row rows -> (lo <= approval_rate row <= hi)%Q) /\
     forall row, In row rows -> disparity_score row = (hi - lo)%Q).
Proof.
  cbv zeta.
  pose proof (fairness_rows_of_stats now db model_id attribute) as Hrows.
  pose proof (group_stats_ok attribute (query_prediction_logs db model_id)) as Hok.
  cbv zeta in Hrows.
  set (logs := query_prediction_logs db model_id) in *.
  set (stats := fold_left (group_step attribute) logs []) in *.
  set (rows := fr_groups (fst (calculate_fairness_for_model now db model_id attribute)))
    in *.
  destruct Hrows as (Hstored & Hnames & Hrow & Hdisp).
  destruct Hok as (Hnd & Hkeys & Hcounts).
  (* the approval rate stored in a row is that of its group *)
  assert (Hrate : forall row, In row rows ->
            total_predictions row = group_total attribute (group_name row) logs /\
            positive_predictions row = group_positive attribute (group_name row) logs /\
            (0 < total_predictions row)%Z /\
            approval_rate row
            = (inject_Z (positive_predictions row) / inject_Z (total_predictions row))%Q /\
            exists s, In (group_name row, s) stats /\
                      approval_rate row = approval_rate_of s).
  { intros row Hin. destruct (Hrow row Hin) as (s & Hs & Ht & Hp & Ha).
    destruct (Hcounts _ _ Hs) as [Htot Hpos].
    assert (Hobs : In (group_name row) (observed_groups attribute logs)).
    { apply Hkeys. change (group_name row) with (fst (group_name row, s)).
      now apply in_map. }
    pose proof (observed_group_total_pos attribute _ logs Hobs) as Hgt.
    assert (Ha' : approval_rate row = approval_rate_of s).
    { rewrite Ha.
      rewrite (dict_get_In _ (group_name row) (approval_rate_of s)); [reflexivity| |].
      - unfold keys in *. rewrite map_map. cbn [fst]. exact Hnd.
      - apply in_map_iff. exists (group_name row, s). split; [reflexivity|exact Hs]. }
    rewrite Ht, Hp, Htot, Hpos. repeat split; [lia| |].
    - rewrite Ha'. unfold approval_rate_of. rewrite Htot.
      rewrite (proj2 (Z.gtb_gt _ _)) by lia. now rewrite Hpos.
    - exists s. split; [exact Hs|exact Ha']. }
  split; [exact Hstored|]. split; [now rewrite Hnames|].
  split; [intros g; rewrite Hnames; apply Hkeys|].
  split.
  { rewrite <- (length_map group_name).
    apply same_elements_length; [now rewrite Hnames|].
    intros g. rewrite Hnames. apply Hkeys. }
  split; [intros row Hin; destruct (Hrate row Hin) as (? & ? & ? & ? & _); auto|].
  split; [intros r1 r2 H1 H2; now rewrite (Hdisp r1 H1), (Hdisp r2 H2)|].
  intros Hne.
  (* the list of rates the disparity is computed from is the list of the
     approval rates of the rows *)
  assert (Hrates : map (fun kv => approval_rate_of (snd kv)) stats
                   = map approval_rate rows).
  { clear Hne.
    assert (Hgen : forall rs st,
              map group_name rs = keys st ->
              (forall row, In row rs -> exists s, In (group_name row, s) st /\
                                                  approval_rate row = approval_rate_of s) ->
              NoDup (keys st) ->
              map (fun kv => approval_rate_of (snd kv)) st = map approval_rate rs).
    { induction rs as [|r rs IH]; intros [|[g s] st]; cbn; try discriminate;
        [reflexivity|].
      intros [= Hg Hrest] Hall Hnd'.
      apply NoDup_cons_iff in Hnd'. destruct Hnd' as [Hnotin Hnd''].
      destruct (Hall r (or_introl eq_refl)) as (s' & [Heq|Hs'] & Hr).
      - assert (Hs : s = s') by congruence. subst s'.
        f_equal; [now symmetry|]. apply IH; [exact Hrest| |exact Hnd''].
        intros row Hin.
        destruct (Hall row (or_intror Hin)) as (s0 & [Heq0|Hs0] & Hr0); [|eauto].
        assert (Hg0 : g = group_name row) by congruence.
        exfalso. apply Hnotin. rewrite Hg0. unfold keys in Hrest.
        rewrite <- Hrest. now apply in_map.
      - exfalso. apply Hnotin. rewrite <- Hg.
        change (group_name r) with (fst (group_name r, s')). now apply in_map. }
    apply Hgen; [exact Hnames| |exact Hnd].
    intros row Hin. destruct (Hrate row Hin) as (_ & _ & _ & _ & s & Hs & Ha).
    eauto. }
  rewrite Hrates in Hdisp.
  destruct (map approval_rate rows) as [|r rs] eqn:Hmap.
  { destruct rows; [contradiction|discriminate]. }
  exists (max_of r rs), (min_of r rs).
  split; [apply max_of_In|]. split; [apply min_of_In|]. split; [|exact Hdisp].
  intros row Hin.
  assert (Hr : In (approval_rate row) (r :: rs))
    by (rewrite <- Hmap; now apply in_map).
  split; [now apply min_of_lower_bound | now apply max_of_upper_bound].
Qed.

End WithRuntime.

(** The two-group case of the specification: approval rates 0.70 and 0.45
    give the disparity 0.25 on both rows of the run (and in the answer). *)
Example fairness_two_groups :
  let out := @calculate_fairness_for_model plain_runtime 5
               (db_logs two_group_logs) 1 "gender" in
  map (fun r => (group_name r, total_predictions r, positive_predictions r))
      (fr_groups (fst out))
  = [("F", 20%Z, 14%Z); ("M", 20%Z, 9%Z)]
  /\ Forall (fun r => disparity_score r == 0.25)%Q (fr_groups (fst out))
  /\ Forall2 (fun r rate => approval_rate r == rate)%Q
       (fr_groups (fst out)) [0.70; 0.45]%Q
  /\ (fr_disparity_score (fst out) == 0.25)%Q
  /\ fr_fairness_flag (fst out) = true
  /\ fairness_metrics (snd out) = fr_groups (fst out).
Proof. vm_compute. repeat split; repeat constructor. Qed.

End FairnessClaims.

(** ** The numpy and scipy models on concrete arrays *)
Module NumericExamples.

Example linspace_five_points :
  Forall2 Qeq (linspace 0 1 5) [0; 0.25; 0.5; 0.75; 1]%Q.
Proof. vm_compute. repeat constructor. Qed.

(** Half-open bins, the last one closed: 5 falls into the last bin. *)
Example bin_counts_last_bin_closed :
  histogram [1; 2; 2; 3; 5]%Q [1; 2; 3; 5]%Q = Ok [1; 2; 2]%Z.
Proof. reflexivity. Qed.

Example histogram_rejects_decreasing_edges :
  histogram [1; 2]%Q [3; 2; 1]%Q = Raise ValueError.
Proof. reflexivity. Qed.

Example ks_of_disjoint_samples :
  match ks_2samp [0; 1; 2]%Q [10; 11; 12]%Q with
  | Ok d => (d == 1)%Q
  | Raise _ => False
  end.
Proof. vm_compute. reflexivity. Qed.

Example ks_of_overlapping_samples :
  match ks_2samp [1; 2; 3; 4]%Q [3; 4; 5; 6]%Q with
  | Ok d => (d == 0.5)%Q
  | Raise _ => False
  end.
Proof. vm_compute. reflexivity. Qed.

Example ks_of_empty_sample : ks_2samp [] [1]%Q = Raise ValueError.
Proof. reflexivity. Qed.

End NumericExamples.

(* ================================================================== *)
(** * Part III: further properties of the code                         *)
(* ================================================================== *)

(** ** The governance evaluator, once more *)
Module GovernanceMore.

Lemma update_first_idempotent {A} (p : A -> bool) (f : A -> A) (l : list A) :
  (forall x, p (f x) = p x) -> (forall x, f (f x) = f x) ->
  update_first p f (update_first p f l) = update_first p f l.
Proof.
  intros Hp Hf. induction l as [|a l IH]; cbn; [reflexivity|].
  destruct (p a) eqn:E; cbn.
  - now rewrite Hp, E, Hf.
  - now rewrite E, IH.
Qed.

(** X1. Evaluating twice in a row changes nothing the second time: the same
    verdict comes back and the database stays as the first evaluation left
    it. *)
Theorem evaluation_is_idempotent (db : Db) (model_id : Z) :
  let first_run := evaluate_model_governance db model_id in
  evaluate_model_governance (snd first_run) model_id = first_run.
Proof.
  cbv zeta.
  destruct (query_model db model_id) as [model|] eqn:Hm.
  2:{ unfold evaluate_model_governance. rewrite Hm. cbn [snd]. now rewrite Hm. }
  destruct (query_active_policy db) as [policy|] eqn:Hp.
  2:{ unfold evaluate_model_governance. rewrite Hm, Hp. cbn [snd].
      now rewrite Hm, Hp. }
  destruct (evaluate_with_policy db model_id model policy Hm Hp)
    as (risk & disp & Hrisk & Hdisp & Hev).
  rewrite Hev. cbn [snd].
  set (s := fst (governance_rules risk disp policy)) in *.
  assert (Hm' : query_model (update_model db model_id (set_status s)) model_id
                = Some (set_status s model))
    by (apply query_model_update; [reflexivity|exact Hm]).
  destruct (evaluate_with_policy _ model_id _ policy Hm' Hp)
    as (risk' & disp' & Hrisk' & Hdisp' & Hev').
  assert (risk' = risk) by (etransitivity; [exact Hrisk'|symmetry; exact Hrisk]).
  assert (disp' = disp) by (etransitivity; [exact Hdisp'|symmetry; exact Hdisp]).
  rewrite Hev'. clear Hrisk' Hdisp' Hev'. subst risk' disp'. fold s. f_equal.
  unfold update_model, with_models. cbn [models policies prediction_logs
    drift_metrics fairness_metrics risk_history audit_logs].
  f_equal. apply update_first_idempotent; reflexivity.
Qed.

(** X2. A higher risk or a higher disparity never earns a more lenient verdict
    under the same policy. *)
Theorem verdict_is_monotone (risk1 risk2 disparity1 disparity2 : Q)
    (policy : GovernancePolicy) :
  (risk1 <= risk2)%Q -> (disparity1 <= disparity2)%Q ->
  (severity (fst (governance_rules risk1 disparity1 policy))
   <= severity (fst (governance_rules risk2 disparity2 policy)))%nat.
Proof.
  intros Hr Hd. unfold governance_rules, Qgtb.
  repeat match goal with
         | |- context [Qltb ?a ?b] =>
             let E := fresh "E" in
             destruct (Qltb a b) eqn:E;
             [apply Qltb_true in E | apply Qltb_false in E]
         end; cbn; try lia; exfalso; lra.
Qed.

Lemma verdict_is_monotone_witness :
  (65 <= 95)%Q /\ (0.05 <= 0.05)%Q /\
  (severity (fst (governance_rules 65 0.05 policy_80_60))
   <= severity (fst (governance_rules 95 0.05 policy_80_60)))%nat.
Proof.
  assert (H1 : (65 <= 95)%Q) by (unfold Qle; cbn; lia).
  assert (H2 : (0.05 <= 0.05)%Q) by apply Qle_refl.
  split; [exact H1|]. split; [exact H2|].
  exact (verdict_is_monotone 65 95 0.05 0.05 policy_80_60 H1 H2).
Defined.

(** X3. The recommendation that merges the governance verdict with the status
    of the AI analysis is one of the three governance statuses and is never
    more lenient than either of the two. *)
Theorem merged_recommendation_is_never_more_lenient
    (governance_status ai_status : string) :
  let merged := _merge_governance_and_ai governance_status ai_status in
  (merged = "blocked" \/ merged = "at_risk" \/ merged = "approved") /\
  (severity governance_status <= severity merged)%nat /\
  (ai_severity ai_status <= severity merged)%nat.
Proof.
  cbv zeta. unfold _merge_governance_and_ai, severity, ai_severity.
  destruct (String.eqb governance_status "blocked");
    destruct (String.eqb ai_status "elevated");
    destruct (String.eqb governance_status "at_risk");
    destruct (String.eqb ai_status "concerning"); cbn; intuition lia.
Qed.

End GovernanceMore.

(** ** The deployment gate, once more *)
Module DeploymentMore.

(** The database after one guarded audit call. *)
Lemma guarded_audit_db (fault : session_fault) (now : Z) (w : World)
    (user_id model_id : Z) (action action_status : string)
    (risk disparity : option Q) (gov used just dep : option string)
    (details : option (dict fstring)) (message : string) :
  let entry :=
    {| al_user_id := user_id; al_model_id := model_id; al_action := action;
       al_action_status := action_status; al_risk_score := risk;
       al_disparity_score := disparity; al_governance_status := gov;
       al_override_used := used; al_override_justification := just;
       al_deployment_status := dep; al_details := or_empty details;
       al_timestamp := now |} in
  w_db (try_audit message
          (log_governance_action fault now w user_id model_id action
             action_status risk disparity gov used just dep details))
  = match fault entry with
    | None => add_audit_log (w_db w) entry
    | Some _ => w_db w
    end.
Proof.
  intros entry. unfold log_governance_action. fold entry.
  destruct (fault entry); reflexivity.
Qed.

(** What a deployment attempt on an existing model answers, writes and
    records, in terms of the verdict of its governance evaluation. *)
Lemma deploy_model_effect (fault : session_fault)
    (now current_user model_id : Z) (override : bool) (w : World)
    (model : ModelRegistry) :
  query_model (w_db w) model_id = Some model ->
  let verdict := gr_status (fst (evaluate_model_governance (w_db w) model_id)) in
  let db1 := snd (evaluate_model_governance (w_db w) model_id) in
  let out := deploy_model fault now current_user model_id override w in
  let allowed :=
    negb (String.eqb verdict "blocked")
    && negb (String.eqb verdict "at_risk" && negb override) in
  let dbm := if allowed then update_model db1 model_id set_deployed else db1 in
  exists entry,
    w_audit_calls (snd out) = w_audit_calls w ++ [entry] /\
    w_db (snd out) = match fault entry with
                     | None => add_audit_log dbm entry
                     | Some _ => dbm
                     end /\
    al_user_id entry = current_user /\ al_model_id entry = model_id /\
    al_action entry = "deployment" /\ al_timestamp entry = now /\
    al_deployment_status entry = Some (if allowed then "deployed" else "blocked") /\
    al_override_used entry
    = Some (if override && String.eqb verdict "at_risk" then "yes" else "no") /\
    if allowed then
      fst out = Ok {| dr_model_id := model_id; dr_status := "deployed";
                      dr_message := "Model deployed successfully";
                      dr_override_used :=
                        override && String.eqb verdict "at_risk" |}
    else exists detail, fst out = Raise (HTTPException 403 detail).
Proof.
  intros Hm verdict db1 out allowed dbm.
  subst verdict db1 out allowed dbm. unfold deploy_model. rewrite Hm.
  destruct (evaluate_model_governance (w_db w) model_id) as [res db1].
  cbv beta iota zeta. cbn [fst snd].
  destruct (String.eqb (gr_status res) "blocked") eqn:Eb;
    [|destruct (String.eqb (gr_status res) "at_risk" && negb override) eqn:Ea;
      [|destruct (override && String.eqb (gr_status res) "at_risk") eqn:Eo]];
    cbn [negb andb fst snd];
    match goal with
    | |- context [try_audit ?msg (log_governance_action ?f ?n ?w0 ?u ?m ?a ?s
                                    ?r ?d ?g ?o ?j ?dep ?det)] =>
        pose proof (guarded_audit_call f n w0 u m a s r d g o j dep det msg)
          as (Hcalls & _ & _);
        pose proof (guarded_audit_db f n w0 u m a s r d g o j dep det msg) as Hdb;
        cbv zeta in Hcalls, Hdb;
        eexists; split; [exact Hcalls|]; split; [exact Hdb|]
    end;
    repeat (split; [reflexivity|]).
  - (* blocked *)
    split; [|eexists; reflexivity].
    apply String.eqb_eq in Eb. rewrite Eb. now rewrite andb_false_r.
  - (* at risk, no override *)
    split; [|eexists; reflexivity].
    apply andb_true_iff in Ea. destruct Ea as [_ Ea].
    apply negb_true_iff in Ea. now rewrite Ea.
  - reflexivity.
  - reflexivity.
Qed.

Lemma evaluate_keeps_model (db : Db) (model_id : Z) (model : ModelRegistry) :
  query_model db model_id = Some model ->
  exists m1,
    query_model (snd (evaluate_model_governance db model_id)) model_id = Some m1 /\
    mr_deployment_status m1 = mr_deployment_status model.
Proof.
  intros Hm. unfold evaluate_model_governance. rewrite Hm.
  destruct (query_active_policy db); [|now exists model].
  destruct (governance_rules _ _ _) as [s reason]. cbn [snd].
  exists (set_status s model). split; [|reflexivity].
  apply query_model_update; [reflexivity|exact Hm].
Qed.

(** X4. The decision of the gate on an existing model: the deployment goes
    through exactly when the verdict is not "blocked" and is not "at_risk"
    without override (so any other stored status passes when no policy is
    active). A deployment that goes through marks the model "deployed" and
    reports the override as used only for an at-risk verdict; a refused one
    is a 403 that leaves the models as the evaluation wrote them. *)
Theorem deployment_decision_table (fault : session_fault)
    (now current_user model_id : Z) (override : bool) (w : World)
    (model : ModelRegistry) :
  query_model (w_db w) model_id = Some model ->
  let verdict := gr_status (fst (evaluate_model_governance (w_db w) model_id)) in
  let db1 := snd (evaluate_model_governance (w_db w) model_id) in
  let out := deploy_model fault now current_user model_id override w in
  if negb (String.eqb verdict "blocked")
     && negb (String.eqb verdict "at_risk" && negb override)
  then
    fst out = Ok {| dr_model_id := model_id; dr_status := "deployed";
                    dr_message := "Model deployed successfully";
                    dr_override_used := override && String.eqb verdict "at_risk" |}
    /\ exists m, query_model (w_db (snd out)) model_id = Some m /\
                 mr_status m = "deployed" /\ mr_deployment_status m = "deployed"
  else
    (exists detail, fst out = Raise (HTTPException 403 detail))
    /\ models (w_db (snd out)) = models db1.
Proof.
  intros Hm verdict db1 out.
  destruct (deploy_model_effect fault now current_user model_id override w model Hm)
    as (entry & _ & Hdb & _ & _ & _ & _ & _ & _ & Hout).
  cbv zeta in Hdb, Hout. fold verdict db1 out in Hdb, Hout.
  destruct (evaluate_keeps_model (w_db w) model_id model Hm) as (m1 & Hm1 & _).
  fold db1 in Hm1.
  destruct (negb (String.eqb verdict "blocked")
            && negb (String.eqb verdict "at_risk" && negb override)).
  - split; [exact Hout|]. exists (set_deployed m1).
    split; [|split; reflexivity].
    assert (Hq : query_model (update_model db1 model_id set_deployed) model_id
                 = Some (set_deployed m1))
      by (apply query_model_update; [reflexivity|exact Hm1]).
    rewrite Hdb. destruct (fault entry); exact Hq.
  - split; [exact Hout|]. rewrite Hdb. now destruct (fault entry).
Qed.

(** Without an active policy a model whose stored status is "approved"
    deploys without override. *)
Lemma deployment_decision_table_witness :
  query_model (w_db (world_of db_no_policy_approved)) 1
  = Some (model_with "approved") /\
  fst (deploy_model healthy 0 7 1 false (world_of db_no_policy_approved))
  = Ok {| dr_model_id := 1; dr_status := "deployed";
          dr_message := "Model deployed successfully";
          dr_override_used := false |}.
Proof.
  split; [reflexivity|].
  exact (proj1 (deployment_decision_table healthy 0 7 1 false
                  (world_of db_no_policy_approved) (model_with "approved")
                  eq_refl)).
Defined.

(** The verdict of an evaluation under an active policy depends on the
    policies, the risk history and the fairness metrics only. *)
Lemma evaluate_frame (db db' : Db) (model_id : Z) (m m' : ModelRegistry)
    (policy : GovernancePolicy) :
  query_model db model_id = Some m ->
  query_model db' model_id = Some m' ->
  query_active_policy db = Some policy ->
  policies db' = policies db ->
  risk_history db' = risk_history db ->
  fairness_metrics db' = fairness_metrics db ->
  fst (evaluate_model_governance db' model_id)
  = fst (evaluate_model_governance db model_id)
  /\ query_model (snd (evaluate_model_governance db' model_id)) model_id
     = Some (set_status
               (gr_status (fst (evaluate_model_governance db model_id))) m').
Proof.
  intros Hm Hm' Hp Hpol Hrisk Hfair.
  assert (Hp' : query_active_policy db' = Some policy)
    by (unfold query_active_policy in *; now rewrite Hpol).
  destruct (evaluate_with_policy db model_id m policy Hm Hp)
    as (r & d & Hr & Hd & Hev).
  destruct (evaluate_with_policy db' model_id m' policy Hm' Hp')
    as (r' & d' & Hr' & Hd' & Hev').
  unfold query_risk_history in Hr'. rewrite Hrisk in Hr'.
  unfold query_fairness_metrics in Hd'. rewrite Hfair in Hd'.
  assert (r' = r) by (etransitivity; [exact Hr'|symmetry; exact Hr]).
  assert (d' = d) by (etransitivity; [exact Hd'|symmetry; exact Hd]).
  clear Hr Hd Hr' Hd'. subst r' d'. rewrite Hev, Hev'. cbn [fst snd gr_status].
  split; [reflexivity|]. apply query_model_update; [reflexivity|exact Hm'].
Qed.

Lemma verdict_is_a_governance_status (risk disparity : Q) (policy : GovernancePolicy) :
  let s := fst (governance_rules risk disparity policy) in
  s = "blocked" \/ s = "at_risk" \/ s = "approved".
Proof.
  cbv zeta. rewrite governance_rules_status.
  destruct (fired_gate risk disparity policy); cbn; auto.
Qed.

(** X5. "deployed" is not a protected status: after a deployment attempt, a new
    evaluation under the active policy returns the verdict it returned
    before and writes it over the stored status, which is then one of
    "blocked", "at_risk", "approved"; the deployment status of a model that
    was deployed stays "deployed". *)
Theorem reevaluation_overwrites_deployed_status (fault : session_fault)
    (now current_user model_id : Z) (override : bool) (w : World)
    (model : ModelRegistry) (policy : GovernancePolicy) :
  query_model (w_db w) model_id = Some model ->
  query_active_policy (w_db w) = Some policy ->
  let before := evaluate_model_governance (w_db w) model_id in
  let out := deploy_model fault now current_user model_id override w in
  let again := evaluate_model_governance (w_db (snd out)) model_id in
  fst again = fst before /\
  exists m,
    query_model (snd again) model_id = Some m /\
    mr_status m = gr_status (fst again) /\
    (mr_status m = "blocked" \/ mr_status m = "at_risk"
     \/ mr_status m = "approved") /\
    (is_ok (fst out) = true -> mr_deployment_status m = "deployed").
Proof.
  intros Hm Hp before out again.
  destruct (deploy_model_effect fault now current_user model_id override w model Hm)
    as (entry & _ & Hdb & _ & _ & _ & _ & _ & _ & Hout).
  cbv zeta in Hdb, Hout. fold out in Hdb, Hout.
  destruct (evaluate_with_policy (w_db w) model_id model policy Hm Hp)
    as (r & d & _ & _ & Hev).
  set (s := fst (governance_rules r d policy)) in *.
  set (allowed := negb (String.eqb (gr_status (fst (evaluate_model_governance
                    (w_db w) model_id))) "blocked")
                  && negb (String.eqb (gr_status (fst (evaluate_model_governance
                    (w_db w) model_id))) "at_risk" && negb override)) in *.
  set (mf := if allowed then set_deployed (set_status s model)
             else set_status s model).
  assert (Hm1 : query_model (update_model (w_db w) model_id (set_status s)) model_id
                = Some (set_status s model))
    by (apply query_model_update; [reflexivity|exact Hm]).
  assert (Hfinal :
    query_model (w_db (snd out)) model_id = Some mf /\
    policies (w_db (snd out)) = policies (w_db w) /\
    risk_history (w_db (snd out)) = risk_history (w_db w) /\
    fairness_metrics (w_db (snd out)) = fairness_metrics (w_db w)).
  { rewrite Hdb, Hev. cbn [snd]. subst mf.
    destruct allowed; destruct (fault entry); repeat split;
      try exact Hm1;
      apply (query_model_update _ model_id set_deployed (set_status s model));
      (reflexivity || exact Hm1). }
  destruct Hfinal as (Hmf & Hpol & Hrisk & Hfair).
  destruct (evaluate_frame (w_db w) (w_db (snd out)) model_id model mf policy
              Hm Hmf Hp Hpol Hrisk Hfair) as [Hsame Hq].
  fold again before in Hsame, Hq. split; [exact Hsame|].
  eexists. split; [exact Hq|]. cbn [mr_status set_status mr_deployment_status].
  split; [now rewrite Hsame|]. split.
  - subst before. rewrite Hev. cbn [fst gr_status].
    apply verdict_is_a_governance_status.
  - intros Hok. subst mf. destruct allowed; [reflexivity|].
    destruct Hout as [detail Hout]. rewrite Hout in Hok. discriminate.
Qed.

(** An at-risk model deployed by override, then evaluated again. *)
Lemma reevaluation_overwrites_deployed_status_witness :
  query_model (w_db (world_of db_risk_65)) 1 = Some (model_with "draft") /\
  query_active_policy (w_db (world_of db_risk_65)) = Some policy_80_60 /\
  fst (evaluate_model_governance
         (w_db (snd (deploy_model healthy 0 7 1 true (world_of db_risk_65)))) 1)
  = fst (evaluate_model_governance (w_db (world_of db_risk_65)) 1).
Proof.
  split; [reflexivity|]. split; [reflexivity|].
  exact (proj1 (reevaluation_overwrites_deployed_status healthy 0 7 1 true
                  (world_of db_risk_65) (model_with "draft") policy_80_60
                  eq_refl eq_refl)).
Defined.

(** X6. The evaluation endpoint answers 404 for a missing model and writes
    nothing; for an existing model it answers with the verdict of the
    service, whose status write it keeps, and invokes the audit recorder
    exactly once: a failing audit write stores no entry and changes neither
    the answer nor the rest of the database. *)
Theorem evaluation_endpoint_audits_once (fault : session_fault)
    (now current_user model_id : Z) (w : World) :
  let out := evaluate_governance fault now current_user model_id w in
  match query_model (w_db w) model_id with
  | None => out = (Raise (HTTPException 404 [Lit "Model not found"]), w)
  | Some _ =>
      let evaluated := evaluate_model_governance (w_db w) model_id in
      fst out = Ok (fst evaluated) /\
      exists entry,
        w_audit_calls (snd out) = w_audit_calls w ++ [entry] /\
        al_action entry = "governance_evaluate" /\
        al_governance_status entry = Some (gr_status (fst evaluated)) /\
        al_risk_score entry = gr_risk_score (fst evaluated) /\
        w_db (snd out) = match fault entry with
                         | None => add_audit_log (snd evaluated) entry
                         | Some _ => snd evaluated
                         end
  end.
Proof.
  cbv zeta. unfold evaluate_governance.
  destruct (query_model (w_db w) model_id); [|reflexivity].
  destruct (evaluate_model_governance (w_db w) model_id) as [res db1].
  cbv beta iota zeta. cbn [fst snd]. split; [reflexivity|].
  match goal with
  | |- context [try_audit ?msg (log_governance_action ?f ?n ?w0 ?u ?m ?a ?s
                                  ?r ?d ?g ?o ?j ?dep ?det)] =>
      pose proof (guarded_audit_call f n w0 u m a s r d g o j dep det msg)
        as (Hcalls & _ & _);
      pose proof (guarded_audit_db f n w0 u m a s r d g o j dep det msg) as Hdb;
      cbv zeta in Hcalls, Hdb;
      eexists; split; [exact Hcalls|]
  end.
  repeat (split; [reflexivity|]). exact Hdb.
Qed.

(** A row appended with a key above those of the rows it competes with
    comes first in the descending order. *)
Lemma newest_row_first {A} (key : A -> Z) (p : A -> bool) (l : list A) (e : A)
    (n : nat) :
  (forall x, In x l -> p x = true -> (key x < key e)%Z) ->
  p e = true -> (0 < n)%nat ->
  first (limit n (order_by_desc key (filter p (l ++ [e])))) = Some e.
Proof.
  intros Hold He Hn.
  assert (Hlim : forall (L : list A), first (limit n L) = first L)
    by (intros L; destruct n; [lia|now destruct L]).
  rewrite Hlim.
  assert (Hin : In e (filter p (l ++ [e])))
    by (apply filter_In; split; [apply in_or_app; right; now left|exact He]).
  destruct (first (order_by_desc key (filter p (l ++ [e])))) as [y|] eqn:Hy.
  - apply first_order_by_desc in Hy. destruct Hy as [Hyin Hmax].
    specialize (Hmax e Hin). apply filter_In in Hyin.
    destruct Hyin as [Hyin Hpy]. apply in_app_or in Hyin.
    destruct Hyin as [Hyl|[<-|[]]]; [|reflexivity].
    specialize (Hold y Hyl Hpy). lia.
  - apply first_order_by_desc_None in Hy. rewrite Hy in Hin. destruct Hin.
Qed.

Lemma first_limit_In {A} (n : nat) (L : list A) (x : A) :
  first (limit n L) = Some x -> In x L.
Proof.
  destruct n; [discriminate|]. destruct L; [discriminate|].
  cbn. intros [= ->]. now left.
Qed.

(** X7. With a working audit store and a clock past every stored audit entry, a
    deployment attempt on an existing model leaves one new audit entry: it
    heads the model's deployment history; it heads the list of blocked
    deployments exactly when the attempt was refused; and it heads the
    user's overrides exactly when the deployment went through by override. *)
Theorem deployment_attempt_reaches_the_audit_queries (fault : session_fault)
    (now current_user model_id : Z) (override : bool) (w : World)
    (model : ModelRegistry) (lim : nat) :
  query_model (w_db w) model_id = Some model ->
  (forall entry, fault entry = None) ->
  (forall a, In a (audit_logs (w_db w)) -> (al_timestamp a < now)%Z) ->
  (0 < lim)%nat ->
  let out := deploy_model fault now current_user model_id override w in
  let db' := w_db (snd out) in
  exists entry,
    audit_logs db' = audit_logs (w_db w) ++ [entry] /\
    first (get_model_deployment_history db' model_id lim) = Some entry /\
    (first (get_blocked_deployments db' lim) = Some entry
     <-> is_ok (fst out) = false) /\
    (first (get_overrides_for_user db' current_user lim) = Some entry
     <-> exists response, fst out = Ok response /\ dr_override_used response = true).
Proof.
  intros Hm Hfault Hclock Hlim out db'.
  destruct (deploy_model_effect fault now current_user model_id override w model Hm)
    as (entry & _ & Hdb & Huser & Hmodel & Haction & Hts & Hdep & Hused & Hout).
  cbv zeta in Hdb, Hdep, Hused, Hout. fold out in Hdb, Hout.
  rewrite Hfault in Hdb.
  set (verdict := gr_status (fst (evaluate_model_governance (w_db w) model_id))) in *.
  set (allowed := negb (String.eqb verdict "blocked")
                  && negb (String.eqb verdict "at_risk" && negb override)) in *.
  assert (Hlogs : audit_logs db' = audit_logs (w_db w) ++ [entry]).
  { subst db'. rewrite Hdb. cbn [add_audit_log audit_logs]. f_equal.
    pose proof (evaluate_keeps_audit_logs (w_db w) model_id) as Hal.
    destruct allowed; exact Hal. }
  assert (Hnew : forall x, In x (audit_logs (w_db w)) ->
                           (al_timestamp x < al_timestamp entry)%Z)
    by (intros x Hx; rewrite Hts; now apply Hclock).
  exists entry. split; [exact Hlogs|]. split; [|split].
  - unfold get_model_deployment_history. rewrite Hlogs.
    apply newest_row_first; [intros x Hx _; now apply Hnew| |exact Hlim].
    now rewrite Hmodel, Haction, Z.eqb_refl.
  - unfold get_blocked_deployments. rewrite Hlogs. split.
    + intros Hfirst. apply first_limit_In, order_by_desc_In, filter_In in Hfirst.
      destruct Hfirst as [_ Hp]. rewrite Hdep in Hp.
      destruct allowed; [discriminate|].
      destruct Hout as [detail Hout]. now rewrite Hout.
    + intros Hdenied.
      apply newest_row_first; [intros x Hx _; now apply Hnew| |exact Hlim].
      rewrite Hdep. destruct allowed; [|reflexivity].
      rewrite Hout in Hdenied. discriminate.
  - unfold get_overrides_for_user. rewrite Hlogs. split.
    + intros Hfirst. apply first_limit_In, order_by_desc_In, filter_In in Hfirst.
      destruct Hfirst as [_ Hp]. rewrite Hused in Hp.
      apply andb_true_iff in Hp. destruct Hp as [_ Hp].
      destruct (override && String.eqb verdict "at_risk") eqn:Eo; [|discriminate].
      apply andb_true_iff in Eo. destruct Eo as [-> Eo].
      apply String.eqb_eq in Eo. subst allowed. rewrite Eo in Hout.
      cbn in Hout. eexists. split; [exact Hout|reflexivity].
    + intros (response & Hok & Hov).
      apply newest_row_first; [intros x Hx _; now apply Hnew| |exact Hlim].
      rewrite Huser, Hused, Z.eqb_refl.
      destruct allowed.
      * rewrite Hout in Hok. injection Hok as <-. cbn in Hov. now rewrite Hov.
      * destruct Hout as [detail Hout]. rewrite Hout in Hok. discriminate.
Qed.

Lemma deployment_attempt_reaches_the_audit_queries_witness :
  let out := deploy_model healthy 5 7 1 true (world_of db_risk_95) in
  query_model (w_db (world_of db_risk_95)) 1 = Some (model_with "draft") /\
  exists entry,
    first (get_blocked_deployments (w_db (snd out)) 50) = Some entry.
Proof.
  split; [reflexivity|].
  destruct (deployment_attempt_reaches_the_audit_queries healthy 5 7 1 true
              (world_of db_risk_95) (model_with "draft") 50 eq_refl
              (fun _ => eq_refl) (fun a (Hin : In a []) => match Hin with end)
              (Nat.lt_0_succ 49))
    as (entry & _ & _ & Hblocked & _).
  exists entry. apply Hblocked. reflexivity.
Defined.

(** X8. The simulation predicts the gate: for a model whose latest risk and
    disparity the evaluator reads as [risk] and [disparity], simulating
    [risk] with a fairness score from which the simulation computes that
    same disparity ([100 - fairness_score], the value it compares with the
    policy) passes, under the active policy, exactly when the deployment
    attempt with the same override flag goes through. *)
Theorem simulation_predicts_the_deployment_gate (fault : session_fault)
    (now current_user model_id : Z) (override : bool) (w : World)
    (model : ModelRegistry) (policy : GovernancePolicy)
    (risk disparity fairness_score : Q) :
  query_model (w_db w) model_id = Some model ->
  query_active_policy (w_db w) = Some policy ->
  gr_risk_score (fst (evaluate_model_governance (w_db w) model_id)) = Some risk ->
  gr_disparity_score (fst (evaluate_model_governance (w_db w) model_id))
  = Some disparity ->
  (100 - fairness_score == disparity)%Q ->
  would_pass (simulate_governance_check risk fairness_score override policy)
  = is_ok (fst (deploy_model fault now current_user model_id override w)).
Proof.
  intros Hm Hp Hrisk Hdisp Hfs.
  destruct (deploy_model_effect fault now current_user model_id override w model Hm)
    as (entry & _ & _ & _ & _ & _ & _ & _ & _ & Hout).
  cbv zeta in Hout.
  destruct (evaluate_with_policy (w_db w) model_id model policy Hm Hp)
    as (r & d & _ & _ & Hev).
  rewrite Hev in Hout, Hrisk, Hdisp. cbn [fst gr_status gr_risk_score
    gr_disparity_score] in Hout, Hrisk, Hdisp.
  injection Hrisk as ->. injection Hdisp as ->.
  assert (Hd : Qgtb (100 - fairness_score) (max_allowed_disparity policy)
               = Qgtb disparity (max_allowed_disparity policy)).
  { unfold Qgtb. apply Qltb_comp; [reflexivity|exact Hfs]. }
  unfold simulate_governance_check. rewrite Hd.
  unfold governance_rules in Hout.
  destruct (Qgtb risk (max_allowed_mri policy));
    [|destruct (Qgtb disparity (max_allowed_disparity policy));
      [|destruct (Qgtb risk (approval_required_above_mri policy))]];
    destruct override; cbn in Hout |- *;
    try (rewrite Hout; reflexivity);
    destruct Hout as [detail ->]; reflexivity.
Qed.

(** Risk 65 and disparity 0.125, simulated with the fairness score 99.875
    (all three are floats, and so is their difference from 100). *)
Lemma simulation_predicts_the_deployment_gate_witness :
  let w := world_of (db_with "draft" [policy_80_60] [risk_row 65 1]
                       [fairness_row 0.125 1]) in
  query_model (w_db w) 1 = Some (model_with "draft") /\
  query_active_policy (w_db w) = Some policy_80_60 /\
  (100 - 99.875 == 0.125)%Q /\
  would_pass (simulate_governance_check 65 99.875 true policy_80_60)
  = is_ok (fst (deploy_model healthy 0 7 1 true w)).
Proof.
  cbv zeta.
  split; [reflexivity|]. split; [reflexivity|]. split; [reflexivity|].
  exact (simulation_predicts_the_deployment_gate healthy 0 7 1 true
           (world_of (db_with "draft" [policy_80_60] [risk_row 65 1]
                        [fairness_row 0.125 1]))
           (model_with "draft") policy_80_60
           65 0.125 99.875 eq_refl eq_refl eq_refl eq_refl eq_refl).
Defined.

End DeploymentMore.

(** ** The risk composer, once more *)
Module RiskMore.

(** Rounding to the nearest integer stays on the same side of an integer
    bound. *)
Lemma round_half_even_le (y : Q) (k : Z) :
  (y <= inject_Z k)%Q -> (round_half_even y <= k)%Z.
Proof.
  intros Hy. unfold round_half_even.
  pose proof (Qfloor_le y) as Hfl.
  assert (Hfk : (Qfloor y <= k)%Z).
  { rewrite <- (Qfloor_Z k). now apply Qfloor_resp_le. }
  assert (Hup : (0 < y - inject_Z (Qfloor y))%Q -> (Qfloor y + 1 <= k)%Z).
  { intros Hpos.
    assert (Hlt : (inject_Z (Qfloor y) < inject_Z k)%Q) by lra.
    rewrite <- Zlt_Qlt in Hlt. lia. }
  destruct (Qltb (y - inject_Z (Qfloor y)) 0.5) eqn:E1; [exact Hfk|].
  apply Qltb_false in E1.
  destruct (Qgtb (y - inject_Z (Qfloor y)) 0.5);
    [|destruct (Z.even (Qfloor y)); [exact Hfk|]]; apply Hup; lra.
Qed.

Lemma round_half_even_ge (y : Q) (k : Z) :
  (inject_Z k <= y)%Q -> (k <= round_half_even y)%Z.
Proof.
  intros Hy. unfold round_half_even.
  assert (Hfk : (k <= Qfloor y)%Z).
  { rewrite <- (Qfloor_Z k). now apply Qfloor_resp_le. }
  destruct (Qltb _ 0.5); [exact Hfk|].
  destruct (Qgtb _ 0.5); [lia|]. destruct (Z.even _); lia.
Qed.

Lemma scale_pos (ndigits : nat) : (0 < inject_Z (10 ^ Z.of_nat ndigits))%Q.
Proof.
  change 0%Q with (inject_Z 0). rewrite <- Zlt_Qlt.
  apply Z.pow_pos_nonneg; lia.
Qed.

(** [round(x, ndigits)] stays within integer bounds of [x]. *)
Lemma py_round_le (x : Q) (ndigits : nat) (k : Z) :
  (x <= inject_Z k)%Q -> (py_round x ndigits <= inject_Z k)%Q.
Proof.
  intros Hx. unfold py_round. cbv zeta.
  pose proof (scale_pos ndigits) as Hs.
  set (scale := inject_Z (10 ^ Z.of_nat ndigits)) in *.
  apply Qle_shift_div_r; [exact Hs|].
  unfold scale. rewrite <- inject_Z_mult, <- Zle_Qle.
  apply round_half_even_le. rewrite inject_Z_mult. fold scale.
  apply Qmult_le_compat_r; [exact Hx|now apply Qlt_le_weak].
Qed.

Lemma py_round_ge (x : Q) (ndigits : nat) (k : Z) :
  (inject_Z k <= x)%Q -> (inject_Z k <= py_round x ndigits)%Q.
Proof.
  intros Hx. unfold py_round. cbv zeta.
  pose proof (scale_pos ndigits) as Hs.
  set (scale := inject_Z (10 ^ Z.of_nat ndigits)) in *.
  apply Qle_shift_div_l; [exact Hs|].
  unfold scale. rewrite <- inject_Z_mult, <- Zle_Qle.
  apply round_half_even_ge. rewrite inject_Z_mult. fold scale.
  apply Qmult_le_compat_r; [exact Hx|now apply Qlt_le_weak].
Qed.

Lemma py_min_le_both (a b : Q) : (py_min a b <= a /\ py_min a b <= b)%Q.
Proof.
  unfold py_min. destruct (Qltb b a) eqn:E;
    [apply Qltb_true in E | apply Qltb_false in E]; split; lra.
Qed.

(** X9. Whatever the drift and fairness rows say, the risk score of a new entry
    lies between 0 and 100, and neither component exceeds 100. *)
Theorem risk_scores_are_bounded (now : Z) (db : Db) (model_id : Z) :
  let entry := fst (create_risk_history_entry now db model_id) in
  (0 <= risk_score entry <= 100)%Q /\
  (drift_component entry <= 100)%Q /\
  (fairness_component entry <= 100)%Q.
Proof.
  cbn [create_risk_history_entry fst risk_score drift_component
       fairness_component].
  split; [|split].
  - unfold calculate_mri_score. cbv zeta.
    set (x := (_ * 0.6 + _ * 0.4)%Q).
    split.
    + apply (py_round_ge _ 2 0). unfold py_min, py_max, Qgtb.
      repeat match goal with
             | |- context [Qltb ?a ?b] =>
                 let E := fresh "E" in
                 destruct (Qltb a b) eqn:E;
                 [apply Qltb_true in E | apply Qltb_false in E]
             end; unfold inject_Z; lra.
    + apply (py_round_le _ 2 100). apply py_min_le_both.
  - unfold calculate_drift_component.
    destruct (limit 50 (query_drift_metrics db model_id)); [discriminate|].
    apply (py_round_le _ 2 100). apply py_min_le_both.
  - unfold calculate_fairness_component.
    destruct (first (query_fairness_metrics db model_id)); [|discriminate].
    apply (py_round_le _ 2 100). apply py_min_le_both.
Qed.

(** X10. Composing the risk with a clock past the model's stored entries makes
    the new entry the latest one, and a governance evaluation that follows
    judges the model on its score. *)
Theorem new_risk_entry_is_the_latest (now : Z) (db : Db) (model_id : Z)
    (model : ModelRegistry) (policy : GovernancePolicy) :
  query_model db model_id = Some model ->
  query_active_policy db = Some policy ->
  (forall r, In r (risk_history db) -> (rh_model_id r =? model_id)%Z = true ->
             (rh_timestamp r < now)%Z) ->
  let entry := fst (create_risk_history_entry now db model_id) in
  let db' := snd (create_risk_history_entry now db model_id) in
  get_latest_risk_score db' model_id = Some entry /\
  gr_risk_score (fst (evaluate_model_governance db' model_id))
  = Some (risk_score entry) /\
  (max_allowed_mri policy < risk_score entry ->
   gr_status (fst (evaluate_model_governance db' model_id)) = "blocked")%Q.
Proof.
  intros Hm Hp Hclock entry db'.
  assert (Hlatest : first (query_risk_history db' model_id) = Some entry).
  { pose proof (DeploymentMore.newest_row_first rh_timestamp
                  (fun r => (rh_model_id r =? model_id)%Z)
                  (risk_history db) entry 1) as Hnew.
    cbn [limit] in Hnew. unfold query_risk_history. subst db'.
    cbn [create_risk_history_entry snd add_risk_history risk_history].
    fold entry.
    assert (Hfirst : forall L : list RiskHistory, first (firstn 1 L) = first L)
      by (intros [|? ?]; reflexivity).
    rewrite <- Hfirst. apply Hnew; [|apply Z.eqb_refl|lia].
    intros x Hx Hxm. apply (Hclock x Hx Hxm). }
  split; [exact Hlatest|].
  assert (Hm' : query_model db' model_id = Some model) by exact Hm.
  assert (Hp' : query_active_policy db' = Some policy) by exact Hp.
  destruct (evaluate_with_policy db' model_id model policy Hm' Hp')
    as (r & d & Hr & _ & Hev).
  rewrite Hlatest in Hr. subst r. rewrite Hev. cbn [fst gr_risk_score gr_status].
  split; [reflexivity|].
  intros Hgt. unfold governance_rules. apply Qgtb_true in Hgt. now rewrite Hgt.
Qed.

Lemma new_risk_entry_is_the_latest_witness :
  let db := db_metrics [drift_row 3 1 1] [fairness_row 1 1] in
  query_model db 1 = Some (model_with "draft") /\
  query_active_policy db = Some policy_80_60 /\
  get_latest_risk_score (snd (create_risk_history_entry 9 db 1)) 1
  = Some (fst (create_risk_history_entry 9 db 1)).
Proof.
  split; [reflexivity|]. split; [reflexivity|].
  exact (proj1 (new_risk_entry_is_the_latest 9
                  (db_metrics [drift_row 3 1 1] [fairness_row 1 1]) 1
                  (model_with "draft") policy_80_60 eq_refl eq_refl
                  (fun r (Hin : In r []) _ => match Hin with end))).
Defined.

End RiskMore.

(** ** The fairness calculator, once more *)
Module FairnessMore.
Import FairnessFacts.
Section WithRuntime.
Context `{Runtime}.

Lemma count_and_le {A} (p q : A -> bool) (l : list A) :
  (0 <= count (fun x => p x && q x) l <= count p l)%Z.
Proof.
  unfold count. split; [lia|]. apply inj_le.
  induction l as [|a l IH]; cbn; [lia|].
  destruct (p a); destruct (q a); cbn; lia.
Qed.

(** Every entry of the table of the grouping loop counts at least one
    prediction, and no more positive ones than predictions. *)
Lemma stats_entry_bounds (attribute : string) (logs : list PredictionLog)
    (g : string) (s : GroupStats) :
  In (g, s) (fold_left (group_step attribute) logs []) ->
  (0 < total s /\ 0 <= positive s <= total s)%Z.
Proof.
  intros Hin.
  destruct (group_stats_ok attribute logs) as (_ & Hkeys & Hcounts).
  destruct (Hcounts g s Hin) as [-> ->].
  split; [|apply count_and_le].
  apply observed_group_total_pos. apply Hkeys.
  change g with (fst (g, s)). now apply in_map.
Qed.

Lemma approval_rate_of_bounds (s : GroupStats) :
  (0 < total s)%Z -> (0 <= positive s <= total s)%Z ->
  (0 <= approval_rate_of s <= 1)%Q.
Proof.
  intros Ht [Hp0 Hpt]. unfold approval_rate_of.
  rewrite (proj2 (Z.gtb_gt _ _)) by lia.
  assert (Htq : (0 < inject_Z (total s))%Q)
    by (change 0%Q with (inject_Z 0); now rewrite <- Zlt_Qlt).
  split.
  - apply Qle_shift_div_l; [exact Htq|]. rewrite Qmult_0_l.
    change 0%Q with (inject_Z 0). now rewrite <- Zle_Qle.
  - apply Qle_shift_div_r; [exact Htq|]. rewrite Qmult_1_l.
    now rewrite <- Zle_Qle.
Qed.

(** The disparity computed from a non-empty list of rates within [0, 1]. *)
Lemma spread_bounds (r : Q) (rs : list Q) :
  (forall x, In x (r :: rs) -> (0 <= x <= 1)%Q) ->
  (0 <= max_of r rs - min_of r rs <= 1)%Q.
Proof.
  intros Hall.
  pose proof (Hall _ (max_of_In rs r)) as [_ Hmax].
  pose proof (Hall _ (min_of_In rs r)) as [Hmin _].
  pose proof (min_of_lower_bound rs r r (or_introl eq_refl)) as Hlo.
  pose proof (max_of_upper_bound rs r r (or_introl eq_refl)) as Hhi.
  lra.
Qed.

(** The rows of one run carry the model and the clock of the run. *)
Lemma fairness_rows_stamp (now : Z) (db : Db) (model_id : Z) (attribute : string) :
  forall row,
    In row (fr_groups (fst (calculate_fairness_for_model now db model_id attribute))) ->
    fm_model_id row = model_id /\ fm_timestamp row = now.
Proof.
  unfold calculate_fairness_for_model.
  destruct (query_prediction_logs db model_id) as [|l0 ls]; [intros row []|].
  destruct (fold_left (group_step attribute) (l0 :: ls) []) as [|kv0 st];
    [intros row []|].
  cbn [fst fr_groups]. intros row Hin. apply in_map_iff in Hin.
  destruct Hin as ([g s] & <- & _). split; reflexivity.
Qed.

(** X11. Whatever the logs, the rows of a run hold counts with
    [0 <= positive <= total] and approval rates and a disparity between 0
    and 1; so does the disparity the run returns. *)
Theorem fairness_values_are_bounded
    (now : Z) (db : Db) (model_id : Z) (attribute : string) :
  let res := fst (calculate_fairness_for_model now db model_id attribute) in
  (forall row, In row (fr_groups res) ->
     (0 <= positive_predictions row <= total_predictions row)%Z /\
     (0 <= approval_rate row <= 1)%Q /\
     (0 <= disparity_score row <= 1)%Q) /\
  (0 <= fr_disparity_score res <= 1)%Q.
Proof.
  cbv zeta.
  pose proof (FairnessClaims.fairness_rows_of_stats now db model_id attribute)
    as Hrows.
  cbv zeta in Hrows. destruct Hrows as (_ & _ & Hrow & Hdisp).
  destruct (group_stats_ok attribute (query_prediction_logs db model_id))
    as (Hnd & _ & _).
  set (stats := fold_left (group_step attribute)
                  (query_prediction_logs db model_id) []) in *.
  assert (Hentry : forall g s, In (g, s) stats ->
            (0 < total s /\ 0 <= positive s <= total s)%Z)
    by (intros g s; apply stats_entry_bounds).
  assert (Hspread :
    (0 <= match map (fun kv => approval_rate_of (snd kv)) stats with
          | [] => 0
          | r :: rs => max_of r rs - min_of r rs
          end <= 1)%Q).
  { destruct (map (fun kv => approval_rate_of (snd kv)) stats) as [|r rs] eqn:Hmap;
      [lra|].
    apply spread_bounds. intros x Hx. rewrite <- Hmap in Hx.
    apply in_map_iff in Hx. destruct Hx as ([g s] & <- & Hin).
    destruct (Hentry g s Hin). now apply approval_rate_of_bounds. }
  split.
  - intros row Hin. destruct (Hrow row Hin) as (s & Hs & Ht & Hp & Ha).
    destruct (Hentry _ _ Hs) as [Htot Hpos].
    rewrite Ht, Hp. split; [exact Hpos|]. split.
    + rewrite Ha.
      rewrite (dict_get_In _ (group_name row) (approval_rate_of s)).
      * now apply approval_rate_of_bounds.
      * unfold keys in *. rewrite map_map. exact Hnd.
      * apply in_map_iff. exists (group_name row, s). split; [reflexivity|exact Hs].
    + rewrite (Hdisp row Hin). exact Hspread.
  - clear Hrow Hdisp. subst stats. revert Hspread.
    unfold calculate_fairness_for_model.
    destruct (query_prediction_logs db model_id) as [|l0 ls]; [intros _; cbn; lra|].
    destruct (fold_left (group_step attribute) (l0 :: ls) []) as [|kv0 st];
      [intros _; cbn; lra|].
    cbn [fst fr_disparity_score]. rewrite map_map. cbn [snd].
    intros [Hlo Hhi]. split.
    + now apply (RiskMore.py_round_ge _ 4 0).
    + now apply (RiskMore.py_round_le _ 4 1).
Qed.

(** X12. A run finds no group exactly when no log of the model has the
    attribute; it then answers disparity 0, flag false, no groups, and
    leaves the database as it was. *)
Theorem fairness_without_the_attribute
    (now : Z) (db : Db) (model_id : Z) (attribute : string) :
  let out := calculate_fairness_for_model now db model_id attribute in
  (fr_groups (fst out) = [] <->
   forall log, In log (query_prediction_logs db model_id) ->
               dict_contains (input_features log) attribute = false) /\
  (fr_groups (fst out) = [] ->
   out = ({| fr_disparity_score := 0; fr_fairness_flag := false;
             fr_groups := [] |}, db)).
Proof.
  cbv zeta.
  pose proof (FairnessClaims.fairness_rows_of_stats now db model_id attribute)
    as Hrows.
  cbv zeta in Hrows. destruct Hrows as (_ & Hnames & _ & _).
  destruct (group_stats_ok attribute (query_prediction_logs db model_id))
    as (_ & Hkeys & _).
  split.
  - split.
    + intros Hnil log Hin. rewrite Hnil in Hnames. cbn in Hnames.
      destruct (dict_contains (input_features log) attribute) eqn:Hc; [|reflexivity].
      exfalso.
      assert (Hobs : exists g, In g (observed_groups attribute
                                       (query_prediction_logs db model_id))).
      { unfold dict_contains in Hc.
        destruct (dict_get (input_features log) attribute) as [v|] eqn:Hv;
          [|discriminate].
        exists (py_str v). unfold observed_groups. apply in_flat_map.
        exists log. split; [exact Hin|]. unfold group_of. rewrite Hv. now left. }
      destruct Hobs as [g Hg]. apply Hkeys in Hg. rewrite <- Hnames in Hg.
      destruct Hg.
    + intros Hnone.
      assert (Hk : keys (fold_left (group_step attribute)
                           (query_prediction_logs db model_id) []) = []).
      { destruct (keys _) as [|g ks] eqn:Hk; [reflexivity|]. exfalso.
        assert (Hg : In g (g :: ks)) by now left.
        apply Hkeys in Hg.
        unfold observed_groups in Hg. apply in_flat_map in Hg.
        destruct Hg as (log & Hin & Hg). specialize (Hnone log Hin).
        unfold group_of, dict_contains in *.
        destruct (dict_get (input_features log) attribute); [discriminate|].
        destruct Hg. }
      rewrite Hk in Hnames. now destruct (fr_groups _).
  - unfold calculate_fairness_for_model.
    destruct (query_prediction_logs db model_id) as [|l0 ls]; [reflexivity|].
    destruct (fold_left (group_step attribute) (l0 :: ls) []) as [|kv0 st];
      [reflexivity|].
    cbn [fst fr_groups map]. discriminate.
Qed.

End WithRuntime.
End FairnessMore.

(** ** The callers of the calculators: background tasks and log ingestion *)
Module PipelineMore.

(** Rows appended together under one key above those of the rows they
    compete with: one of them comes first in the descending order. *)
Lemma newest_batch_first {A} (key : A -> Z) (p : A -> bool) (l news : list A)
    (k : Z) :
  news <> [] ->
  (forall x, In x news -> p x = true /\ key x = k) ->
  (forall x, In x l -> p x = true -> (key x < k)%Z) ->
  exists y, first (order_by_desc key (filter p (l ++ news))) = Some y /\ In y news.
Proof.
  intros Hne Hnews Hold.
  destruct news as [|e news]; [contradiction|].
  assert (Hin : In e (filter p (l ++ e :: news))).
  { apply filter_In. split; [apply in_or_app; right; now left|].
    apply Hnews. now left. }
  destruct (first (order_by_desc key (filter p (l ++ e :: news)))) as [y|] eqn:Hy.
  - exists y. split; [reflexivity|].
    apply first_order_by_desc in Hy. destruct Hy as [Hyin Hmax].
    specialize (Hmax e Hin). apply filter_In in Hyin.
    destruct Hyin as [Hyin Hpy]. apply in_app_or in Hyin.
    destruct Hyin as [Hyl|Hynew]; [|exact Hynew].
    specialize (Hold y Hyl Hpy).
    destruct (Hnews e (or_introl eq_refl)) as [_ Hk]. lia.
  - apply first_order_by_desc_None in Hy. rewrite Hy in Hin. destruct Hin.
Qed.

Lemma add_drift_metrics_nil (db : Db) : add_drift_metrics db [] = db.
Proof. destruct db. unfold add_drift_metrics. cbn. now rewrite app_nil_r. Qed.

Lemma insert_by_length {A} (before : A -> A -> bool) (x : A) (l : list A) :
  List.length (insert_by before x l) = S (List.length l).
Proof.
  induction l as [|y l IH]; cbn; [reflexivity|].
  destruct (before x y); cbn; [reflexivity|now rewrite IH].
Qed.

Lemma order_by_asc_length {A} (key : A -> Z) (l : list A) :
  List.length (order_by_asc key l) = List.length l.
Proof.
  unfold order_by_asc. induction l as [|x l IH]; cbn; [reflexivity|].
  now rewrite insert_by_length, IH.
Qed.

Section WithRuntime.
Context `{Runtime}.

(** A sample holds at most one value per log. *)
Lemma feature_values_length (feature : string) (logs : list PredictionLog)
    (vs : list Q) :
  feature_values feature logs = Ok vs ->
  (List.length vs <= List.length logs)%nat.
Proof.
  revert vs. induction logs as [|log logs IH]; cbn [feature_values]; intros vs.
  - intros [= <-]. cbn. lia.
  - destruct (feature_value feature log) as [v|e]; [|discriminate].
    cbn [bind].
    destruct (feature_values feature logs) as [vs'|e]; [|discriminate].
    cbn [bind]. specialize (IH vs' eq_refl).
    intros [= <-]. destruct v; cbn [List.length]; lia.
Qed.

(** With fewer than 10 logs of the model, no feature has enough data. *)
Lemma few_logs_not_enough_data (settings : Settings) (db : Db) (model_id : Z)
    (feature : string) :
  (List.length (query_prediction_logs db model_id) < 10)%nat ->
  enough_data settings db model_id feature = false.
Proof.
  intros Hfew. unfold enough_data, get_baseline_data.
  destruct (query_model db model_id) as [model|];
    [|destruct (get_recent_data settings db model_id feature None); reflexivity].
  destruct (feature_values feature (baseline_logs db model_id)) as [vs|] eqn:Hb;
    [|reflexivity].
  destruct (get_recent_data settings db model_id feature None); [|reflexivity].
  apply feature_values_length in Hb.
  assert (Hlen : (List.length (baseline_logs db model_id)
                  <= List.length (query_prediction_logs db model_id))%nat).
  { unfold baseline_logs, limit. rewrite length_firstn, order_by_asc_length.
    apply Nat.le_min_r. }
  replace (10 <=? List.length vs)%nat with false; [reflexivity|].
  symmetry. apply Nat.leb_gt. lia.
Qed.

(** X13. A model with fewer than 10 prediction logs, none of whose feature
    values is an integer beyond the range of the floats, has no feature with
    enough data: the drift calculation returns the empty list and writes
    nothing. *)
Theorem drift_needs_ten_logs (settings : Settings) (now : Z) (db : Db)
    (model_id : Z) :
  (List.length (query_prediction_logs db model_id) < 10)%nat ->
  values_convert db model_id = true ->
  calculate_drift_for_model settings now db model_id = Ok ([], db).
Proof.
  intros Hfew Hconv. unfold calculate_drift_for_model.
  destruct (query_model db model_id) as [model|] eqn:Hm; [|reflexivity].
  destruct (drift_loop_spec settings now db model_id
              (features_to_monitor db model_id) Hconv)
    as (rows & Hloop & Hnames & _).
  rewrite Hloop. cbn [bind].
  assert (Hrows : rows = []).
  { assert (Hfil : filter (enough_data settings db model_id)
                     (features_to_monitor db model_id) = []).
    { apply filter_nil_iff. intros f _.
      now apply few_logs_not_enough_data. }
    rewrite Hfil in Hnames. now destruct rows. }
  subst rows. now rewrite add_drift_metrics_nil.
Qed.

(** X14. Logging a prediction for a missing model is a 404 that writes nothing.
    For an existing model the request succeeds and stores the log, stamped
    with the given timestamp or else with the clock, and then runs the drift
    calculation on the logs including the new one. When the logged values
    of the model, the new ones included, are floats of a magnitude of at
    most half the largest float or are set aside as not numeric, the
    calculation returns, its rows are stored and exactly one risk entry is
    appended. When the calculation raises, the handler swallows the
    exception: no drift row and no risk entry is stored. *)
Theorem logged_prediction_runs_drift_then_risk (settings : Settings)
    (now_log now_drift now_risk : Z) (log_data : PredictionLogCreate) (db : Db) :
  let prediction_log :=
    {| pl_model_id := lc_model_id log_data;
       input_features := lc_input_features log_data;
       prediction := lc_prediction log_data;
       pl_timestamp := match lc_timestamp log_data with
                       | Some t => t
                       | None => now_log
                       end |} in
  let db0 := add_prediction_log db prediction_log in
  let run :=
    calculate_drift_for_model settings now_drift db0 (lc_model_id log_data) in
  let out := log_prediction settings now_log now_drift now_risk log_data db in
  match query_model db (lc_model_id log_data) with
  | None => out = (Raise (HTTPException 404 [Lit "Model not found"]), db)
  | Some _ =>
      fst out = Ok prediction_log /\
      prediction_logs (snd out) = prediction_logs db ++ [prediction_log] /\
      models (snd out) = models db /\
      (well_ranged db0 (lc_model_id log_data) = true ->
       exists rows entry,
         run = Ok (rows, add_drift_metrics db0 rows) /\
         drift_metrics (snd out) = drift_metrics db ++ rows /\
         risk_history (snd out) = risk_history db ++ [entry] /\
         rh_model_id entry = lc_model_id log_data /\
         rh_timestamp entry = now_risk) /\
      (is_ok run = false -> snd out = db0)
  end.
Proof.
  cbv zeta. unfold log_prediction.
  destruct (query_model db (lc_model_id log_data)) as [model|] eqn:Hm;
    [|reflexivity].
  cbv zeta.
  set (plog := {| pl_model_id := lc_model_id log_data;
                  input_features := lc_input_features log_data;
                  prediction := lc_prediction log_data;
                  pl_timestamp := match lc_timestamp log_data with
                                  | Some t => t
                                  | None => now_log
                                  end |}).
  set (db0 := add_prediction_log db plog).
  assert (Hm0 : query_model db0 (lc_model_id log_data) = Some model) by exact Hm.
  split; [reflexivity|]. split.
  { destruct (calculate_drift_for_model settings now_drift db0
                (lc_model_id log_data)) as [[rows db1]|e] eqn:Hrun; [|reflexivity].
    unfold calculate_drift_for_model in Hrun. rewrite Hm0 in Hrun.
    destruct (drift_loop _ _ _ _ _) as [rows'|e]; [|discriminate].
    cbn [bind] in Hrun. injection Hrun as <- <-. reflexivity. }
  split.
  { destruct (calculate_drift_for_model settings now_drift db0
                (lc_model_id log_data)) as [[rows db1]|e] eqn:Hrun; [|reflexivity].
    unfold calculate_drift_for_model in Hrun. rewrite Hm0 in Hrun.
    destruct (drift_loop _ _ _ _ _) as [rows'|e]; [|discriminate].
    cbn [bind] in Hrun. injection Hrun as <- <-. reflexivity. }
  split.
  - intros Hrange. apply well_ranged_converts in Hrange.
    unfold calculate_drift_for_model. rewrite Hm0.
    destruct (drift_loop_spec settings now_drift db0 (lc_model_id log_data)
                (features_to_monitor db0 (lc_model_id log_data)) Hrange)
      as (rows & Hloop & _ & _).
    rewrite Hloop. cbn [bind snd fst].
    exists rows. eexists. repeat (split; [reflexivity|]). reflexivity.
  - destruct (calculate_drift_for_model settings now_drift db0
                (lc_model_id log_data)) as [[rows db1]|e]; [discriminate|].
    reflexivity.
Qed.

(** X15. The background drift task runs the drift calculation. When the logged
    values of the model are floats of a magnitude of at most half the
    largest float, or are set aside as not numeric, the calculation returns
    and the task stores its rows and recomputes the risk only when there are
    any: without rows it logs a warning and the risk history stays as it
    was. When the calculation raises, the task stores nothing and its last
    log record is an error. *)
Theorem background_drift_updates_risk_only_with_rows (settings : Settings)
    (now_drift now_risk : Z) (model_id : Z) (w : World) :
  let run := calculate_drift_for_model settings now_drift (w_db w) model_id in
  let w' := _background_drift_calculation settings now_drift now_risk model_id w in
  (well_ranged (w_db w) model_id = true ->
   exists rows,
     run = Ok (rows, add_drift_metrics (w_db w) rows) /\
     drift_metrics (w_db w') = drift_metrics (w_db w) ++ rows /\
     match rows with
     | [] =>
         risk_history (w_db w') = risk_history (w_db w) /\
         exists earlier message,
           w_logs w' = w_logs w ++ earlier
                       ++ [{| lr_level := WARNING; lr_message := message |}]
     | _ =>
         exists entry,
           risk_history (w_db w') = risk_history (w_db w) ++ [entry] /\
           rh_model_id entry = model_id /\ rh_timestamp entry = now_risk
     end) /\
  (is_ok run = false ->
   w_db w' = w_db w /\
   exists earlier message,
     w_logs w' = w_logs w ++ earlier
                 ++ [{| lr_level := ERROR; lr_message := message |}]).
Proof.
  cbv zeta. unfold _background_drift_calculation. cbv zeta.
  cbn [w_db emit]. split.
  - intros Hrange. apply well_ranged_converts in Hrange.
    unfold calculate_drift_for_model.
    destruct (query_model (w_db w) model_id) as [model|].
    + destruct (drift_loop_spec settings now_drift (w_db w) model_id
                  (features_to_monitor (w_db w) model_id) Hrange)
        as (rows & Hloop & _ & _).
      rewrite Hloop. cbn [bind]. exists rows. split; [reflexivity|].
      destruct rows as [|r rows]; cbn.
      * split; [reflexivity|]. split; [reflexivity|].
        eexists [_]. eexists. rewrite <- app_assoc. reflexivity.
      * split; [reflexivity|]. eexists. repeat split.
    + exists []. split; [now rewrite add_drift_metrics_nil|]. cbn.
      split; [now rewrite app_nil_r|]. split; [reflexivity|].
      eexists [_]. eexists. rewrite <- app_assoc. reflexivity.
  - destruct (calculate_drift_for_model settings now_drift (w_db w) model_id)
      as [[rows db1]|e]; [discriminate|].
    intros _. cbn. split; [reflexivity|].
    eexists [_]. eexists. rewrite <- app_assoc. reflexivity.
Qed.

(** A fairness run writes the fairness table only. *)
Lemma fairness_run_frame (now : Z) (db : Db) (model_id : Z) (attribute : string) :
  let db' := snd (calculate_fairness_for_model now db model_id attribute) in
  risk_history db' = risk_history db /\ drift_metrics db' = drift_metrics db /\
  models db' = models db /\ policies db' = policies db /\
  prediction_logs db' = prediction_logs db.
Proof.
  cbv zeta. unfold calculate_fairness_for_model.
  destruct (query_prediction_logs db model_id) as [|l0 ls]; [now repeat split|].
  destruct (fold_left (group_step attribute) (l0 :: ls) []);
    now repeat split.
Qed.

(** X16. The background fairness task stores the rows of its fairness run and
    always appends one risk entry. With a clock past the model's stored
    fairness rows, the fairness component of that entry is the run's
    disparity times 100, capped at 100 and rounded to 2 decimals; a run
    without rows leaves the component at the value the database gave
    before. *)
Theorem fairness_run_feeds_the_risk_entry (now_fairness now_risk : Z)
    (model_id : Z) (attribute : string) (w : World) :
  (forall r, In r (fairness_metrics (w_db w)) ->
             (fm_model_id r =? model_id)%Z = true ->
             (fm_timestamp r < now_fairness)%Z) ->
  let run := calculate_fairness_for_model now_fairness (w_db w) model_id attribute in
  let w' := _background_fairness_calculation now_fairness now_risk model_id
              attribute w in
  exists entry,
    risk_history (w_db w') = risk_history (w_db w) ++ [entry] /\
    fairness_metrics (w_db w') = fairness_metrics (w_db w) ++ fr_groups (fst run) /\
    (forall row, In row (fr_groups (fst run)) ->
       fairness_component entry
       = py_round (py_min 100 (disparity_score row * 100)) 2) /\
    (fr_groups (fst run) = [] ->
     fairness_component entry = calculate_fairness_component (w_db w) model_id).
Proof.
  intros Hclock run w'.
  pose proof (FairnessClaims.fairness_rows_of_stats now_fairness (w_db w)
                model_id attribute) as Hrows.
  cbv zeta in Hrows. destruct Hrows as (Hstored & _ & _ & Hdisp).
  pose proof (FairnessMore.fairness_rows_stamp now_fairness (w_db w) model_id
                attribute) as Hstamp.
  pose proof (fairness_run_frame now_fairness (w_db w) model_id attribute)
    as (Hrh & _).
  fold run in Hstored, Hdisp, Hstamp, Hrh.
  subst w'. unfold _background_fairness_calculation. cbv zeta. cbn [w_db emit].
  fold run. destruct run as [res db1] eqn:Hrun. cbn [fst snd] in *.
  cbn [create_risk_history_entry w_db emit with_db add_risk_history
       risk_history fairness_metrics fairness_component].
  eexists. split; [rewrite Hrh; reflexivity|]. split; [exact Hstored|].
  unfold calculate_fairness_component, query_fairness_metrics.
  rewrite Hstored. split.
  - intros row Hin.
    destruct (newest_batch_first fm_timestamp
                (fun r => (fm_model_id r =? model_id)%Z)
                (fairness_metrics (w_db w)) (fr_groups res) now_fairness)
      as (y & Hy & Hynew).
    + intros Hnil. rewrite Hnil in Hin. destruct Hin.
    + intros x Hx. destruct (Hstamp x Hx) as [-> ->].
      split; [apply Z.eqb_refl|reflexivity].
    + exact Hclock.
    + rewrite Hy. now rewrite (Hdisp y Hynew), (Hdisp row Hin).
  - intros ->. now rewrite app_nil_r.
Qed.

End WithRuntime.

Lemma drift_needs_ten_logs_witness :
  (List.length (query_prediction_logs (db_logs one_log_prediction_key) 1) < 10)%nat
  /\ @values_convert plain_runtime (db_logs one_log_prediction_key) 1 = true
  /\ @calculate_drift_for_model plain_runtime default_settings 0
       (db_logs one_log_prediction_key) 1
     = Ok ([], db_logs one_log_prediction_key).
Proof.
  assert (Hfew : (List.length (query_prediction_logs
                                 (db_logs one_log_prediction_key) 1) < 10)%nat)
    by (cbn; lia).
  assert (Hconv : @values_convert plain_runtime
                    (db_logs one_log_prediction_key) 1 = true)
    by (vm_compute; reflexivity).
  split; [exact Hfew|]. split; [exact Hconv|].
  exact (@drift_needs_ten_logs plain_runtime default_settings 0
           (db_logs one_log_prediction_key) 1 Hfew Hconv).
Defined.

(** A first log whose feature is the integer 10^400: the request succeeds
    and stores the log, the drift calculation raises, and neither a drift
    row nor a risk entry is stored. *)
Lemma logged_prediction_runs_drift_then_risk_witness :
  let log_data :=
    {| lc_model_id := 1; lc_input_features := huge_amount;
       lc_prediction := 0.2; lc_timestamp := Some 1%Z |} in
  let out := @log_prediction plain_runtime default_settings 5 6 7 log_data
               (db_logs []) in
  is_ok (fst out) = true /\ snd out = db_logs one_log_huge_amount.
Proof.
  cbv zeta.
  pose proof (@logged_prediction_runs_drift_then_risk plain_runtime
                default_settings 5 6 7
                {| lc_model_id := 1; lc_input_features := huge_amount;
                   lc_prediction := 0.2; lc_timestamp := Some 1%Z |}
                (db_logs [])) as Hlog.
  cbv zeta in Hlog.
  change (query_model (db_logs []) 1) with (Some (model_with "draft")) in Hlog.
  cbv beta iota in Hlog.
  destruct Hlog as (Hfst & _ & _ & _ & Hraise).
  split; [now rewrite Hfst|].
  apply Hraise. vm_compute. reflexivity.
Defined.

(** Twelve logs in range: the calculation returns and the task stores its
    rows. *)
Lemma background_drift_updates_risk_only_with_rows_witness :
  let w := world_of (db_logs twelve_logs) in
  @well_ranged plain_runtime (w_db w) 1 = true /\
  exists rows,
    @calculate_drift_for_model plain_runtime default_settings 6 (w_db w) 1
    = Ok (rows, add_drift_metrics (w_db w) rows) /\
    drift_metrics
      (w_db (@_background_drift_calculation plain_runtime default_settings 6 7 1 w))
    = rows.
Proof.
  cbv zeta.
  assert (Hrange : @well_ranged plain_runtime
                     (w_db (world_of (db_logs twelve_logs))) 1 = true)
    by (vm_compute; reflexivity).
  split; [exact Hrange|].
  destruct (proj1 (@background_drift_updates_risk_only_with_rows plain_runtime
                     default_settings 6 7 1 (world_of (db_logs twelve_logs)))
                  Hrange) as (rows & Hrun & Hrows & _).
  exists rows. split; [exact Hrun|exact Hrows].
Defined.

Lemma fairness_run_feeds_the_risk_entry_witness :
  let w := world_of (db_logs two_group_logs) in
  let w' := @_background_fairness_calculation plain_runtime 5 6 1 "gender" w in
  (forall r, In r (fairness_metrics (w_db w)) ->
             (fm_model_id r =? 1)%Z = true -> (fm_timestamp r < 5)%Z) /\
  exists entry, risk_history (w_db w') = [entry].
Proof.
  assert (Hclock : forall r,
            In r (fairness_metrics (w_db (world_of (db_logs two_group_logs)))) ->
            (fm_model_id r =? 1)%Z = true -> (fm_timestamp r < 5)%Z)
    by (intros r []).
  split; [exact Hclock|].
  destruct (@fairness_run_feeds_the_risk_entry plain_runtime 5 6 1 "gender"
              (world_of (db_logs two_group_logs)) Hclock)
    as (entry & Hhist & _).
  exists entry. exact Hhist.
Defined.

End PipelineMore.

(** ** The batch simulation *)
Module SimulationMore.

Lemma batch_fold (policy : GovernancePolicy) (requests : list GovernanceCheckRequest) :
  forall (start : nat) (results : list ScenarioResult) (passed : nat),
    fold_left (batch_step policy)
      (combine (seq start (List.length requests)) requests) (results, passed)
    = (results
       ++ map (fun ireq =>
                 {| sc_result :=
                      simulate_governance_check (req_risk_score (snd ireq))
                        (req_fairness_score (snd ireq)) (req_override (snd ireq))
                        policy;
                    scenario_index := fst ireq |})
              (combine (seq start (List.length requests)) requests),
       (passed
        + List.length
            (filter (fun req =>
                       would_pass
                         (simulate_governance_check (req_risk_score req)
                            (req_fairness_score req) (req_override req) policy))
                    requests))%nat).
Proof.
  induction requests as [|req requests IH]; intros start results passed.
  - cbn. now rewrite app_nil_r, Nat.add_0_r.
  - cbn [List.length seq combine fold_left batch_step map filter].
    rewrite IH. rewrite <- app_assoc. cbn [app snd fst]. f_equal.
    destruct (would_pass _); cbn [List.length]; lia.
Qed.

(** X17. A batch of 1 to 100 scenarios under an active policy is answered with
    one result per scenario, in order and numbered from 0, each the
    simulation of its scenario under that policy; the count of passed
    scenarios is the number of results that pass, the pass rate lies between
    0 and 100, and the database is left as it was. *)
Theorem batch_simulation_reports_every_scenario
    (requests : list GovernanceCheckRequest) (w : World) (policy : GovernancePolicy) :
  requests <> [] ->
  (List.length requests <= 100)%nat ->
  query_active_policy (w_db w) = Some policy ->
  let out := batch_governance_simulation requests w in
  w_db (snd out) = w_db w /\
  exists response,
    fst out = Ok response /\
    scenario_count response = List.length requests /\
    map scenario_index (br_results response) = seq 0 (List.length requests) /\
    map sc_result (br_results response)
    = map (fun req =>
             simulate_governance_check (req_risk_score req)
               (req_fairness_score req) (req_override req) policy)
          requests /\
    passed_count response
    = List.length (filter (fun r => would_pass (sc_result r)) (br_results response)) /\
    (passed_count response <= scenario_count response)%nat /\
    (0 <= pass_rate response <= 100)%Q /\
    br_policy_id response = gp_id policy.
Proof.
  intros Hne Hlen Hp out. subst out. unfold batch_governance_simulation.
  destruct requests as [|req0 rest] eqn:Hreq; [contradiction|].
  rewrite <- Hreq in *. clear Hne.
  replace (100 <? List.length requests)%nat with false
    by (symmetry; apply Nat.ltb_ge; exact Hlen).
  rewrite Hp. unfold enumerate. rewrite (batch_fold policy requests 0 [] 0).
  cbn [app Nat.add fst snd w_db emit].
  set (sim := fun req => simulate_governance_check (req_risk_score req)
                           (req_fairness_score req) (req_override req) policy).
  set (passed := List.length (filter (fun req => would_pass (sim req)) requests)).
  assert (Hpass : (passed <= List.length requests)%nat)
    by apply filter_length_le.
  split; [reflexivity|]. eexists. split; [reflexivity|].
  cbn [scenario_count br_results passed_count pass_rate br_policy_id].
  split; [reflexivity|]. split; [|split; [|split; [|split; [exact Hpass|split]]]].
  - rewrite map_map. cbn [scenario_index].
    clear. generalize 0%nat.
    induction requests as [|r l IH]; intros n; cbn; [reflexivity|].
    now rewrite IH.
  - rewrite map_map. cbn [sc_result].
    clear. generalize 0%nat.
    induction requests as [|r l IH]; intros n; cbn; [reflexivity|].
    now rewrite IH.
  - subst passed sim. clear. generalize 0%nat.
    induction requests as [|r l IH]; intros n; cbn; [reflexivity|].
    destruct (would_pass _); cbn; now rewrite (IH (S n)).
  - assert (Hlenpos : (0 < inject_Z (Z.of_nat (List.length requests)))%Q).
    { change 0%Q with (inject_Z 0). rewrite <- Zlt_Qlt. rewrite Hreq. cbn. lia. }
    assert (Hp0 : (0 <= inject_Z (Z.of_nat passed))%Q)
      by (change 0%Q with (inject_Z 0); rewrite <- Zle_Qle; lia).
    assert (Hpl : (inject_Z (Z.of_nat passed)
                   <= inject_Z (Z.of_nat (List.length requests)))%Q)
      by (rewrite <- Zle_Qle; lia).
    assert (Hratio : (0 <= inject_Z (Z.of_nat passed)
                          / inject_Z (Z.of_nat (List.length requests)) <= 1)%Q).
    { split.
      - apply Qle_shift_div_l; [exact Hlenpos|]. now rewrite Qmult_0_l.
      - apply Qle_shift_div_r; [exact Hlenpos|]. now rewrite Qmult_1_l. }
    set (ratio := (inject_Z (Z.of_nat passed)
                   / inject_Z (Z.of_nat (List.length requests)))%Q) in *.
    split.
    + apply (RiskMore.py_round_ge _ 2 0). change (0 <= ratio * 100)%Q. lra.
    + apply (RiskMore.py_round_le _ 2 100). change (ratio * 100 <= 100)%Q. lra.
  - reflexivity.
Qed.

Lemma batch_simulation_reports_every_scenario_witness :
  let requests :=
    [{| req_risk_score := 95; req_fairness_score := 100; req_override := true |};
     {| req_risk_score := 40; req_fairness_score := 100; req_override := false |}] in
  requests <> [] /\ (List.length requests <= 100)%nat /\
  query_active_policy (w_db (world_of db_risk_95)) = Some policy_80_60 /\
  w_db (snd (batch_governance_simulation requests (world_of db_risk_95)))
  = db_risk_95.
Proof.
  cbv zeta. split; [discriminate|]. split; [cbn; lia|]. split; [reflexivity|].
  refine (proj1 (batch_simulation_reports_every_scenario _
                   (world_of db_risk_95) policy_80_60 _ _ eq_refl)).
  - discriminate.
  - cbn. lia.
Defined.

End SimulationMore.

(** ** Governance policy CRUD *)
Module PolicyMore.

(** X18. Creating policies keeps their names distinct: a payload whose name is
    taken is refused with a 400 and nothing is written. *)
Theorem policy_names_stay_unique (new_id : Z) (policy : GovernancePolicyCreate)
    (db : Db) :
  NoDup (map gp_name (policies db)) ->
  let out := create_policy new_id policy db in
  NoDup (map gp_name (policies (snd out))) /\
  (In (pc_name policy) (map gp_name (policies db)) ->
   out = (Raise (HTTPException 400
            [Lit "Policy with name '"; Lit (pc_name policy);
             Lit "' already exists"]), db)).
Proof.
  intros Hnd out. subst out. unfold create_policy.
  destruct (first (filter (fun p => String.eqb (gp_name p) (pc_name policy))
                          (policies db))) as [existing|] eqn:Hf.
  - cbn [snd]. split; [exact Hnd|reflexivity].
  - assert (Hfil : filter (fun p => String.eqb (gp_name p) (pc_name policy))
                     (policies db) = [])
      by (destruct (filter _ (policies db)); [reflexivity|discriminate]).
    assert (Hfree : ~ In (pc_name policy) (map gp_name (policies db))).
    { intros Hin. apply in_map_iff in Hin. destruct Hin as (p & Hp & Hin).
      rewrite filter_nil_iff in Hfil. specialize (Hfil p Hin).
      rewrite Hp, String.eqb_refl in Hfil. discriminate. }
    cbn [snd with_policies policies]. split; [|contradiction].
    rewrite map_app. cbn [map gp_name].
    apply NoDup_app; [exact Hnd|repeat constructor; intros []|].
    intros a Ha [<-|[]]. contradiction.
Qed.

Lemma policy_names_stay_unique_witness :
  let payload :=
    {| pc_name := "default"; pc_max_allowed_mri := 90;
       pc_max_allowed_disparity := 0.2; pc_approval_required_above_mri := 50;
       pc_active := true |} in
  NoDup (map gp_name (policies db_risk_95)) /\
  create_policy 2 payload db_risk_95
  = (Raise (HTTPException 400
       [Lit "Policy with name '"; Lit "default"; Lit "' already exists"]),
     db_risk_95).
Proof.
  assert (Hnd : NoDup (map gp_name (policies db_risk_95)))
    by (repeat constructor; intros []).
  split; [exact Hnd|].
  refine (proj2 (policy_names_stay_unique 2 _ db_risk_95 Hnd) _).
  now left.
Defined.

(** X19. A policy created under an unused name and a fresh primary key is the
    one [get_policy] returns for that key; the other keys read as before;
    deleting that key restores the policies table. *)
Theorem created_policy_round_trip (new_id : Z) (policy : GovernancePolicyCreate)
    (db : Db) :
  (forall p, In p (policies db) -> gp_id p <> new_id) ->
  (forall p, In p (policies db) -> gp_name p <> pc_name policy) ->
  let created := create_policy new_id policy db in
  exists db_policy,
    fst created = Ok db_policy /\
    gp_id db_policy = new_id /\ gp_name db_policy = pc_name policy /\
    max_allowed_mri db_policy = pc_max_allowed_mri policy /\
    max_allowed_disparity db_policy = pc_max_allowed_disparity policy /\
    approval_required_above_mri db_policy = pc_approval_required_above_mri policy /\
    gp_active db_policy = pc_active policy /\
    get_policy new_id (snd created) = Ok db_policy /\
    (forall other, other <> new_id ->
       get_policy other (snd created) = get_policy other db) /\
    policies (snd (delete_policy new_id (snd created))) = policies db.
Proof.
  intros Hid Hname created. subst created. unfold create_policy.
  assert (Hfil : filter (fun p => String.eqb (gp_name p) (pc_name policy))
                   (policies db) = []).
  { apply filter_nil_iff. intros p Hp. apply String.eqb_neq. now apply Hname. }
  rewrite Hfil. cbn [first hd_error fst snd].
  eexists. repeat (split; [reflexivity|]).
  assert (Hnone : filter (fun p => (gp_id p =? new_id)%Z) (policies db) = []).
  { apply filter_nil_iff. intros p Hp. apply Z.eqb_neq. now apply Hid. }
  split; [|split].
  - unfold get_policy. cbn [with_policies policies].
    rewrite filter_app, Hnone. cbn. now rewrite Z.eqb_refl.
  - intros other Hother. unfold get_policy. cbn [with_policies policies].
    rewrite filter_app. cbn [filter gp_id].
    replace (new_id =? other)%Z with false
      by (symmetry; apply Z.eqb_neq; congruence).
    now rewrite app_nil_r.
  - unfold delete_policy. cbn [with_policies policies].
    rewrite filter_app, Hnone. cbn [filter gp_id app]. rewrite Z.eqb_refl.
    cbn [first hd_error snd with_policies policies negb app].
    rewrite filter_app. cbn [filter gp_id]. rewrite Z.eqb_refl. cbn [negb].
    rewrite app_nil_r.
    induction (policies db) as [|p l IH]; cbn; [reflexivity|].
    rewrite (proj2 (Z.eqb_neq _ _) (Hid p (or_introl eq_refl))). cbn [negb].
    f_equal. apply IH.
    + intros q Hq. apply Hid. now right.
    + intros q Hq. apply Hname. now right.
    + rewrite filter_nil_iff in Hfil |- *. intros q Hq. apply Hfil. now right.
    + rewrite filter_nil_iff in Hnone |- *. intros q Hq. apply Hnone. now right.
Qed.

Lemma created_policy_round_trip_witness :
  let payload :=
    {| pc_name := "strict"; pc_max_allowed_mri := 50;
       pc_max_allowed_disparity := 0.1; pc_approval_required_above_mri := 30;
       pc_active := false |} in
  (forall p, In p (policies db_risk_95) -> gp_id p <> 2%Z) /\
  (forall p, In p (policies db_risk_95) -> gp_name p <> "strict") /\
  policies (snd (delete_policy 2 (snd (create_policy 2 payload db_risk_95))))
  = policies db_risk_95.
Proof.
  assert (H1 : forall p, In p (policies db_risk_95) -> gp_id p <> 2%Z)
    by (intros p [<-|[]]; discriminate).
  assert (H2 : forall p, In p (policies db_risk_95) -> gp_name p <> "strict")
    by (intros p [<-|[]]; discriminate).
  split; [exact H1|]. split; [exact H2|].
  destruct (created_policy_round_trip 2
              {| pc_name := "strict"; pc_max_allowed_mri := 50;
                 pc_max_allowed_disparity := 0.1;
                 pc_approval_required_above_mri := 30; pc_active := false |}
              db_risk_95 H1 H2)
    as (db_policy & _ & _ & _ & _ & _ & _ & _ & _ & _ & Hdel).
  exact Hdel.
Defined.

(** X20. Once a policy key is deleted, reading that key is a 404, whether or not
    the key existed; the other keys read as before. *)
Theorem deleted_policy_is_gone (policy_id : Z) (db : Db) :
  let db' := snd (delete_policy policy_id db) in
  get_policy policy_id db' = Raise (HTTPException 404 [Lit "Policy not found"]) /\
  forall other, other <> policy_id -> get_policy other db' = get_policy other db.
Proof.
  cbv zeta. unfold delete_policy.
  assert (Hgone : filter (fun p => (gp_id p =? policy_id)%Z)
                    (filter (fun p => negb (gp_id p =? policy_id)%Z) (policies db))
                  = []).
  { apply filter_nil_iff. intros p Hp. apply filter_In in Hp.
    destruct Hp as [_ Hp]. now apply negb_true_iff in Hp. }
  assert (Hkeep : forall other, other <> policy_id ->
            filter (fun p => (gp_id p =? other)%Z)
              (filter (fun p => negb (gp_id p =? policy_id)%Z) (policies db))
            = filter (fun p => (gp_id p =? other)%Z) (policies db)).
  { clear Hgone. intros other Hother.
    induction (policies db) as [|p l IH]; cbn; [reflexivity|].
    destruct (gp_id p =? policy_id)%Z eqn:E1; cbn.
    - apply Z.eqb_eq in E1.
      replace (gp_id p =? other)%Z with false
        by (symmetry; apply Z.eqb_neq; congruence).
      exact IH.
    - destruct (gp_id p =? other)%Z; [f_equal|]; exact IH. }
  destruct (first (filter (fun p => (gp_id p =? policy_id)%Z) (policies db)))
    as [db_policy|] eqn:Hf; cbn [snd].
  - split.
    + unfold get_policy. cbn [with_policies policies]. now rewrite Hgone.
    + intros other Hother. unfold get_policy. cbn [with_policies policies].
      now rewrite Hkeep.
  - split; [|reflexivity]. unfold get_policy. now rewrite Hf.
Qed.

End PolicyMore.

(** ** The first predictions of a model *)
Module ScenarioMore.
Section WithRuntime.
Context `{Runtime}.

(** X21. While a model has fewer than 10 prediction logs (the new one included),
    none of them with a feature value that is an integer beyond the range
    of the floats, and no drift or fairness rows, logging a prediction
    stores no drift row and appends a risk entry of score 0 with both
    components 0; under an active policy whose three thresholds are not
    negative, a governance evaluation that follows (the clock being past
    the model's stored risk entries) approves the model. *)
Theorem early_predictions_leave_the_model_approved (settings : Settings)
    (now_log now_drift now_risk : Z) (log_data : PredictionLogCreate) (db : Db)
    (model : ModelRegistry) (policy : GovernancePolicy) :
  query_model db (lc_model_id log_data) = Some model ->
  query_active_policy db = Some policy ->
  (List.length (query_prediction_logs db (lc_model_id log_data)) < 9)%nat ->
  values_convert db (lc_model_id log_data) = true ->
  forallb (fun kv => float_converts (snd kv)) (lc_input_features log_data) = true ->
  query_drift_metrics db (lc_model_id log_data) = [] ->
  query_fairness_metrics db (lc_model_id log_data) = [] ->
  (forall r, In r (risk_history db) ->
             (rh_model_id r =? lc_model_id log_data)%Z = true ->
             (rh_timestamp r < now_risk)%Z) ->
  (0 <= max_allowed_mri policy)%Q ->
  (0 <= max_allowed_disparity policy)%Q ->
  (0 <= approval_required_above_mri policy)%Q ->
  let db' := snd (log_prediction settings now_log now_drift now_risk log_data db) in
  drift_metrics db' = drift_metrics db /\
  (exists entry,
     risk_history db' = risk_history db ++ [entry] /\
     (risk_score entry == 0)%Q /\ drift_component entry = 0%Q /\
     fairness_component entry = 0%Q) /\
  gr_status (fst (evaluate_model_governance db' (lc_model_id log_data)))
  = "approved".
Proof.
  intros Hm Hp Hfew Hconv Hlogc Hdrift Hfair Hclock Hmri Hdisp Happr db'.
  subst db'.
  unfold log_prediction. rewrite Hm. cbv zeta.
  set (model_id := lc_model_id log_data) in *.
  set (plog := {| pl_model_id := model_id;
                  input_features := lc_input_features log_data;
                  prediction := lc_prediction log_data;
                  pl_timestamp := match lc_timestamp log_data with
                                  | Some t => t
                                  | None => now_log
                                  end |}).
  set (db0 := add_prediction_log db plog).
  assert (Hm0 : query_model db0 model_id = Some model) by exact Hm.
  assert (Hfew0 : (List.length (query_prediction_logs db0 model_id) < 10)%nat).
  { unfold query_prediction_logs, db0. cbn [add_prediction_log prediction_logs].
    rewrite filter_app, length_app. cbn [filter plog pl_model_id].
    rewrite Z.eqb_refl. cbn [List.length].
    unfold query_prediction_logs in Hfew. lia. }
  assert (Hconv0 : values_convert db0 model_id = true).
  { unfold values_convert, query_prediction_logs, db0.
    cbn [add_prediction_log prediction_logs].
    rewrite filter_app, forallb_app. cbn [filter plog pl_model_id].
    rewrite Z.eqb_refl. cbn [forallb]. rewrite andb_true_r.
    apply andb_true_iff. split; [exact Hconv|exact Hlogc]. }
  assert (Hrun : calculate_drift_for_model settings now_drift db0 model_id
                 = Ok ([], db0)).
  { unfold calculate_drift_for_model. rewrite Hm0.
    destruct (drift_loop_spec settings now_drift db0 model_id
                (features_to_monitor db0 model_id) Hconv0)
      as (rows & Hloop & Hnames & _).
    rewrite Hloop. cbn [bind].
    assert (Hfil : filter (enough_data settings db0 model_id)
                     (features_to_monitor db0 model_id) = []).
    { apply filter_nil_iff. intros f _.
      now apply PipelineMore.few_logs_not_enough_data. }
    rewrite Hfil in Hnames. destruct rows; [|discriminate].
    now rewrite PipelineMore.add_drift_metrics_nil. }
  rewrite Hrun. cbn [snd].
  assert (Hdc : calculate_drift_component db0 model_id = 0%Q).
  { unfold calculate_drift_component.
    change (query_drift_metrics db0 model_id) with (query_drift_metrics db model_id).
    now rewrite Hdrift. }
  assert (Hfc : calculate_fairness_component db0 model_id = 0%Q).
  { unfold calculate_fairness_component.
    change (query_fairness_metrics db0 model_id)
      with (query_fairness_metrics db model_id).
    now rewrite Hfair. }
  assert (Hscore : calculate_mri_score db0 model_id = (0 # 100)%Q).
  { unfold calculate_mri_score. cbv zeta. rewrite Hdc, Hfc. reflexivity. }
  set (entry := fst (create_risk_history_entry now_risk db0 model_id)).
  set (db1 := snd (create_risk_history_entry now_risk db0 model_id)).
  split; [reflexivity|]. split.
  - exists entry. split; [reflexivity|].
    subst entry. cbn [create_risk_history_entry fst risk_score drift_component
                        fairness_component].
    rewrite Hscore, Hdc, Hfc. repeat split.
  - assert (Hlatest : first (query_risk_history db1 model_id) = Some entry).
    { pose proof (DeploymentMore.newest_row_first rh_timestamp
                    (fun r => (rh_model_id r =? model_id)%Z)
                    (risk_history db) entry 1) as Hnew.
      cbn [limit] in Hnew.
      assert (Hfirst : forall L : list RiskHistory, first (firstn 1 L) = first L)
        by (intros [|? ?]; reflexivity).
      unfold query_risk_history. rewrite <- Hfirst.
      apply Hnew; [exact Hclock|apply Z.eqb_refl|lia]. }
    assert (Hm1 : query_model db1 model_id = Some model) by exact Hm.
    assert (Hp1 : query_active_policy db1 = Some policy) by exact Hp.
    destruct (evaluate_with_policy db1 model_id model policy Hm1 Hp1)
      as (r & d & Hr & Hd & Hev).
    rewrite Hlatest in Hr.
    change (query_fairness_metrics db1 model_id)
      with (query_fairness_metrics db model_id) in Hd.
    rewrite Hfair in Hd. cbn [first hd_error] in Hd.
    rewrite Hev. cbn [fst gr_status]. subst r d.
    change (risk_score entry) with (calculate_mri_score db0 model_id).
    rewrite Hscore. unfold governance_rules.
    replace (Qgtb (0 # 100) (max_allowed_mri policy)) with false
      by (symmetry; apply Qgtb_false;
          apply (Qle_trans _ 0); [discriminate|exact Hmri]).
    replace (Qgtb 0 (max_allowed_disparity policy)) with false
      by (symmetry; apply Qgtb_false; exact Hdisp).
    replace (Qgtb (0 # 100) (approval_required_above_mri policy)) with false
      by (symmetry; apply Qgtb_false;
          apply (Qle_trans _ 0); [discriminate|exact Happr]).
    reflexivity.
Qed.

End WithRuntime.

Lemma early_predictions_leave_the_model_approved_witness :
  let db := db_with "draft" [policy_80_60] [] [] in
  let log_data :=
    {| lc_model_id := 1; lc_input_features := []; lc_prediction := 0.9;
       lc_timestamp := None |} in
  query_model db 1 = Some (model_with "draft") /\
  gr_status
    (fst (evaluate_model_governance
            (snd (@log_prediction plain_runtime default_settings 5 6 7 log_data db))
            1))
  = "approved".
Proof.
  cbv zeta. split; [reflexivity|].
  refine (proj2 (proj2
    (@early_predictions_leave_the_model_approved plain_runtime default_settings
       5 6 7
       {| lc_model_id := 1; lc_input_features := []; lc_prediction := 0.9;
          lc_timestamp := None |}
       (db_with "draft" [policy_80_60] [] []) (model_with "draft") policy_80_60
       eq_refl eq_refl _ eq_refl eq_refl eq_refl eq_refl _ _ _ _))).
  - cbn. lia.
  - intros r [].
  - discriminate.
  - discriminate.
  - discriminate.
Defined.

End ScenarioMore.
